(** * Pallet packing engine: a shallow embedding of [PalletOptimizer]

    The TypeScript class [PalletOptimizer] is embedded method by method.
    Conventions of the embedding:

    - a JavaScript [number] holding a dimension, a weight, an area or an
      ordered quantity is an exact rational ([Q]); the rounding and the
      overflow of IEEE-754 are not modelled for them, and a rational zero
      stands for [+0];
    - [calculateFreightClass] and [isDivisible] compare the result of a few
      multiplications and divisions with a threshold, so that their answer
      can turn on the last bit of a quotient: these two are computed in
      binary64, each operation rounded to nearest even, on the doubles
      nearest to the rationals they are given;
    - the quotient [areaUsed / totalArea], whose divisor can vanish, is
      computed in [JSNumber], which adds the two infinities and [NaN] to the
      rationals;
    - a number that the code only builds from the literals 0 and 1 by adding 1
      (a grid coordinate, a usage count, a pallet id, the quantity 1 of a
      placed item) is an integer ([Z]);
    - a thrown [Error] is a value of [exn] ([console.warn] is not modelled);
      a [while] loop whose number of iterations is not bounded by its
      arguments takes a fuel argument and answers [OutOfFuel] when it is
      exhausted;
    - mutable objects are threaded explicitly: [buildPallet] returns the
      inventory it has updated. *)

From Stdlib Require Import List String Ascii Bool ZArith QArith Qround Qabs.
From Stdlib Require Import Lia Lqa Permutation.
From Stdlib Require SpecFloat.
Import ListNotations.

Open Scope Q_scope.

(** ** Numbers *)

Definition Qleb (x y : Q) : bool := Qle_bool x y.
Definition Qltb (x y : Q) : bool := negb (Qle_bool y x).
Definition Qgtb (x y : Q) : bool := Qltb y x.

Definition Math_abs (x : Q) : Q := Qabs x.
Definition Math_max (x y : Q) : Q := if Qleb x y then y else x.
Definition Math_min (x y : Q) : Q := if Qleb x y then x else y.
Definition Math_ceil (x : Q) : Z := Qceiling x.
Definition Math_floor (x : Q) : Z := Qfloor x.
(** [Math.round] rounds half-way cases towards plus infinity. *)
Definition Math_round (x : Q) : Z := Qfloor (x + (1 # 2)).

Definition EPSILON : Q := 1 # 1000000.
Definition HEIGHT_TOLERANCE : Q := 1 # 1000.

(** The result of a division whose divisor may be zero. *)
Inductive JSNumber : Type :=
| Finite (q : Q)
| PosInfinity
| NegInfinity
| NaN.

Definition js_div (a b : Q) : JSNumber :=
  if Qeq_bool b 0 then
    if Qeq_bool a 0 then NaN
    else if Qltb 0 a then PosInfinity else NegInfinity
  else Finite (a / b).

(** [a > b], false as soon as [a] is [NaN]. *)
Definition js_gtb (a : JSNumber) (b : Q) : bool :=
  match a with
  | Finite q => Qgtb q b
  | PosInfinity => true
  | NegInfinity => false
  | NaN => false
  end.

Definition js_ltb (a : JSNumber) (b : Q) : bool :=
  match a with
  | Finite q => Qltb q b
  | PosInfinity => false
  | NegInfinity => true
  | NaN => false
  end.

(** [Math.min(1, a)]. *)
Definition js_min1 (a : JSNumber) : JSNumber :=
  match a with
  | Finite q => Finite (Math_min 1 q)
  | PosInfinity => Finite 1
  | NegInfinity => NegInfinity
  | NaN => NaN
  end.

Definition js_sub (a b : JSNumber) : JSNumber :=
  match a, b with
  | NaN, _ | _, NaN => NaN
  | Finite x, Finite y => Finite (x - y)
  | Finite _, PosInfinity => NegInfinity
  | Finite _, NegInfinity => PosInfinity
  | PosInfinity, PosInfinity => NaN
  | PosInfinity, _ => PosInfinity
  | NegInfinity, NegInfinity => NaN
  | NegInfinity, _ => NegInfinity
  end.

Definition js_abs (a : JSNumber) : JSNumber :=
  match a with
  | Finite q => Finite (Math_abs q)
  | PosInfinity | NegInfinity => PosInfinity
  | NaN => NaN
  end.

(** ** Binary64

    The doubles of IEEE-754 with the operations of the Standard Library's
    [SpecFloat]: 53 bits of precision, rounding to nearest, ties to even.
    The operations answer doubles in canonical form, on which
    [SpecFloat.SFcompare] is the order of the values. *)

Definition float64 : Type := SpecFloat.spec_float.
Definition binary64_prec : Z := 53.
Definition binary64_emax : Z := 1024.

Definition f64_mul (a b : float64) : float64 :=
  SpecFloat.SFmul binary64_prec binary64_emax a b.
Definition f64_div (a b : float64) : float64 :=
  SpecFloat.SFdiv binary64_prec binary64_emax a b.
Definition f64_sub (a b : float64) : float64 :=
  SpecFloat.SFsub binary64_prec binary64_emax a b.
Definition f64_abs (a : float64) : float64 := SpecFloat.SFabs a.
(** [a <= b] and [a > b], false as soon as one of the two is [NaN]. *)
Definition f64_leb (a b : float64) : bool := SpecFloat.SFleb a b.
Definition f64_gtb (a b : float64) : bool := SpecFloat.SFltb b a.

(** The double nearest to a rational, ties to even: the quotient of the
    numerator by the denominator, rounded once.  It is the rational itself
    when a double has this value. *)
Definition binary64_of_Q (q : Q) : float64 :=
  match Qnum q with
  | Z0 => SpecFloat.S754_zero false
  | Zpos n =>
      f64_div (SpecFloat.S754_finite false n 0)
        (SpecFloat.S754_finite false (Qden q) 0)
  | Zneg n =>
      f64_div (SpecFloat.S754_finite true n 0)
        (SpecFloat.S754_finite false (Qden q) 0)
  end.

(** [Math.max(a, b)]: [NaN] when one of the two is, and [+0] is larger than
    [-0]. *)
Definition Math_max64 (a b : float64) : float64 :=
  if f64_leb b a then
    match a, b with
    | SpecFloat.S754_zero true, SpecFloat.S754_zero false => b
    | _, _ => a
    end
  else if f64_leb a b then b
  else SpecFloat.S754_nan.

(** [Math.round(a)]: the integer nearest to [a], the larger one of two that
    are equally near; [a] itself when it is an integer, an infinity or
    [NaN], and a zero of the sign of [a] when the integer is zero.  A double
    with a non-negative exponent is an integer; of the others
    [floor(a + 1/2)] is computed exactly. *)
Definition Math_round64 (a : float64) : float64 :=
  match a with
  | SpecFloat.S754_finite s m e =>
      if (0 <=? e)%Z then a
      else
        let n :=
          Z.shiftr (2 * (if s then Zneg m else Zpos m) + Z.shiftl 1 (- e))
            (- e + 1) in
        match n with
        | Z0 => SpecFloat.S754_zero s
        | _ =>
            SpecFloat.binary_normalize binary64_prec binary64_emax n 0 false
        end
  | _ => a
  end.

(** ** Results of fallible code *)

Inductive UnitType : Type := each | case.
Inductive WeightUnit : Type := lbs | kg.

Module SKU.
Record t : Type := mk {
  id : string;
  name : string;
  length : Q;
  width : Q;
  height : Q;
  weight : Q;
  packType : string
}.
End SKU.
Definition SKU := SKU.t.

(** The errors of one call: the three kinds raised by the class itself and
    the two runtime errors that building or reading the occupancy grid can
    raise for a footprint with a non-positive side. *)
Inductive exn : Type :=
| InvalidConfiguration (message : string)
| SkuExceedsPallet (sku : SKU)
| UnpackableRemainder (sku : option SKU)
| RangeError
| TypeError.

Inductive result (A : Type) : Type :=
| Ok (a : A)
| Throw (e : exn)
| OutOfFuel.
Arguments Ok {A} a.
Arguments Throw {A} e.
Arguments OutOfFuel {A}.

Definition bind {A B : Type} (c : result A) (k : A -> result B) : result B :=
  match c with
  | Ok a => k a
  | Throw e => Throw e
  | OutOfFuel => OutOfFuel
  end.

Notation "x <- c ;; k" := (bind c (fun x => k))
  (at level 61, c at next level, right associativity).

Definition dquote : string := String (ascii_of_nat 34) EmptyString.

(** The [message] of the thrown [Error]. *)
Definition error_message (e : exn) : string :=
  match e with
  | InvalidConfiguration m => m
  | SkuExceedsPallet sku =>
      ("SKU " ++ dquote ++ SKU.name sku ++ dquote ++ " (" ++ SKU.id sku
         ++ ") exceeds pallet dimensions.")%string
  | UnpackableRemainder (Some sku) =>
      ("Unable to pack SKU " ++ dquote ++ SKU.name sku ++ dquote ++ " ("
         ++ SKU.id sku
         ++ ") on the pallet. Check pallet dimensions or weight limits.")%string
  | UnpackableRemainder None =>
      "Unable to pack remaining items on the pallet. Check pallet configuration."%string
  | RangeError => "Invalid array length"%string
  | TypeError => "Cannot read properties of undefined (reading 'length')"%string
  end.

(** ** Data model *)

Module OrderItem.
Record t : Type := mk {
  sku : SKU;
  quantity : Q;
  unitType : UnitType
}.
End OrderItem.
Definition OrderItem := OrderItem.t.

Module PalletSize.
Record t : Type := mk {
  length : Q;
  width : Q
}.
End PalletSize.
Definition PalletSize := PalletSize.t.

Module PlacedItem.
Record t : Type := mk {
  sku : SKU;
  quantity : Z;
  x : Z;
  y : Z;
  width : Q;
  length : Q;
  rotated : bool
}.
End PlacedItem.
Definition PlacedItem := PlacedItem.t.

Module Layer.
Record t : Type := mk {
  items : list PlacedItem;
  height : Q;
  weight : Q
}.
End Layer.
Definition Layer := Layer.t.

Module Pallet.
Record t : Type := mk {
  id : Z;
  layers : list Layer;
  totalHeight : Q;
  totalWeight : Q;
  palletSize : PalletSize;
  freightClass : string
}.
End Pallet.
Definition Pallet := Pallet.t.

Module Position.
Record t : Type := mk {
  x : Z;
  y : Z
}.
End Position.
Definition Position := Position.t.

Module OrientationOption.
Record t : Type := mk {
  length : Q;
  width : Q;
  height : Q;
  footprintArea : Q
}.
End OrientationOption.
Definition OrientationOption := OrientationOption.t.

Module PackingItem.
Record t : Type := mk {
  sku : SKU;
  unitType : UnitType;
  remaining : Q;
  orientations : list OrientationOption;
  weight : Q
}.
End PackingItem.
Definition PackingItem := PackingItem.t.

Module LayerCandidate.
Record t : Type := mk {
  layer : Layer;
  usage : list (string * Z);
  areaUsed : Q;
  efficiency : JSNumber;
  wasteVolume : Q;
  weightBase : Q;
  perfectFit : bool;
  perfectlyDivisible : bool
}.
End LayerCandidate.
Definition LayerCandidate := LayerCandidate.t.

Module LayerQueueItem.
Record t : Type := mk {
  sku : SKU;
  unitType : UnitType;
  weight : Q;
  remaining : Q;
  orientationOptions : list OrientationOption;
  maxArea : Q
}.
End LayerQueueItem.
Definition LayerQueueItem := LayerQueueItem.t.

(** ** JavaScript containers *)

(** A [Map] is an association list in insertion order; [set] on a key that
    is present keeps the key's place. *)
Section JSMap.
Context {K V : Type} (eqb : K -> K -> bool).

Fixpoint Map_get (m : list (K * V)) (k : K) : option V :=
  match m with
  | [] => None
  | (k', v) :: m' => if eqb k' k then Some v else Map_get m' k
  end.

Definition Map_has (m : list (K * V)) (k : K) : bool :=
  match Map_get m k with Some _ => true | None => false end.

Fixpoint Map_set (m : list (K * V)) (k : K) (v : V) : list (K * V) :=
  match m with
  | [] => [(k, v)]
  | (k', v') :: m' =>
      if eqb k' k then (k', v) :: m' else (k', v') :: Map_set m' k v
  end.

Definition Map_values (m : list (K * V)) : list V := map snd m.
End JSMap.

(** [Array.prototype.sort] is stable.  For a comparator that is consistent
    on the elements, that is, whose sign orders them in classes, the
    language fixes the result: the elements in the order of the comparator,
    those of one class in the order they had.  It is embedded as the stable
    insertion sort, which computes that list; a comparator result that is
    not positive ([NaN] included) keeps [x] in front.  For a comparator that
    is not consistent the language leaves the order to the engine, and the
    insertion sort is then one order among those an engine may produce.  The
    comparators of the form [b.key - a.key] are consistent on all numbers;
    the comparator of [pickBestCandidate] compares within tolerances and is
    consistent on some lists only, so that what is stated about the
    candidate that comes first is stated for those lists. *)
Section ArraySort.
Context {A : Type} (cmp : A -> A -> JSNumber).

Definition precedes (x y : A) : bool := negb (js_gtb (cmp x y) 0).

Fixpoint insert_sorted (x : A) (l : list A) : list A :=
  match l with
  | [] => [x]
  | y :: l' => if precedes x y then x :: l else y :: insert_sorted x l'
  end.

Definition Array_sort (l : list A) : list A :=
  fold_right insert_sorted [] l.
End ArraySort.

(** [array.map(f).filter(x => x !== null)]. *)
Fixpoint filter_map {A B : Type} (f : A -> option B) (l : list A) : list B :=
  match l with
  | [] => []
  | a :: l' =>
      match f a with
      | Some b => b :: filter_map f l'
      | None => filter_map f l'
      end
  end.

(** The integers [lo, lo+1, ..., hi-1]. *)
Definition range (lo hi : Z) : list Z :=
  map (fun k => (lo + Z.of_nat k)%Z) (seq 0 (Z.to_nat (hi - lo))).

(** [for (let x = start; ...; x++)] over [n] iterations, leaving at the first
    iteration whose body returns a value. *)
Fixpoint for_first {A : Type} (n : nat) (x : Z)
    (body : Z -> result (option A)) : result (option A) :=
  match n with
  | O => Ok None
  | S n' =>
      r <- body x ;;
      match r with
      | Some a => Ok (Some a)
      | None => for_first n' (x + 1)%Z body
      end
  end.

(** The number of integers [x >= 0] with [x <= bound]. *)
Definition iterations (bound : Q) : nat :=
  if Qltb bound 0 then O else S (Z.to_nat (Qfloor bound)).

(** [for (const a of l)] threading a state through a fallible body. *)
Fixpoint for_each {A S : Type} (l : list A) (body : A -> S -> result S)
    (s : S) : result S :=
  match l with
  | [] => Ok s
  | a :: l' => s' <- body a s ;; for_each l' body s'
  end.

(** ** The optimizer *)

Module PalletOptimizer.
Record t : Type := mk {
  palletSize : PalletSize;
  maxHeight : Q;
  maxWeightBase : Q;
  weightUnit : WeightUnit;
  palletArea : Q
}.
End PalletOptimizer.
Definition PalletOptimizer := PalletOptimizer.t.

(** Convert input weight to pounds for internal calculations. *)
Definition toBaseWeight_in (weightUnit : WeightUnit) (weight : Q) : Q :=
  match weightUnit with
  | lbs => weight
  | kg => weight * (220462 # 100000)
  end.

(** The constructor. *)
Definition new_PalletOptimizer (palletSize : PalletSize) (maxHeight : Q)
    (maxWeight : Q) (weightUnit : WeightUnit) : result PalletOptimizer :=
  let self :=
    PalletOptimizer.mk palletSize maxHeight
      (toBaseWeight_in weightUnit maxWeight) weightUnit
      (PalletSize.length palletSize * PalletSize.width palletSize) in
  if Qleb (PalletOptimizer.maxHeight self) 0 then
    Throw (InvalidConfiguration "Max pallet height must be greater than zero.")
  else if Qleb (PalletOptimizer.maxWeightBase self) 0 then
    Throw (InvalidConfiguration "Max pallet weight must be greater than zero.")
  else Ok self.

(** The working state of [packLayerForHeight]. *)
Module LayerState.
Record t : Type := mk {
  grid : list (list bool);
  placedItems : list PlacedItem;
  usage : list (string * Z);
  areaUsed : Q;
  layerWeightInput : Q;
  layerWeightBase : Q
}.
End LayerState.
Definition LayerState := LayerState.t.

(** The working state of [buildPallet]. *)
Module PalletState.
Record t : Type := mk {
  inventory : list PackingItem;
  layers : list Layer;
  currentHeight : Q;
  currentWeightInput : Q;
  currentWeightBase : Q
}.
End PalletState.
Definition PalletState := PalletState.t.

(** [row[j] = v].  Where the grid is read or written the indices are within
    the rows and columns: the loops start at a coordinate that is not
    negative and stop at [Math.min(..., grid.length)]. *)
Fixpoint list_set {A : Type} (l : list A) (n : nat) (f : A -> A) : list A :=
  match l, n with
  | [], _ => []
  | a :: l', O => f a :: l'
  | a :: l', S n' => a :: list_set l' n' f
  end.

Definition grid_get (grid : list (list bool)) (i j : Z) : bool :=
  nth (Z.to_nat j) (nth (Z.to_nat i) grid []) false.

Definition grid_set (grid : list (list bool)) (i j : Z) : list (list bool) :=
  list_set grid (Z.to_nat i) (fun row => list_set row (Z.to_nat j) (fun _ => true)).

Section Methods.
Variable self : PalletOptimizer.

Let footprintLength : Q := PalletSize.length (PalletOptimizer.palletSize self).
Let footprintWidth : Q := PalletSize.width (PalletOptimizer.palletSize self).

Definition toBaseWeight (weight : Q) : Q :=
  toBaseWeight_in (PalletOptimizer.weightUnit self) weight.

(** Generate all viable orientation options for a SKU: the key of the
    deduplication renders each dimension with [toFixed(3)], that is its sign
    and its absolute value in thousandths, rounded half up. *)
Definition toFixed3 (x : Q) : bool * Z :=
  (Qltb x 0, Qfloor (Qabs x * 1000 + (1 # 2))).

Definition orientationKey (p : Q * Q * Q) : (bool * Z) * (bool * Z) * (bool * Z) :=
  let '(length, width, height) := p in
  (toFixed3 length, toFixed3 width, toFixed3 height).

Definition key_eqb (k1 k2 : (bool * Z) * (bool * Z) * (bool * Z)) : bool :=
  let '((s1, n1), (s2, n2), (s3, n3)) := k1 in
  let '((t1, m1), (t2, m2), (t3, m3)) := k2 in
  Bool.eqb s1 t1 && Z.eqb n1 m1 && Bool.eqb s2 t2 && Z.eqb n2 m2
    && Bool.eqb s3 t3 && Z.eqb n3 m3.

Definition permutations (sku : SKU) : list (Q * Q * Q) :=
  let d0 := SKU.length sku in
  let d1 := SKU.width sku in
  let d2 := SKU.height sku in
  [ (d0, d1, d2); (d0, d2, d1); (d1, d0, d2);
    (d1, d2, d0); (d2, d0, d1); (d2, d1, d0) ].

Definition fitsFootprint (length width : Q) : bool :=
  (Qleb length (footprintLength + EPSILON)
     && Qleb width (footprintWidth + EPSILON))
  || (Qleb width (footprintLength + EPSILON)
        && Qleb length (footprintWidth + EPSILON)).

(** The body of [permutations.forEach]. *)
Definition considerPermutation
    (unique : list (((bool * Z) * (bool * Z) * (bool * Z)) * OrientationOption))
    (p : Q * Q * Q)
    : list (((bool * Z) * (bool * Z) * (bool * Z)) * OrientationOption) :=
  let '(length, width, height) := p in
  if Qgtb height (PalletOptimizer.maxHeight self + HEIGHT_TOLERANCE) then unique
  else if negb (fitsFootprint length width) then unique
  else
    let key := orientationKey (length, width, height) in
    if Map_has key_eqb unique key then unique
    else
      Map_set key_eqb unique key
        (OrientationOption.mk length width height (length * width)).

Definition generateOrientationOptions (sku : SKU) : list OrientationOption :=
  let unique := fold_left considerPermutation (permutations sku) [] in
  Map_values unique.

(** The body of [items.forEach]. *)
Definition addOrderLine (item : OrderItem) (inventory : list PackingItem)
    : result (list PackingItem) :=
  if Qleb (OrderItem.quantity item) 0 then Ok inventory
  else
    let orientations := generateOrientationOptions (OrderItem.sku item) in
    if (List.length orientations =? 0)%nat then
      Throw (SkuExceedsPallet (OrderItem.sku item))
    else
      Ok (inventory
            ++ [PackingItem.mk (OrderItem.sku item) (OrderItem.unitType item)
                  (OrderItem.quantity item) orientations
                  (SKU.weight (OrderItem.sku item))]).

(** Prepare working inventory and validate that each SKU can fit on the
    pallet footprint. *)
Definition initializeInventory (items : list OrderItem)
    : result (list PackingItem) :=
  for_each items addOrderLine [].

Definition hasRemaining (inventory : list PackingItem) : bool :=
  existsb (fun item => Qgtb (PackingItem.remaining item) 0) inventory.

Definition getFirstRemainingItem (inventory : list PackingItem)
    : option PackingItem :=
  find (fun item => Qgtb (PackingItem.remaining item) 0) inventory.

(** [Array.from({ length: n }, f)] is empty when [n] is zero or less and
    raises a [RangeError] when [n] is above [2^32 - 1], the largest length
    of an array; for the lengths between, [Array(m)] raises a [RangeError]
    for an [m] that is negative or above [2^32 - 1]. *)
Definition createGrid : result (list (list bool)) :=
  let rows := Math_ceil footprintLength in
  if (rows <=? 0)%Z then Ok []
  else if (4294967295 <? rows)%Z then Throw RangeError
  else
    let columns := Math_ceil footprintWidth in
    if (columns <? 0)%Z || (4294967295 <? columns)%Z then Throw RangeError
    else Ok (repeat (repeat false (Z.to_nat columns)) (Z.to_nat rows)).

(** Check if item can be placed at position.  Reading [grid[0].length] of an
    empty grid raises a [TypeError]. *)
Definition canPlaceAt (grid : list (list bool)) (x y : Z) (length width : Q)
    : result bool :=
  match grid with
  | [] => Throw TypeError
  | row0 :: _ =>
      let endX :=
        Z.min (Math_ceil (inject_Z x + length)) (Z.of_nat (List.length grid)) in
      let endY :=
        Z.min (Math_ceil (inject_Z y + width)) (Z.of_nat (List.length row0)) in
      Ok (negb
            (existsb
               (fun i =>
                  existsb (fun j => grid_get grid i j)
                    (range (Math_floor (inject_Z y)) endY))
               (range (Math_floor (inject_Z x)) endX)))
  end.

(** Mark grid cells as occupied. *)
Definition markGridOccupied (grid : list (list bool)) (x y : Z)
    (length width : Q) : result (list (list bool)) :=
  match grid with
  | [] => Throw TypeError
  | row0 :: _ =>
      let endX :=
        Z.min (Math_ceil (inject_Z x + length)) (Z.of_nat (List.length grid)) in
      let endY :=
        Z.min (Math_ceil (inject_Z y + width)) (Z.of_nat (List.length row0)) in
      Ok (fold_left
            (fun g i =>
               fold_left (fun g' j => grid_set g' i j)
                 (range (Math_floor (inject_Z y)) endY) g)
            (range (Math_floor (inject_Z x)) endX) grid)
  end.

(** Find position for item with given dimensions. *)
Definition findPosition (grid : list (list bool)) (length width : Q)
    : result (option Position) :=
  if Qgtb length (footprintLength + EPSILON)
     || Qgtb width (footprintWidth + EPSILON)
  then Ok None
  else
    for_first (iterations (footprintLength - length)) 0
      (fun x =>
         for_first (iterations (footprintWidth - width)) 0
           (fun y =>
              free <- canPlaceAt grid x y length width ;;
              Ok (if free then Some (Position.mk x y) else None))).

(** Find best position for item using bottom-left heuristic. *)
Definition findBestPosition (grid : list (list bool)) (length width : Q)
    : result (option (Position * bool)) :=
  position <- findPosition grid length width ;;
  match position with
  | Some position => Ok (Some (position, false))
  | None =>
      position <- findPosition grid width length ;;
      match position with
      | Some position => Ok (Some (position, true))
      | None => Ok None
      end
  end.

(** Attempt to position a SKU using any of its orientation options. *)
Fixpoint findPlacementForOptions (grid : list (list bool))
    (options : list OrientationOption)
    : result (option (OrientationOption * (Position * bool))) :=
  match options with
  | [] => Ok None
  | option :: options' =>
      position <-
        findBestPosition grid (OrientationOption.length option)
          (OrientationOption.width option) ;;
      match position with
      | Some position => Ok (Some (option, position))
      | None => findPlacementForOptions grid options'
      end
  end.
(** Determine if the remaining height can be perfectly divided by the layer
    height, in binary64. *)
Definition isDivisible (totalHeight layerHeight : Q) : bool :=
  let totalHeight := binary64_of_Q totalHeight in
  let layerHeight := binary64_of_Q layerHeight in
  if f64_leb layerHeight (binary64_of_Q HEIGHT_TOLERANCE) then false
  else
    let quotient := f64_div totalHeight layerHeight in
    f64_leb (f64_abs (f64_sub quotient (Math_round64 quotient)))
      (binary64_of_Q HEIGHT_TOLERANCE).

Definition normalizeHeight (value : Q) : Q :=
  inject_Z (Math_round (value / HEIGHT_TOLERANCE)) * HEIGHT_TOLERANCE.

(** The queue entry of one inventory item for a layer height, [None] for the
    [null] of an item without an orientation of that height. *)
Definition toQueueItem (layerHeight : Q) (item : PackingItem)
    : option LayerQueueItem :=
  let options :=
    filter
      (fun option =>
         Qleb (Math_abs (OrientationOption.height option - layerHeight))
           HEIGHT_TOLERANCE)
      (PackingItem.orientations item) in
  match options with
  | [] => None
  | first :: others =>
      let maxArea :=
        fold_left Math_max (map OrientationOption.footprintArea others)
          (OrientationOption.footprintArea first) in
      Some (LayerQueueItem.mk (PackingItem.sku item) (PackingItem.unitType item)
              (PackingItem.weight item) (PackingItem.remaining item) options
              maxArea)
  end.

(** One successful placement: the body of the [while] loop after
    [findPlacementForOptions] has answered. *)
Definition placeUnit (candidate : LayerQueueItem) (skuWeightBase : Q)
    (option : OrientationOption) (position : Position * bool)
    (st : LayerState) : result LayerState :=
  let rotated := snd position in
  let placedLength :=
    if rotated then OrientationOption.width option
    else OrientationOption.length option in
  let placedWidth :=
    if rotated then OrientationOption.length option
    else OrientationOption.width option in
  let placed :=
    PlacedItem.mk (LayerQueueItem.sku candidate) 1
      (Position.x (fst position)) (Position.y (fst position))
      placedWidth placedLength rotated in
  let skuId := SKU.id (LayerQueueItem.sku candidate) in
  let usage :=
    Map_set String.eqb (LayerState.usage st) skuId
      (match Map_get String.eqb (LayerState.usage st) skuId with
       | Some n => n
       | None => 0
       end + 1)%Z in
  grid <-
    markGridOccupied (LayerState.grid st) (Position.x (fst position))
      (Position.y (fst position)) placedLength placedWidth ;;
  Ok (LayerState.mk grid
        (LayerState.placedItems st ++ [placed])
        usage
        (LayerState.areaUsed st + placedLength * placedWidth)
        (LayerState.layerWeightInput st + LayerQueueItem.weight candidate)
        (LayerState.layerWeightBase st + skuWeightBase)).

(** [while (candidate.remaining > 0)]: every iteration that does not leave
    the loop lowers [remaining] by one, so [remaining] rounded up is all the
    iterations there can be. *)
Fixpoint placeUnits (fuel : nat) (candidate : LayerQueueItem)
    (skuWeightBase : Q) (sortedOptions : list OrientationOption)
    (maxWeightRemainingBase : Q) (remaining : Q) (st : LayerState)
    : result LayerState :=
  match fuel with
  | O => Ok st
  | S fuel' =>
      if Qleb remaining 0 then Ok st
      else if Qgtb (LayerState.layerWeightBase st + skuWeightBase)
                (maxWeightRemainingBase + EPSILON)
      then Ok st
      else
        placement <- findPlacementForOptions (LayerState.grid st) sortedOptions ;;
        match placement with
        | None => Ok st
        | Some (option, position) =>
            st' <- placeUnit candidate skuWeightBase option position st ;;
            placeUnits fuel' candidate skuWeightBase sortedOptions
              maxWeightRemainingBase (remaining - 1) st'
        end
  end.

(** The body of [for (const candidate of queue)]. *)
Definition packCandidate (maxWeightRemainingBase : Q)
    (candidate : LayerQueueItem) (st : LayerState) : result LayerState :=
  let skuWeightBase := toBaseWeight (LayerQueueItem.weight candidate) in
  if Qleb skuWeightBase 0 then Ok st
  else
    let sortedOptions :=
      Array_sort
        (fun a b =>
           Finite (OrientationOption.footprintArea b
                   - OrientationOption.footprintArea a))
        (LayerQueueItem.orientationOptions candidate) in
    placeUnits (Z.to_nat (Math_ceil (LayerQueueItem.remaining candidate)))
      candidate
      skuWeightBase sortedOptions maxWeightRemainingBase
      (LayerQueueItem.remaining candidate) st.

(** Attempt to pack a layer using a specific target height. *)
Definition packLayerForHeight (inventory : list PackingItem)
    (layerHeight maxHeightRemaining maxWeightRemainingBase : Q)
    : result (option LayerCandidate) :=
  let queue :=
    filter_map (toQueueItem layerHeight)
      (filter (fun item => Qgtb (PackingItem.remaining item) 0) inventory) in
  if (List.length queue =? 0)%nat then Ok None
  else
    let queue :=
      Array_sort
        (fun a b => Finite (LayerQueueItem.maxArea b - LayerQueueItem.maxArea a))
        queue in
    grid <- createGrid ;;
    st <-
      for_each queue (packCandidate maxWeightRemainingBase)
        (LayerState.mk grid [] [] 0 0 0) ;;
    let totalArea := PalletOptimizer.palletArea self in
    let areaUsed := LayerState.areaUsed st in
    if (List.length (LayerState.placedItems st) =? 0)%nat then Ok None
    else
      let efficiency := js_min1 (js_div areaUsed totalArea) in
      let wasteVolume := Math_max 0 ((totalArea - areaUsed) * layerHeight) in
      let perfectFit := Qleb (Math_abs (areaUsed - totalArea)) EPSILON in
      let perfectlyDivisible :=
        perfectFit && isDivisible maxHeightRemaining layerHeight in
      let layer :=
        Layer.mk (LayerState.placedItems st) layerHeight
          (LayerState.layerWeightInput st) in
      Ok (Some
            (LayerCandidate.mk layer (LayerState.usage st) areaUsed efficiency
               wasteVolume (LayerState.layerWeightBase st) perfectFit
               perfectlyDivisible)).

(** The comparator of [pickBestCandidate]. *)
Definition compareCandidates (a b : LayerCandidate) : JSNumber :=
  if js_gtb
       (js_abs (js_sub (LayerCandidate.efficiency a) (LayerCandidate.efficiency b)))
       EPSILON
  then js_sub (LayerCandidate.efficiency b) (LayerCandidate.efficiency a)
  else if Qgtb
            (Math_abs (LayerCandidate.wasteVolume a - LayerCandidate.wasteVolume b))
            EPSILON
  then Finite (LayerCandidate.wasteVolume a - LayerCandidate.wasteVolume b)
  else if Qgtb
            (Math_abs
               (Layer.height (LayerCandidate.layer a)
                - Layer.height (LayerCandidate.layer b)))
            HEIGHT_TOLERANCE
  then Finite
         (Layer.height (LayerCandidate.layer b)
          - Layer.height (LayerCandidate.layer a))
  else Finite (LayerCandidate.weightBase b - LayerCandidate.weightBase a).

(** Determine the most suitable candidate layer based on efficiency and
    waste: element [0] of the sorted copy, [None] for [undefined].  Which
    element that is does not depend on the engine when the comparator is
    consistent on the candidates. *)
Definition pickBestCandidate (candidates : list LayerCandidate)
    : option LayerCandidate :=
  hd_error (Array_sort compareCandidates candidates).

(** The map from normalized height to the first height seen with that key. *)
Definition collectHeights (inventory : list PackingItem)
    (maxHeightRemaining : Q) : list (Q * Q) :=
  fold_left
    (fun heightMap item =>
       if Qleb (PackingItem.remaining item) 0 then heightMap
       else
         fold_left
           (fun heightMap option =>
              if Qleb (OrientationOption.height option)
                   (maxHeightRemaining + HEIGHT_TOLERANCE)
              then
                let key := normalizeHeight (OrientationOption.height option) in
                if Map_has Qeq_bool heightMap key then heightMap
                else Map_set Qeq_bool heightMap key (OrientationOption.height option)
              else heightMap)
           (PackingItem.orientations item) heightMap)
    inventory [].

(** The three tiers of the selection hierarchy, first non-empty one wins. *)
Definition selectTier (candidates : list LayerCandidate) : list LayerCandidate :=
  let perfectlyDivisible := filter LayerCandidate.perfectlyDivisible candidates in
  if (0 <? List.length perfectlyDivisible)%nat then perfectlyDivisible
  else
    let perfectFits := filter LayerCandidate.perfectFit candidates in
    if (0 <? List.length perfectFits)%nat then perfectFits
    else candidates.

(** The candidate of every collected height, in the order of the map. *)
Definition collectCandidates (inventory : list PackingItem)
    (heights : list Q) (maxHeightRemaining maxWeightRemainingBase : Q)
    : result (list LayerCandidate) :=
  for_each heights
    (fun heightValue candidates =>
       candidate <-
         packLayerForHeight inventory heightValue maxHeightRemaining
           maxWeightRemainingBase ;;
       match candidate with
       | Some candidate => Ok (candidates ++ [candidate])
       | None => Ok candidates
       end)
    [].

(** Select the next optimal layer according to the optimization hierarchy. *)
Definition selectNextLayer (inventory : list PackingItem)
    (maxHeightRemaining maxWeightRemainingBase : Q)
    : result (option LayerCandidate) :=
  if Qleb maxWeightRemainingBase EPSILON then Ok None
  else
    let heightMap := collectHeights inventory maxHeightRemaining in
    if (List.length heightMap =? 0)%nat then Ok None
    else
      candidates <-
        collectCandidates inventory (Map_values heightMap) maxHeightRemaining
          maxWeightRemainingBase ;;
      if (List.length candidates =? 0)%nat then Ok None
      else Ok (pickBestCandidate (selectTier candidates)).

(** [toBaseWeight] on a double. *)
Definition toBaseWeight64 (weight : float64) : float64 :=
  match PalletOptimizer.weightUnit self with
  | lbs => weight
  | kg => f64_mul weight (binary64_of_Q (220462 # 100000))
  end.

(** Calculate freight class based on density, in binary64. *)
Definition calculateFreightClass (weightInputUnits height : Q) : string :=
  let weightInputUnits := binary64_of_Q weightInputUnits in
  let height := binary64_of_Q height in
  let weightLbs :=
    match PalletOptimizer.weightUnit self with
    | lbs => weightInputUnits
    | kg => toBaseWeight64 weightInputUnits
    end in
  let volume :=
    f64_div
      (f64_mul
         (f64_mul (binary64_of_Q footprintLength) (binary64_of_Q footprintWidth))
         (Math_max64 height (binary64_of_Q EPSILON)))
      (binary64_of_Q 1728) in
  let density := f64_div weightLbs volume in
  if f64_gtb density (binary64_of_Q 50) then "Class 50"
  else if f64_gtb density (binary64_of_Q 35) then "Class 55"
  else if f64_gtb density (binary64_of_Q 30) then "Class 60"
  else if f64_gtb density (binary64_of_Q (45 # 2)) then "Class 65"
  else if f64_gtb density (binary64_of_Q 15) then "Class 70"
  else if f64_gtb density (binary64_of_Q (27 # 2)) then "Class 77.5"
  else if f64_gtb density (binary64_of_Q 12) then "Class 85"
  else if f64_gtb density (binary64_of_Q (21 # 2)) then "Class 92.5"
  else if f64_gtb density (binary64_of_Q 9) then "Class 100"
  else if f64_gtb density (binary64_of_Q 8) then "Class 110"
  else if f64_gtb density (binary64_of_Q 7) then "Class 125"
  else if f64_gtb density (binary64_of_Q 6) then "Class 150"
  else if f64_gtb density (binary64_of_Q 5) then "Class 175"
  else if f64_gtb density (binary64_of_Q 4) then "Class 200"
  else if f64_gtb density (binary64_of_Q 3) then "Class 250"
  else if f64_gtb density (binary64_of_Q 2) then "Class 300"
  else if f64_gtb density (binary64_of_Q 1) then "Class 400"
  else "Class 500".

(** [inventory.find(item => item.sku.id === skuId)] followed by the update
    of the item found. *)
Fixpoint decrementFirst (inventory : list PackingItem) (skuId : string)
    (count : Z) : list PackingItem :=
  match inventory with
  | [] => []
  | item :: rest =>
      if String.eqb (SKU.id (PackingItem.sku item)) skuId then
        PackingItem.mk (PackingItem.sku item) (PackingItem.unitType item)
          (Math_max 0 (PackingItem.remaining item - inject_Z count))
          (PackingItem.orientations item) (PackingItem.weight item)
        :: rest
      else item :: decrementFirst rest skuId count
  end.

(** [nextLayer.usage.forEach(...)]. *)
Definition applyUsage (inventory : list PackingItem) (usage : list (string * Z))
    : list PackingItem :=
  fold_left (fun inventory '(skuId, count) => decrementFirst inventory skuId count)
    usage inventory.

(** The state of [buildPallet] after one more layer. *)
Definition addLayer (st : PalletState) (nextLayer : LayerCandidate) : PalletState :=
  PalletState.mk
    (applyUsage (PalletState.inventory st) (LayerCandidate.usage nextLayer))
    (PalletState.layers st ++ [LayerCandidate.layer nextLayer])
    (PalletState.currentHeight st + Layer.height (LayerCandidate.layer nextLayer))
    (PalletState.currentWeightInput st
     + Layer.weight (LayerCandidate.layer nextLayer))
    (PalletState.currentWeightBase st + LayerCandidate.weightBase nextLayer).

(** The [while] loop of [buildPallet]. *)
Fixpoint buildPallet_loop (fuel : nat) (st : PalletState) : result PalletState :=
  if negb (hasRemaining (PalletState.inventory st)) then Ok st
  else
    match fuel with
    | O => OutOfFuel
    | S fuel' =>
        let remainingHeight :=
          PalletOptimizer.maxHeight self - PalletState.currentHeight st in
        let remainingWeightBase :=
          PalletOptimizer.maxWeightBase self - PalletState.currentWeightBase st in
        if Qleb remainingHeight HEIGHT_TOLERANCE
           || Qleb remainingWeightBase EPSILON
        then Ok st
        else
          nextLayer <-
            selectNextLayer (PalletState.inventory st) remainingHeight
              remainingWeightBase ;;
          match nextLayer with
          | None => Ok st
          | Some nextLayer => buildPallet_loop fuel' (addLayer st nextLayer)
          end
    end.

(** Build a single pallet layer by layer until height or weight limits are
    reached; the second component is the inventory after the call. *)
Definition buildPallet (fuel : nat) (inventory : list PackingItem)
    (palletId : Z) : result (Pallet * list PackingItem) :=
  st <- buildPallet_loop fuel (PalletState.mk inventory [] 0 0 0) ;;
  Ok (Pallet.mk palletId (PalletState.layers st) (PalletState.currentHeight st)
        (PalletState.currentWeightInput st) (PalletOptimizer.palletSize self)
        (calculateFreightClass (PalletState.currentWeightInput st)
           (PalletState.currentHeight st)),
      PalletState.inventory st).

(** The [while] loop of [optimize]; [inner] is the fuel of each
    [buildPallet]. *)
Fixpoint optimize_loop (fuel inner : nat) (inventory : list PackingItem)
    (pallets : list Pallet) (palletId : Z) : result (list Pallet) :=
  if negb (hasRemaining inventory) then Ok pallets
  else
    match fuel with
    | O => OutOfFuel
    | S fuel' =>
        built <- buildPallet inner inventory palletId ;;
        let '(pallet, inventory') := built in
        if (List.length (Pallet.layers pallet) =? 0)%nat then
          Throw (UnpackableRemainder
                   (option_map PackingItem.sku (getFirstRemainingItem inventory')))
        else
          optimize_loop fuel' inner inventory' (pallets ++ [pallet])
            (palletId + 1)%Z
    end.

(** Main optimization function - packs items into pallets with zero
    leftovers. *)
Definition optimize (fuel : nat) (items : list OrderItem) : result (list Pallet) :=
  inventory <- initializeInventory items ;;
  optimize_loop fuel fuel inventory [] 1%Z.

End Methods.

(** * Notions used in the statements *)

Definition sumQ (l : list Q) : Q := fold_right Qplus 0 l.

(** The order lines that ask for at least one unit. *)
Definition positiveLines (items : list OrderItem) : list OrderItem :=
  filter (fun item => Qltb 0 (OrderItem.quantity item)) items.

(** The threshold table of the freight classifier, densest class first: a
    density above the threshold of a row is given the class of the first
    such row. *)
Definition freightTable : list (Q * string) :=
  [ (50, "Class 50"); (35, "Class 55"); (30, "Class 60"); (45 # 2, "Class 65");
    (15, "Class 70"); (27 # 2, "Class 77.5"); (12, "Class 85");
    (21 # 2, "Class 92.5"); (9, "Class 100"); (8, "Class 110");
    (7, "Class 125"); (6, "Class 150"); (5, "Class 175"); (4, "Class 200");
    (3, "Class 250"); (2, "Class 300"); (1, "Class 400") ]%string.

Definition classOfDensity (density : float64) : string :=
  match
    find (fun row => f64_gtb density (binary64_of_Q (fst row))) freightTable
  with
  | Some row => snd row
  | None => "Class 500"
  end.

Definition weightInPounds (unit : WeightUnit) (weight : Q) : Q :=
  match unit with
  | lbs => weight
  | kg => weight * (220462 # 100000)
  end.

(** The weight of a pallet in pounds, as a double. *)
Definition weightInPounds64 (unit : WeightUnit) (weight : float64) : float64 :=
  match unit with
  | lbs => weight
  | kg => f64_mul weight (binary64_of_Q (220462 # 100000))
  end.

(** The volume of a pallet of the given height, in cubic feet, its height
    floored at [EPSILON]: [(length * width * max(height, EPSILON)) / 1728]
    in binary64. *)
Definition palletVolume (self : PalletOptimizer) (height : Q) : float64 :=
  f64_div
    (f64_mul
       (f64_mul
          (binary64_of_Q (PalletSize.length (PalletOptimizer.palletSize self)))
          (binary64_of_Q (PalletSize.width (PalletOptimizer.palletSize self))))
       (Math_max64 (binary64_of_Q height) (binary64_of_Q EPSILON)))
    (binary64_of_Q 1728).

(** [weightLbs / volume] in binary64. *)
Definition palletDensity (self : PalletOptimizer) (weight height : Q) : float64 :=
  f64_div
    (weightInPounds64 (PalletOptimizer.weightUnit self) (binary64_of_Q weight))
    (palletVolume self height).

(** The two filters of the orientation generator. *)
Definition passesFilters (self : PalletOptimizer) (p : Q * Q * Q) : bool :=
  let '(length, width, height) := p in
  Qleb height (PalletOptimizer.maxHeight self + HEIGHT_TOLERANCE)
  && fitsFootprint self length width.

(** Keep the first permutation of every key. *)
Fixpoint dedupByKey (seen : list ((bool * Z) * (bool * Z) * (bool * Z)))
    (ps : list (Q * Q * Q)) : list (Q * Q * Q) :=
  match ps with
  | [] => []
  | p :: ps' =>
      if existsb (fun k => key_eqb k (orientationKey p)) seen
      then dedupByKey seen ps'
      else p :: dedupByKey (seen ++ [orientationKey p]) ps'
  end.

Definition optionOf (p : Q * Q * Q) : OrientationOption :=
  let '(length, width, height) := p in
  OrientationOption.mk length width height (length * width).

(** The permutations passing both filters, one per rounded-dimension key. *)
Definition validOrientations (self : PalletOptimizer) (sku : SKU)
    : list OrientationOption :=
  map optionOf (dedupByKey [] (filter (passesFilters self) (permutations sku))).

(** An order line passes the inventory set-up when it asks for nothing or
    its SKU has an orientation. *)
Definition lineAccepted (self : PalletOptimizer) (item : OrderItem) : Prop :=
  OrderItem.quantity item <= 0
  \/ exists p, In p (permutations (OrderItem.sku item))
               /\ passesFilters self p = true.

(** The packing item that the inventory set-up makes of an order line. *)
Definition packingItemOf (self : PalletOptimizer) (item : OrderItem) : PackingItem :=
  PackingItem.mk (OrderItem.sku item) (OrderItem.unitType item)
    (OrderItem.quantity item) (generateOrientationOptions self (OrderItem.sku item))
    (SKU.weight (OrderItem.sku item)).


(** ** The selection hierarchy *)

(** [a] is ranked strictly before [b] by the comparator of
    [pickBestCandidate]: efficiency descending, then waste ascending, then
    height descending, then weight descending, a field being consulted when
    the fields before it are within tolerance. *)
Definition ranksBefore (a b : LayerCandidate) : bool :=
  js_ltb (compareCandidates a b) 0.

(** The first non-empty list among the perfectly divisible candidates, the
    perfect fits and all the candidates. *)
Definition firstNonEmptyTier (candidates : list LayerCandidate)
    : list LayerCandidate :=
  match
    filter (fun tier => negb (List.length tier =? 0)%nat)
      [ filter LayerCandidate.perfectlyDivisible candidates;
        filter LayerCandidate.perfectFit candidates;
        candidates ]
  with
  | tier :: _ => tier
  | [] => []
  end.

(** The ranking is transitive on a tier: when [b] is not strictly before
    [a] and [c] is not strictly before [b], [c] is not strictly before [a]. *)
Definition rankingTransitiveOn (tier : list LayerCandidate) : Prop :=
  forall a b c,
    In a tier -> In b tier -> In c tier ->
    ranksBefore b a = false -> ranksBefore c b = false -> ranksBefore c a = false.

(** The same, as a test over the triples of the tier. *)
Definition rankingTransitiveOnb (tier : list LayerCandidate) : bool :=
  forallb
    (fun a =>
       forallb
         (fun b =>
            forallb
              (fun c =>
                 ranksBefore b a || ranksBefore c b || negb (ranksBefore c a))
              tier)
         tier)
    tier.

(** Three one-unit SKUs on a 10 x 10 footprint whose layers rank in a cycle. *)
Module Cycle.
Definition pallet : PalletOptimizer :=
  PalletOptimizer.mk (PalletSize.mk 10 10) 3 100 lbs 100.
Definition low : SKU := SKU.mk "LOW" "Low" 10 5 1 1 "case".
Definition mid : SKU := SKU.mk "MID" "Mid" 10 (5000008 # 1000000) 2 1 "case".
Definition high : SKU := SKU.mk "HIGH" "High" 10 (5000016 # 1000000) 3 1 "case".
Definition inventory : list PackingItem :=
  map (packingItemOf pallet)
    [OrderItem.mk low 1 each; OrderItem.mk mid 1 each; OrderItem.mk high 1 each].
(** The candidates collected for a fresh pallet and the one selected. *)
Definition candidates : list LayerCandidate :=
  Eval vm_compute in
    match
      collectCandidates pallet inventory (Map_values (collectHeights inventory 3))
        3 100
    with
    | Ok found => found
    | _ => []
    end.
Definition selected : option LayerCandidate :=
  Eval vm_compute in
    match selectNextLayer pallet inventory 3 100 with
    | Ok found => found
    | _ => None
    end.
End Cycle.

(** Four one-unit SKUs on a 4 x 4 footprint under a height of 10.  The post
    leaves room beside it; the plate, the cube and the block each cover the
    footprint, at the heights 3, 4 and 6, none of which divides 10: no
    candidate is perfectly divisible and three are perfect fits. *)
Module Tiers.
Definition pallet : PalletOptimizer :=
  PalletOptimizer.mk (PalletSize.mk 4 4) 10 100 lbs 16.
Definition post : SKU := SKU.mk "POST" "Post" 2 2 5 5 "case".
Definition plate : SKU := SKU.mk "PLATE" "Plate" 4 4 3 5 "case".
Definition cube : SKU := SKU.mk "CUBE" "Cube" 4 4 4 5 "case".
Definition block : SKU := SKU.mk "BLOCK" "Block" 4 4 6 5 "case".
Definition inventory : list PackingItem :=
  map (packingItemOf pallet)
    [OrderItem.mk post 1 each; OrderItem.mk plate 1 each;
     OrderItem.mk cube 1 each; OrderItem.mk block 1 each].
(** The candidates collected for a fresh pallet, in the order of the
    heights 5, 3, 4 and 6, and the one selected. *)
Definition candidates : list LayerCandidate :=
  Eval vm_compute in
    match
      collectCandidates pallet inventory
        (Map_values (collectHeights inventory 10)) 10 100
    with
    | Ok found => found
    | _ => []
    end.
Definition selected : option LayerCandidate :=
  Eval vm_compute in
    match selectNextLayer pallet inventory 10 100 with
    | Ok found => found
    | _ => None
    end.
End Tiers.

(** ** One unit placed *)

(** [packLayerForHeight] places one unit of [candidate]: its weight is
    positive and within the weight left, one of its options has found a
    position on the grid, and the state has been updated. *)
Definition unitPlaced (self : PalletOptimizer) (maxWeightRemainingBase : Q)
    (candidate : LayerQueueItem) (st st' : LayerState) : Prop :=
  let skuWeightBase := toBaseWeight self (LayerQueueItem.weight candidate) in
  0 < skuWeightBase
  /\ LayerState.layerWeightBase st + skuWeightBase
     <= maxWeightRemainingBase + EPSILON
  /\ exists option position,
       In option (LayerQueueItem.orientationOptions candidate)
       /\ findBestPosition self (LayerState.grid st)
            (OrientationOption.length option) (OrientationOption.width option)
          = Ok (Some position)
       /\ placeUnit candidate skuWeightBase option position st = Ok st'.

Inductive unitsPlaced (self : PalletOptimizer) (maxWeightRemainingBase : Q)
    (candidate : LayerQueueItem) : nat -> LayerState -> LayerState -> Prop :=
| unitsPlaced_O (st : LayerState) :
    unitsPlaced self maxWeightRemainingBase candidate 0 st st
| unitsPlaced_S (n : nat) (st st1 st2 : LayerState) :
    unitPlaced self maxWeightRemainingBase candidate st st1 ->
    unitsPlaced self maxWeightRemainingBase candidate n st1 st2 ->
    unitsPlaced self maxWeightRemainingBase candidate (S n) st st2.

(** The queue of [packLayerForHeight], sorted. *)
Definition layerQueue (inventory : list PackingItem) (layerHeight : Q)
    : list LayerQueueItem :=
  Array_sort
    (fun a b => Finite (LayerQueueItem.maxArea b - LayerQueueItem.maxArea a))
    (filter_map (toQueueItem layerHeight)
       (filter (fun item => Qgtb (PackingItem.remaining item) 0) inventory)).

(** ** Properties of layers and pallets *)

(** A packing item as the inventory set-up leaves it, whatever is left of
    its quantity. *)
Definition wfItem (self : PalletOptimizer) (item : PackingItem) : Prop :=
  PackingItem.orientations item
  = generateOrientationOptions self (PackingItem.sku item)
  /\ PackingItem.weight item = SKU.weight (PackingItem.sku item).

(** [p] lies on the pallet as option [o] does, turned by a quarter when
    [rotated]. *)
Definition placedWithOption (p : PlacedItem) (o : OrientationOption) : Prop :=
  if PlacedItem.rotated p then
    PlacedItem.length p = OrientationOption.width o
    /\ PlacedItem.width p = OrientationOption.length o
  else
    PlacedItem.length p = OrientationOption.length o
    /\ PlacedItem.width p = OrientationOption.width o.

(** Every item of the layer was placed with an orientation of its SKU whose
    height is the height of the layer, within the height tolerance. *)
Definition heightHomogeneous (self : PalletOptimizer) (layer : Layer) : Prop :=
  forall p, In p (Layer.items layer) ->
    exists o,
      In o (generateOrientationOptions self (PlacedItem.sku p))
      /\ placedWithOption p o
      /\ Qabs (OrientationOption.height o - Layer.height layer)
         <= HEIGHT_TOLERANCE.





(** The grid has [rows] rows of [columns] cells. *)
Definition gridDims (grid : list (list bool)) (rows columns : nat) : Prop :=
  List.length grid = rows
  /\ Forall (fun row => List.length row = columns) grid.




(** ** Budgets *)

(** The placed items of a pallet, layer after layer. *)
Definition placedItemsOf (pallet : Pallet) : list PlacedItem :=
  flat_map Layer.items (Pallet.layers pallet).

(** The weight in pounds of one placed unit. *)
Definition unitWeightBase (self : PalletOptimizer) (p : PlacedItem) : Q :=
  toBaseWeight self (SKU.weight (PlacedItem.sku p)).

(** The pound-normalized total weight of a pallet: the sum over its placed
    units. *)
Definition placedWeightBase (self : PalletOptimizer) (pallet : Pallet) : Q :=
  sumQ (map (unitWeightBase self) (placedItemsOf pallet)).

Definition layersHeight (pallet : Pallet) : Q :=
  sumQ (map Layer.height (Pallet.layers pallet)).

(** The weights accumulated by the layer packer are those of the placed
    items and stay within the weight left. *)
Definition weightInvariant (self : PalletOptimizer) (mwrb : Q) (st : LayerState)
    : Prop :=
  LayerState.layerWeightBase st
  == sumQ (map (unitWeightBase self) (LayerState.placedItems st))
  /\ toBaseWeight self (LayerState.layerWeightInput st)
     == LayerState.layerWeightBase st
  /\ (LayerState.placedItems st = []
      \/ LayerState.layerWeightBase st <= mwrb + EPSILON).

(** The accumulators of the pallet builder are those of the layers and stay
    within the budgets once there is a layer. *)
Definition budgetInvariant (self : PalletOptimizer) (st : PalletState) : Prop :=
  Forall (wfItem self) (PalletState.inventory st)
  /\ PalletState.currentHeight st == sumQ (map Layer.height (PalletState.layers st))
  /\ PalletState.currentWeightBase st
     == sumQ (map (unitWeightBase self)
                (flat_map Layer.items (PalletState.layers st)))
  /\ toBaseWeight self (PalletState.currentWeightInput st)
     == PalletState.currentWeightBase st
  /\ (PalletState.layers st = []
      \/ (PalletState.currentHeight st
          <= PalletOptimizer.maxHeight self + HEIGHT_TOLERANCE
          /\ PalletState.currentWeightBase st
             <= PalletOptimizer.maxWeightBase self + EPSILON)).

(** ** Quantities *)

Definition sumZ (l : list Z) : Z := fold_right Z.add 0%Z l.

Definition itemId (item : PackingItem) : string :=
  SKU.id (PackingItem.sku item).

Definition candidateId (candidate : LayerQueueItem) : string :=
  SKU.id (LayerQueueItem.sku candidate).

(** The whole units in a quantity: the quantity rounded up, none when it is
    zero or less.  These are the iterations of [while (remaining > 0)] with
    [remaining -= 1]. *)
Definition unitsOf (quantity : Q) : Z := Z.max 0 (Qceiling quantity).

Definition unitsLeft (item : PackingItem) : Z :=
  unitsOf (PackingItem.remaining item).

(** A quantity that is a whole number. *)
Definition wholeNumber (quantity : Q) : Prop :=
  quantity == inject_Z (Qfloor quantity).

(** The quantity asked for under a SKU id: the lines with a quantity of zero
    or less count for nothing. *)
Definition requestedQuantity (skuId : string) (items : list OrderItem) : Q :=
  sumQ (map (fun item => Math_max 0 (OrderItem.quantity item))
          (filter (fun item => String.eqb (SKU.id (OrderItem.sku item)) skuId)
             items)).

(** The same in whole units, every line rounded up. *)
Definition requestedUnits (skuId : string) (items : list OrderItem) : Z :=
  sumZ (map (fun item => unitsOf (OrderItem.quantity item))
          (filter (fun item => String.eqb (SKU.id (OrderItem.sku item)) skuId)
             items)).

(** The units of a SKU id among placed items. *)
Definition placedCount (skuId : string) (placed : list PlacedItem) : Z :=
  sumZ (map PlacedItem.quantity
          (filter (fun p => String.eqb (SKU.id (PlacedItem.sku p)) skuId) placed)).

(** The units of a SKU id placed on the pallets, all layers together. *)
Definition placedQuantity (skuId : string) (pallets : list Pallet) : Z :=
  placedCount skuId (flat_map placedItemsOf pallets).

(** The units of a SKU id still in the inventory. *)
Definition remainingQuantity (skuId : string) (inventory : list PackingItem) : Z :=
  sumZ (map unitsLeft
          (filter (fun item => String.eqb (itemId item) skuId) inventory)).

Definition totalRemaining (inventory : list PackingItem) : Z :=
  sumZ (map unitsLeft inventory).

(** The count that a usage map holds for a SKU id, 0 without an entry. *)
Definition usageOf (usage : list (string * Z)) (skuId : string) : Z :=
  match Map_get String.eqb usage skuId with
  | Some n => n
  | None => 0%Z
  end.

(** What [decrementFirst] does to an item with the given id. *)
Definition decremented (skuId : string) (count : Z) (item : PackingItem)
    : PackingItem :=
  if String.eqb (itemId item) skuId then
    PackingItem.mk (PackingItem.sku item) (PackingItem.unitType item)
      (Math_max 0 (PackingItem.remaining item - inject_Z count))
      (PackingItem.orientations item) (PackingItem.weight item)
  else item.

(** What [applyUsage] does to an item when no two items share an id. *)
Definition used (usage : list (string * Z)) (item : PackingItem) : PackingItem :=
  match Map_get String.eqb usage (itemId item) with
  | Some count =>
      PackingItem.mk (PackingItem.sku item) (PackingItem.unitType item)
        (Math_max 0 (PackingItem.remaining item - inject_Z count))
        (PackingItem.orientations item) (PackingItem.weight item)
  | None => item
  end.

(** An item with units left stands behind an item of the same SKU id:
    [inventory.find] never reaches it. *)
Inductive shadowed : list PackingItem -> Prop :=
| shadowed_here (a : PackingItem) (rest : list PackingItem) (b : PackingItem) :
    In b rest -> itemId a = itemId b -> 0 < PackingItem.remaining b ->
    shadowed (a :: rest)
| shadowed_later (a : PackingItem) (rest : list PackingItem) :
    shadowed rest -> shadowed (a :: rest).

(** The usage map of the layer packer counts the placed items, one entry
    per SKU id; every placed item is one unit of a queued candidate, of
    positive weight. *)
Definition countInvariant (self : PalletOptimizer) (queue : list LayerQueueItem)
    (st : LayerState) : Prop :=
  (forall skuId,
      usageOf (LayerState.usage st) skuId
      = placedCount skuId (LayerState.placedItems st))
  /\ NoDup (map fst (LayerState.usage st))
  /\ forall p, In p (LayerState.placedItems st) ->
       PlacedItem.quantity p = 1%Z
       /\ exists candidate,
            In candidate queue
            /\ PlacedItem.sku p = LayerQueueItem.sku candidate
            /\ 0 < toBaseWeight self (LayerQueueItem.weight candidate).

(** The inventory of a conserving run: no two items share an id. *)
Definition tidy (inventory : list PackingItem) : Prop :=
  NoDup (map itemId inventory).

(** The pallet builder conserves the units of every SKU id of the inventory
    [initial] it started from, and uses some once it has a layer. *)
Definition conservationInvariant (self : PalletOptimizer)
    (initial : list PackingItem) (st : PalletState) : Prop :=
  tidy (PalletState.inventory st)
  /\ Forall (wfItem self) (PalletState.inventory st)
  /\ (forall skuId,
        (placedCount skuId (flat_map Layer.items (PalletState.layers st))
         + remainingQuantity skuId (PalletState.inventory st)
         = remainingQuantity skuId initial)%Z)
  /\ (totalRemaining (PalletState.inventory st) <= totalRemaining initial)%Z
  /\ (PalletState.layers st <> [] ->
      (totalRemaining (PalletState.inventory st) < totalRemaining initial)%Z)
  /\ (forall p, In p (flat_map Layer.items (PalletState.layers st)) ->
        0 < unitWeightBase self p
        /\ exists item, In item initial
                        /\ PlacedItem.sku p = PackingItem.sku item).

(** All the units asked for. *)
Definition totalRequested (items : list OrderItem) : Z :=
  sumZ (map (fun item => unitsOf (OrderItem.quantity item)) items).

(** ** Concrete inputs *)

Module Ex.
(** A 4 x 4 footprint, at most 10 high and 100 lbs. *)
Definition small : PalletOptimizer :=
  PalletOptimizer.mk (PalletSize.mk 4 4) 10 100 lbs 16.

Definition box : SKU := SKU.mk "BOX" "Box" 2 2 2 5 "case".
Definition crate : SKU := SKU.mk "CRATE" "Crate" 9 9 9 5 "case".
Definition drum : SKU := SKU.mk "DRUM" "Drum" 12 12 12 5 "case".
Definition feather : SKU := SKU.mk "FEATHER" "Feather" 2 2 2 0 "case".

Definition line (sku : SKU) (quantity : Q) : OrderItem :=
  OrderItem.mk sku quantity each.

Definition boxes : list PackingItem := map (packingItemOf small) [line box 5].
Definition boxCandidates : list LayerCandidate :=
  Eval vm_compute in
    match
      collectCandidates small boxes (Map_values (collectHeights boxes 10)) 10 100
    with
    | Ok found => found
    | _ => []
    end.
Definition feathers : list PackingItem :=
  map (packingItemOf small) [line feather 2].

(** Five boxes: a layer of four and a layer of one on a single pallet. *)
Definition order : list OrderItem := [line box 5].

(** Two boxes and a half: three boxes are placed. *)
Definition fractional : list OrderItem := [line box (5 # 2)].
Definition fractionalPacked : list Pallet :=
  Eval vm_compute in
    match optimize small 3 fractional with
    | Ok pallets => pallets
    | _ => []
    end.
Definition packed : list Pallet :=
  Eval vm_compute in
    match optimize small 3 order with
    | Ok pallets => pallets
    | _ => []
    end.
Definition firstPallet : Pallet :=
  Eval vm_compute in
    nth 0 packed (Pallet.mk 0 [] 0 0 (PalletSize.mk 0 0) EmptyString).
Definition firstLayer : Layer :=
  Eval vm_compute in nth 0 (Pallet.layers firstPallet) (Layer.mk [] 0 0).

(** A 48 x 40 footprint and one slab of 550 lbs that covers it, 33 high:
    the density of the pallet is [550 / 36.666666666666664], the double next
    above 15. *)
Definition dock : PalletOptimizer :=
  PalletOptimizer.mk (PalletSize.mk 48 40) 60 2000 lbs 1920.
Definition slab : SKU := SKU.mk "SLAB" "Slab" 48 40 33 550 "case".
Definition slabs : list PackingItem := map (packingItemOf dock) [line slab 1].
Definition slabPallet : Pallet :=
  Eval vm_compute in
    match buildPallet dock 2 slabs 1 with
    | Ok (pallet, _) => pallet
    | _ => Pallet.mk 0 [] 0 0 (PalletSize.mk 0 0) EmptyString
    end.
Definition slabsLeft : list PackingItem :=
  Eval vm_compute in
    match buildPallet dock 2 slabs 1 with
    | Ok (_, inventory) => inventory
    | _ => []
    end.

(** Two boxes and three tiles, 1 high: two lines under two SKU ids. *)
Definition tile : SKU := SKU.mk "TILE" "Tile" 2 2 1 3 "case".
Definition twoLines : list OrderItem := [line box 2; line tile 3].
Definition twoLinesPacked : list Pallet :=
  Eval vm_compute in
    match optimize small 6 twoLines with
    | Ok pallets => pallets
    | _ => []
    end.

(** A box and two feathers; a feather and a crate. *)
Definition mixed : list OrderItem := [line box 1; line feather 2].
Definition rejected : list OrderItem := [line feather 1; line crate 1].

(** The pallet built for the feathers has no layer. *)
Definition featherPallet : Pallet :=
  Eval vm_compute in
    match buildPallet small 1 feathers 1 with
    | Ok (pallet, _) => pallet
    | _ => Pallet.mk 0 [] 0 0 (PalletSize.mk 0 0) EmptyString
    end.
End Ex.


(** * Notions used in the further properties *)

From Stdlib Require Import Sorted.
From Stdlib Require SetoidList SetoidPermutation.

(** What the height map holds while it is filled: every entry is a height
    seen, under its own key, and no two entries share a key. *)
Definition heightMap_ok (seen : Q -> Prop) (m : list (Q * Q)) : Prop :=
  (forall k v, In (k, v) m -> k == normalizeHeight v /\ seen v)
  /\ forall i j a b,
       i <> j -> nth_error m i = Some a -> nth_error m j = Some b ->
       ~ fst a == fst b.

(** * The first version of the optimizer

    The same file holds the class as it was before the rewrite: no
    orientation options, no tolerances, one layer for every SKU height.  It
    is embedded in the module [Legacy]; [canPlaceAt] and [markGridOccupied]
    are the ones above, their text is unchanged. *)

Module Legacy.

Module PalletOptimizer.
Record t : Type := mk {
  palletSize : PalletSize;
  maxHeight : Q;
  maxWeight : Q
}.
End PalletOptimizer.
Definition PalletOptimizer := PalletOptimizer.t.

(** The constructor stores its arguments and checks nothing. *)
Definition new_PalletOptimizer (palletSize : PalletSize)
    (maxHeight maxWeight : Q) : PalletOptimizer :=
  PalletOptimizer.mk palletSize maxHeight maxWeight.

(** The working state of [packLayer] and [packLayerWithWeightLimit]. *)
Module LayerState.
Record t : Type := mk {
  grid : list (list bool);
  placedItems : list PlacedItem;
  totalWeight : Q
}.
End LayerState.
Definition LayerState := LayerState.t.

(** The working state of [packPallet]. *)
Module PalletState.
Record t : Type := mk {
  layers : list Layer;
  currentHeight : Q;
  currentWeight : Q
}.
End PalletState.
Definition PalletState := PalletState.t.

(** [expandedItems.findIndex(item => item.sku.id === placedItem.sku.id)]
    followed by the update of the item found: its quantity is lowered, and
    the item is spliced out once nothing is left of it. *)
Fixpoint removePacked (expandedItems : list OrderItem) (placedItem : PlacedItem)
    : list OrderItem :=
  match expandedItems with
  | [] => []
  | item :: rest =>
      if String.eqb (SKU.id (OrderItem.sku item))
           (SKU.id (PlacedItem.sku placedItem))
      then
        let quantity :=
          OrderItem.quantity item - inject_Z (PlacedItem.quantity placedItem) in
        if Qleb quantity 0 then rest
        else
          OrderItem.mk (OrderItem.sku item) quantity (OrderItem.unitType item)
          :: rest
      else item :: removePacked rest placedItem
  end.

Section Methods.
Variable self : PalletOptimizer.

Let footprintLength : Q := PalletSize.length (PalletOptimizer.palletSize self).
Let footprintWidth : Q := PalletSize.width (PalletOptimizer.palletSize self).

(** Expand items into individual units for easier packing: a copy of every
    line. *)
Definition expandItems (items : list OrderItem) : list OrderItem :=
  map
    (fun item =>
       OrderItem.mk (OrderItem.sku item) (OrderItem.quantity item)
         (OrderItem.unitType item))
    items.

(** Group items by similar heights for efficient layering: a [Map] from the
    height of the SKU to copies of the lines of that height, its entries
    sorted by decreasing height. *)
Definition groupByHeight (items : list OrderItem)
    : list (Q * list OrderItem) :=
  let groups :=
    fold_left
      (fun groups item =>
         let height := SKU.height (OrderItem.sku item) in
         let groups :=
           if Map_has Qeq_bool groups height then groups
           else Map_set Qeq_bool groups height [] in
         Map_set Qeq_bool groups height
           (match Map_get Qeq_bool groups height with
            | Some found => found
            | None => []
            end
            ++ [OrderItem.mk (OrderItem.sku item) (OrderItem.quantity item)
                  (OrderItem.unitType item)]))
      items [] in
  Array_sort (fun a b => Finite (fst b - fst a)) groups.

(** [Array(n).fill(null).map(() => Array(m).fill(false))]: [Array] raises a
    [RangeError] for a length that is negative or above [2^32 - 1], and the
    rows are built only when there is one. *)
Definition newGrid : result (list (list bool)) :=
  let rows := Math_ceil footprintLength in
  if (rows <? 0)%Z || (4294967295 <? rows)%Z then Throw RangeError
  else if (rows =? 0)%Z then Ok []
  else
    let columns := Math_ceil footprintWidth in
    if (columns <? 0)%Z || (4294967295 <? columns)%Z then Throw RangeError
    else Ok (repeat (repeat false (Z.to_nat columns)) (Z.to_nat rows)).

(** Find position for item with given dimensions. *)
Definition findPosition (grid : list (list bool)) (length width : Q)
    : result (option Position) :=
  if Qgtb length footprintLength || Qgtb width footprintWidth then Ok None
  else
    for_first (iterations (footprintLength - length)) 0
      (fun x =>
         for_first (iterations (footprintWidth - width)) 0
           (fun y =>
              free <- canPlaceAt grid x y length width ;;
              Ok (if free then Some (Position.mk x y) else None))).

(** Find best position for item using bottom-left heuristic. *)
Definition findBestPosition (grid : list (list bool)) (length width : Q)
    : result (option (Position * bool)) :=
  position <- findPosition grid length width ;;
  match position with
  | Some position => Ok (Some (position, false))
  | None =>
      position <- findPosition grid width length ;;
      match position with
      | Some position => Ok (Some (position, true))
      | None => Ok None
      end
  end.

(** One unit of [item] at [position]: the branch [if (position)] of the two
    packing loops. *)
Definition placeItem (item : OrderItem) (position : Position * bool)
    (st : LayerState) : result LayerState :=
  let rotated := snd position in
  let placed :=
    PlacedItem.mk (OrderItem.sku item) 1
      (Position.x (fst position)) (Position.y (fst position))
      (if rotated then SKU.length (OrderItem.sku item)
       else SKU.width (OrderItem.sku item))
      (if rotated then SKU.width (OrderItem.sku item)
       else SKU.length (OrderItem.sku item))
      rotated in
  grid <-
    markGridOccupied (LayerState.grid st) (PlacedItem.x placed)
      (PlacedItem.y placed) (PlacedItem.length placed)
      (PlacedItem.width placed) ;;
  Ok (LayerState.mk grid
        (LayerState.placedItems st ++ [placed])
        (LayerState.totalWeight st + SKU.weight (OrderItem.sku item))).

(** [for (let i = 0; i < item.quantity; i++)] of [packLayer], over the
    iterations that are left. *)
Fixpoint packItem (iterations : nat) (item : OrderItem) (st : LayerState)
    : result LayerState :=
  match iterations with
  | O => Ok st
  | S iterations' =>
      position <-
        findBestPosition (LayerState.grid st) (SKU.length (OrderItem.sku item))
          (SKU.width (OrderItem.sku item)) ;;
      match position with
      | Some position =>
          st' <- placeItem item position st ;;
          packItem iterations' item st'
      | None => Ok st
      end
  end.

(** The lines sorted by decreasing area of the SKU. *)
Definition sortByArea (items : list OrderItem) : list OrderItem :=
  Array_sort
    (fun a b =>
       Finite
         (SKU.length (OrderItem.sku b) * SKU.width (OrderItem.sku b)
          - SKU.length (OrderItem.sku a) * SKU.width (OrderItem.sku a)))
    items.

(** Pack items into a single layer using 2D bin packing. *)
Definition packLayer (items : list OrderItem) (layerHeight : Q)
    : result Layer :=
  grid <- newGrid ;;
  st <-
    for_each (sortByArea items)
      (fun item st =>
         packItem (Z.to_nat (Math_ceil (OrderItem.quantity item))) item st)
      (LayerState.mk grid [] 0) ;;
  Ok (Layer.mk (LayerState.placedItems st) layerHeight
        (LayerState.totalWeight st)).

(** The same loop with the weight check in front of every unit. *)
Fixpoint packItemWithWeightLimit (iterations : nat) (item : OrderItem)
    (maxWeight : Q) (st : LayerState) : result LayerState :=
  match iterations with
  | O => Ok st
  | S iterations' =>
      if Qgtb (LayerState.totalWeight st + SKU.weight (OrderItem.sku item))
           maxWeight
      then Ok st
      else
        position <-
          findBestPosition (LayerState.grid st)
            (SKU.length (OrderItem.sku item)) (SKU.width (OrderItem.sku item)) ;;
        match position with
        | Some position =>
            st' <- placeItem item position st ;;
            packItemWithWeightLimit iterations' item maxWeight st'
        | None => Ok st
        end
  end.

(** Pack layer with weight limit. *)
Definition packLayerWithWeightLimit (items : list OrderItem)
    (layerHeight maxWeight : Q) : result Layer :=
  grid <- newGrid ;;
  st <-
    for_each (sortByArea items)
      (fun item st =>
         packItemWithWeightLimit
           (Z.to_nat (Math_ceil (OrderItem.quantity item))) item maxWeight st)
      (LayerState.mk grid [] 0) ;;
  Ok (Layer.mk (LayerState.placedItems st) layerHeight
        (LayerState.totalWeight st)).

(** Calculate freight class based on density, in binary64: the height is
    taken as it is, so that the density of a pallet without a layer is
    [0 / 0]. *)
Definition calculateFreightClass (weight height : Q) : string :=
  let weight := binary64_of_Q weight in
  let height := binary64_of_Q height in
  let volume :=
    f64_div
      (f64_mul
         (f64_mul (binary64_of_Q footprintLength) (binary64_of_Q footprintWidth))
         height)
      (binary64_of_Q 1728) in
  let density := f64_div weight volume in
  if f64_gtb density (binary64_of_Q 50) then "Class 50"
  else if f64_gtb density (binary64_of_Q 35) then "Class 55"
  else if f64_gtb density (binary64_of_Q 30) then "Class 60"
  else if f64_gtb density (binary64_of_Q (45 # 2)) then "Class 65"
  else if f64_gtb density (binary64_of_Q 15) then "Class 70"
  else if f64_gtb density (binary64_of_Q (27 # 2)) then "Class 77.5"
  else if f64_gtb density (binary64_of_Q 12) then "Class 85"
  else if f64_gtb density (binary64_of_Q (21 # 2)) then "Class 92.5"
  else if f64_gtb density (binary64_of_Q 9) then "Class 100"
  else if f64_gtb density (binary64_of_Q 8) then "Class 110"
  else if f64_gtb density (binary64_of_Q 7) then "Class 125"
  else if f64_gtb density (binary64_of_Q 6) then "Class 150"
  else if f64_gtb density (binary64_of_Q 5) then "Class 175"
  else if f64_gtb density (binary64_of_Q 4) then "Class 200"
  else if f64_gtb density (binary64_of_Q 3) then "Class 250"
  else if f64_gtb density (binary64_of_Q 2) then "Class 300"
  else if f64_gtb density (binary64_of_Q 1) then "Class 400"
  else "Class 500".

(** The state of [packPallet] after one more layer. *)
Definition addLayer (st : PalletState) (layer : Layer) (layerHeight : Q)
    : PalletState :=
  PalletState.mk (PalletState.layers st ++ [layer])
    (PalletState.currentHeight st + layerHeight)
    (PalletState.currentWeight st + Layer.weight layer).

(** [for (const group of heightGroups)] of [packPallet].  After a layer that
    respects the weight limit the loop removes the packed items from
    [group.items]; the group is a copy made by [groupByHeight] that is not
    read again, so nothing of that removal is left to embed. *)
Fixpoint packGroups (groups : list (Q * list OrderItem)) (st : PalletState)
    : result PalletState :=
  match groups with
  | [] => Ok st
  | group :: groups' =>
      if (List.length (snd group) =? 0)%nat then packGroups groups' st
      else
        let layerHeight := fst group in
        if Qgtb (PalletState.currentHeight st + layerHeight)
             (PalletOptimizer.maxHeight self)
        then Ok st
        else
          layer <- packLayer (snd group) layerHeight ;;
          if (List.length (Layer.items layer) =? 0)%nat then
            packGroups groups' st
          else if Qgtb (PalletState.currentWeight st + Layer.weight layer)
                    (PalletOptimizer.maxWeight self)
          then
            reducedLayer <-
              packLayerWithWeightLimit (snd group) layerHeight
                (PalletOptimizer.maxWeight self - PalletState.currentWeight st) ;;
            if (List.length (Layer.items reducedLayer) =? 0)%nat then Ok st
            else Ok (addLayer st reducedLayer layerHeight)
          else packGroups groups' (addLayer st layer layerHeight)
  end.

(** Pack a single pallet with layers. *)
Definition packPallet (items : list OrderItem) (palletId : Z) : result Pallet :=
  st <- packGroups (groupByHeight items) (PalletState.mk [] 0 0) ;;
  Ok (Pallet.mk palletId (PalletState.layers st) (PalletState.currentHeight st)
        (PalletState.currentWeight st) (PalletOptimizer.palletSize self)
        (calculateFreightClass (PalletState.currentWeight st)
           (PalletState.currentHeight st))).

(** The [while] loop of [optimize]. *)
Fixpoint optimize_loop (fuel : nat) (expandedItems : list OrderItem)
    (pallets : list Pallet) (palletId : Z) : result (list Pallet) :=
  if (List.length expandedItems =? 0)%nat then Ok pallets
  else
    match fuel with
    | O => OutOfFuel
    | S fuel' =>
        pallet <- packPallet expandedItems palletId ;;
        let pallets := pallets ++ [pallet] in
        let expandedItems :=
          fold_left removePacked (flat_map Layer.items (Pallet.layers pallet))
            expandedItems in
        if negb (List.length expandedItems =? 0)%nat
           && (List.length (Pallet.layers pallet) =? 0)%nat
        then Ok pallets
        else optimize_loop fuel' expandedItems pallets (palletId + 1)%Z
    end.

(** Main optimization function - packs items into pallets. *)
Definition optimize (fuel : nat) (items : list OrderItem) : result (list Pallet) :=
  let expandedItems :=
    Array_sort
      (fun a b =>
         Finite (SKU.height (OrderItem.sku b) - SKU.height (OrderItem.sku a)))
      (expandItems items) in
  optimize_loop fuel expandedItems [] 1%Z.

End Methods.

End Legacy.

(** The optimizer of the rewritten class with the footprint and the limits
    of an optimizer of the first version, in pounds. *)
Definition rewritten (self : Legacy.PalletOptimizer) : PalletOptimizer :=
  PalletOptimizer.mk (Legacy.PalletOptimizer.palletSize self)
    (Legacy.PalletOptimizer.maxHeight self)
    (Legacy.PalletOptimizer.maxWeight self) lbs
    (PalletSize.length (Legacy.PalletOptimizer.palletSize self)
     * PalletSize.width (Legacy.PalletOptimizer.palletSize self)).

(** ** The layers of the first version *)

(** One unit of [item] placed by one of the two packing loops of the first
    version: within the weight limit when there is one, at the position that
    [findBestPosition] answers. *)
Definition legacyItemPlaced (self : Legacy.PalletOptimizer) (limit : option Q)
    (item : OrderItem) (st st' : Legacy.LayerState) : Prop :=
  match limit with
  | Some maxWeight =>
      Legacy.LayerState.totalWeight st + SKU.weight (OrderItem.sku item)
      <= maxWeight
  | None => True
  end
  /\ exists position,
       Legacy.findBestPosition self (Legacy.LayerState.grid st)
         (SKU.length (OrderItem.sku item)) (SKU.width (OrderItem.sku item))
       = Ok (Some position)
       /\ Legacy.placeItem item position st = Ok st'.

(** The layer of a height group, packed with or without a weight limit. *)
Definition legacyLayerOf (self : Legacy.PalletOptimizer) (limit : option Q)
    (items : list OrderItem) (layerHeight : Q) : result Layer :=
  match limit with
  | None => Legacy.packLayer self items layerHeight
  | Some maxWeight =>
      Legacy.packLayerWithWeightLimit self items layerHeight maxWeight
  end.

(** [p] is one unit of the SKU, lying as the SKU is described or turned by a
    quarter. *)
Definition placedAsDescribed (p : PlacedItem) : Prop :=
  PlacedItem.quantity p = 1%Z
  /\ if PlacedItem.rotated p then
       PlacedItem.length p = SKU.width (PlacedItem.sku p)
       /\ PlacedItem.width p = SKU.length (PlacedItem.sku p)
     else
       PlacedItem.length p = SKU.length (PlacedItem.sku p)
       /\ PlacedItem.width p = SKU.width (PlacedItem.sku p).

(** The heights of the layers go down strictly from one layer to the
    next. *)
Definition heightsDescend (layers : list Layer) : Prop :=
  StronglySorted (fun a b => b < a) (map Layer.height layers).

(** What a line can still cost the loop of the first [optimize]: its units,
    and one removal when it asks for none. *)
Definition legacyUnits (items : list OrderItem) : Z :=
  sumZ (map (fun item => Z.max 1 (Qceiling (OrderItem.quantity item))) items).

(** The density that the first classifier has: [weight / ((length * width *
    height) / 1728)] in binary64, the height as it is. *)
Definition legacyDensity (self : Legacy.PalletOptimizer) (weight height : Q)
    : float64 :=
  f64_div (binary64_of_Q weight)
    (f64_div
       (f64_mul
          (f64_mul
             (binary64_of_Q
                (PalletSize.length (Legacy.PalletOptimizer.palletSize self)))
             (binary64_of_Q
                (PalletSize.width (Legacy.PalletOptimizer.palletSize self))))
          (binary64_of_Q height))
       (binary64_of_Q 1728)).

(** ** An order for the first version *)

Module LegacyEx.
(** The footprint and the limits of [Ex.small]. *)
Definition small : Legacy.PalletOptimizer :=
  Legacy.new_PalletOptimizer (PalletSize.mk 4 4) 10 100.

(** The five boxes of [Ex.order]: four on a first pallet and one on a
    second, a pallet of the first version having one layer for a height. *)
Definition packed : list Pallet :=
  Eval vm_compute in
    match Legacy.optimize small 6 Ex.order with
    | Ok pallets => pallets
    | _ => []
    end.
Definition firstPallet : Pallet :=
  Eval vm_compute in
    nth 0 packed (Pallet.mk 0 [] 0 0 (PalletSize.mk 0 0) EmptyString).
Definition firstLayer : Layer :=
  Eval vm_compute in nth 0 (Pallet.layers firstPallet) (Layer.mk [] 0 0).
Definition firstItem : PlacedItem :=
  Eval vm_compute in
    nth 0 (Layer.items firstLayer) (PlacedItem.mk Ex.box 0 0 0 0 0 false).

(** The two boxes and the three tiles of [Ex.twoLines]: one pallet, a layer
    of the boxes, 2 high, under a layer of the tiles, 1 high. *)
Definition stacked : list Pallet :=
  Eval vm_compute in
    match Legacy.optimize small 6 Ex.twoLines with
    | Ok pallets => pallets
    | _ => []
    end.
Definition stackedPallet : Pallet :=
  Eval vm_compute in
    nth 0 stacked (Pallet.mk 0 [] 0 0 (PalletSize.mk 0 0) EmptyString).
End LegacyEx.
(** * Properties *)

(** ** Comparisons and the error monad *)

Lemma Qleb_true (x y : Q) : Qleb x y = true <-> x <= y.
Proof. apply Qle_bool_iff. Qed.

Lemma Qleb_false (x y : Q) : Qleb x y = false <-> y < x.
Proof.
  unfold Qleb. split; intro H.
  - apply Qnot_le_lt. intro Hle. apply Qle_bool_iff in Hle. congruence.
  - destruct (Qle_bool x y) eqn:E; [|reflexivity].
    apply Qle_bool_iff in E. lra.
Qed.

Lemma Qltb_true (x y : Q) : Qltb x y = true <-> x < y.
Proof.
  unfold Qltb. rewrite negb_true_iff. apply Qleb_false.
Qed.

Lemma Qltb_false (x y : Q) : Qltb x y = false <-> y <= x.
Proof.
  unfold Qltb. rewrite negb_false_iff. apply Qleb_true.
Qed.

Lemma Qgtb_true (x y : Q) : Qgtb x y = true <-> y < x.
Proof. apply Qltb_true. Qed.

Lemma Qgtb_false (x y : Q) : Qgtb x y = false <-> x <= y.
Proof. apply Qltb_false. Qed.

Lemma negb_Qgtb (x y : Q) : negb (Qgtb x y) = Qleb x y.
Proof. unfold Qgtb, Qltb, Qleb. apply negb_involutive. Qed.

(** Turn every boolean comparison among the hypotheses into its
    proposition. *)
Ltac qprop :=
  repeat match goal with
  | H : _ || _ = false |- _ => apply orb_false_iff in H; destruct H
  | H : _ && _ = true |- _ => apply andb_true_iff in H; destruct H
  | H : negb _ = true |- _ => apply negb_true_iff in H
  | H : negb _ = false |- _ => apply negb_false_iff in H
  | H : Qleb _ _ = true |- _ => apply Qleb_true in H
  | H : Qleb _ _ = false |- _ => apply Qleb_false in H
  | H : Qltb _ _ = true |- _ => apply Qltb_true in H
  | H : Qltb _ _ = false |- _ => apply Qltb_false in H
  | H : Qgtb _ _ = true |- _ => apply Qgtb_true in H
  | H : Qgtb _ _ = false |- _ => apply Qgtb_false in H
  | H : (_ <=? _)%Z = true |- _ => apply Z.leb_le in H
  | H : (_ <=? _)%Z = false |- _ => apply Z.leb_gt in H
  | H : (_ <? _)%Z = true |- _ => apply Z.ltb_lt in H
  | H : (_ <? _)%Z = false |- _ => apply Z.ltb_ge in H
  | H : (_ >? _)%Z = true |- _ => apply Z.gtb_lt in H
  | H : (_ >? _)%Z = false |- _ => rewrite Z.gtb_ltb in H; apply Z.ltb_ge in H
  end.

Lemma bind_Ok {A B : Type} (c : result A) (k : A -> result B) (b : B) :
  bind c k = Ok b -> exists a, c = Ok a /\ k a = Ok b.
Proof.
  destruct c as [a| |]; simpl; intro H; try discriminate.
  exists a. split; [reflexivity | exact H].
Qed.

(** Replace the short names of the record types by the types themselves. *)
Ltac unalias :=
  unfold SKU, OrderItem, PalletSize, PlacedItem, Layer, Pallet, Position,
    OrientationOption, PackingItem, LayerCandidate, LayerQueueItem,
    PalletOptimizer, LayerState, PalletState in *.

Lemma Ok_inj {A : Type} (a b : A) : Ok a = Ok b -> a = b.
Proof. intro H. injection H as H. exact H. Qed.

Ltac inv_bind H :=
  let a := fresh "r" in
  let Ha := fresh "E" in
  apply bind_Ok in H; destruct H as (a & Ha & H).

Lemma length_eqb_0_true {A : Type} (l : list A) :
  (List.length l =? 0)%nat = true <-> l = [].
Proof.
  destruct l; simpl; split; intro H; try reflexivity; discriminate.
Qed.

Lemma length_eqb_0_false {A : Type} (l : list A) :
  (List.length l =? 0)%nat = false <-> l <> [].
Proof.
  destruct l; simpl; split; intro H; try reflexivity; try discriminate;
    congruence.
Qed.

(** ** Zero and negative quantities *)

Lemma initializeInventory_from (self : PalletOptimizer)
    (body : OrderItem -> list PackingItem -> result (list PackingItem))
    (items : list OrderItem) :
  (forall item acc, OrderItem.quantity item <= 0 -> body item acc = Ok acc) ->
  forall acc, for_each items body acc = for_each (positiveLines items) body acc.
Proof.
  intros Hskip. induction items as [|item items IH]; intro acc; simpl.
  - reflexivity.
  - destruct (Qltb 0 (OrderItem.quantity item)) eqn:E; simpl.
    + destruct (body item acc); simpl; auto.
    + apply Qltb_false in E. rewrite (Hskip item acc E). simpl. apply IH.
Qed.

Lemma initializeInventory_positiveLines (self : PalletOptimizer)
    (items : list OrderItem) :
  initializeInventory self items = initializeInventory self (positiveLines items).
Proof.
  unfold initializeInventory. apply (initializeInventory_from self).
  intros item acc Hq. unfold addOrderLine. apply Qleb_true in Hq. rewrite Hq.
  reflexivity.
Qed.

(** C9. Lines with a quantity of zero or less are inert: on every input,
    [optimize] gives the result (the pallets or the error) it gives on the
    input with those lines removed. *)
Theorem optimize_ignores_nonpositive_lines :
  forall (self : PalletOptimizer) (fuel : nat) (items : list OrderItem),
    optimize self fuel items = optimize self fuel (positiveLines items).
Proof.
  intros self fuel items. unfold optimize.
  rewrite <- initializeInventory_positiveLines. reflexivity.
Qed.

(** ** Freight classification *)

Lemma calculateFreightClass_table (self : PalletOptimizer) (weight height : Q) :
  calculateFreightClass self weight height
  = classOfDensity (palletDensity self weight height).
Proof.
  unfold calculateFreightClass, classOfDensity, palletDensity, palletVolume,
    weightInPounds64, toBaseWeight64, freightTable.
  cbv zeta.
  destruct (PalletOptimizer.weightUnit self); cbn [find fst snd];
    repeat match goal with
    | |- context [f64_gtb ?d ?t] => destruct (f64_gtb d t); [reflexivity|]
    end; reflexivity.
Qed.

(** A zero divided by whatever the volume is, is a zero or [NaN], and above
    no threshold. *)
Lemma classOfDensity_zero_over (v : float64) :
  classOfDensity (f64_div (SpecFloat.S754_zero false) v) = "Class 500"%string.
Proof.
  destruct v as [s|s| |s m e]; try destruct s; vm_compute; reflexivity.
Qed.

Lemma weightInPounds64_zero (unit : WeightUnit) :
  weightInPounds64 unit (binary64_of_Q 0) = SpecFloat.S754_zero false.
Proof. destruct unit; vm_compute; reflexivity. Qed.

Lemma calculateFreightClass_empty (self : PalletOptimizer) :
  calculateFreightClass self 0 0 = "Class 500"%string.
Proof.
  rewrite calculateFreightClass_table. unfold palletDensity.
  rewrite weightInPounds64_zero. apply classOfDensity_zero_over.
Qed.

Lemma buildPallet_loop_empty (self : PalletOptimizer) (fuel : nat) :
  forall st st',
    buildPallet_loop self fuel st = Ok st' ->
    PalletState.layers st' = [] -> st' = st.
Proof.
  induction fuel as [|fuel IH]; intros st st' H Hl; simpl in H.
  - destruct (negb (hasRemaining (PalletState.inventory st))); congruence.
  - destruct (negb (hasRemaining (PalletState.inventory st))); [congruence|].
    destruct (_ || _); [congruence|].
    inv_bind H. destruct r as [nextLayer|]; [|congruence].
    specialize (IH _ _ H Hl). rewrite IH in Hl. simpl in Hl.
    destruct (PalletState.layers st); discriminate.
Qed.

(** C8. The freight class of every pallet that [buildPallet] produces is
    the class of the threshold table for the density
    [weightLbs / ((length * width * max(height, EPSILON)) / 1728)], computed
    as the code computes it, in binary64, where [weightLbs] is the pallet's
    total weight in pounds, multiplied by 2.20462 when the unit is the
    kilogram; a pallet without layers has height 0 and weight 0 and is given
    "Class 500", whatever the footprint. *)
Theorem freight_class_of_built_pallet :
  forall (self : PalletOptimizer) (fuel : nat) (inventory : list PackingItem)
         (palletId : Z) (pallet : Pallet) (inventory' : list PackingItem),
    buildPallet self fuel inventory palletId = Ok (pallet, inventory') ->
    Pallet.freightClass pallet
    = classOfDensity
        (palletDensity self (Pallet.totalWeight pallet) (Pallet.totalHeight pallet))
    /\ (Pallet.layers pallet = [] ->
        Pallet.totalHeight pallet = 0 /\ Pallet.totalWeight pallet = 0
        /\ Pallet.freightClass pallet = "Class 500"%string).
Proof.
  intros self fuel inventory palletId pallet inventory' H.
  unfold buildPallet in H. inv_bind H. injection H as Hp Hi. subst pallet.
  cbn [Pallet.freightClass Pallet.totalWeight Pallet.totalHeight Pallet.layers].
  split; [apply calculateFreightClass_table|].
  intro Hl. apply (buildPallet_loop_empty self) in E; [|exact Hl].
  subst r. cbn. repeat split. apply calculateFreightClass_empty.
Qed.

(** ** The orientation generator and the inventory set-up *)

Section MapFacts.
Context {K V : Type} (eqb : K -> K -> bool).

Lemma Map_has_existsb (m : list (K * V)) (k : K) :
  Map_has eqb m k = existsb (fun k' => eqb k' k) (map fst m).
Proof.
  unfold Map_has. induction m as [|[k' v] m IH]; simpl.
  - reflexivity.
  - destruct (eqb k' k); simpl; [reflexivity | exact IH].
Qed.

Lemma Map_set_absent (m : list (K * V)) (k : K) (v : V) :
  Map_has eqb m k = false -> Map_set eqb m k v = m ++ [(k, v)].
Proof.
  unfold Map_has. induction m as [|[k' v'] m IH]; simpl; intro H.
  - reflexivity.
  - destruct (eqb k' k); [discriminate|]. rewrite IH by exact H. reflexivity.
Qed.
End MapFacts.

Lemma generateOrientationOptions_from (self : PalletOptimizer)
    (perms : list (Q * Q * Q)) :
  forall unique,
    Map_values (fold_left (considerPermutation self) perms unique)
    = Map_values unique
      ++ map optionOf
           (dedupByKey (map fst unique) (filter (passesFilters self) perms)).
Proof.
  induction perms as [|[[l w] h] perms IH]; intro unique.
  - simpl. rewrite app_nil_r. reflexivity.
  - cbn [fold_left filter]. rewrite IH. clear IH.
    unfold considerPermutation, passesFilters at 2. rewrite <- negb_Qgtb.
    destruct (Qgtb h (PalletOptimizer.maxHeight self + HEIGHT_TOLERANCE));
      cbn [negb andb]; [reflexivity|].
    destruct (fitsFootprint self l w); cbn [negb]; [|reflexivity].
    cbn [dedupByKey]. rewrite <- Map_has_existsb.
    destruct (Map_has key_eqb unique (orientationKey (l, w, h))) eqn:Eh;
      [reflexivity|].
    rewrite (Map_set_absent _ _ _ _ Eh).
    unfold Map_values. rewrite !map_app. cbn [map fst snd optionOf].
    rewrite <- app_assoc. reflexivity.
Qed.

(** The generator returns the permutations passing both filters, one per
    key, in the order of the enumeration. *)
Lemma generateOrientationOptions_valid (self : PalletOptimizer) (sku : SKU) :
  generateOrientationOptions self sku = validOrientations self sku.
Proof.
  unfold generateOrientationOptions, validOrientations.
  rewrite generateOrientationOptions_from. reflexivity.
Qed.

Lemma generateOrientationOptions_nil (self : PalletOptimizer) (sku : SKU) :
  generateOrientationOptions self sku = []
  <-> (forall p, In p (permutations sku) -> passesFilters self p = false).
Proof.
  rewrite generateOrientationOptions_valid. unfold validOrientations.
  split.
  - intros H p Hp. destruct (passesFilters self p) eqn:E; [|reflexivity].
    assert (Hin : In p (filter (passesFilters self) (permutations sku)))
      by (apply filter_In; split; assumption).
    destruct (filter (passesFilters self) (permutations sku)) as [|q qs];
      [destruct Hin | discriminate H].
  - intro H.
    destruct (filter (passesFilters self) (permutations sku)) as [|q qs] eqn:E;
      [reflexivity|].
    assert (Hq : In q (filter (passesFilters self) (permutations sku)))
      by (rewrite E; left; reflexivity).
    apply filter_In in Hq. destruct Hq as [Hq1 Hq2].
    rewrite (H q Hq1) in Hq2. discriminate.
Qed.

Lemma for_each_app {A S : Type} (l1 l2 : list A)
    (body : A -> S -> result S) (s : S) :
  for_each (l1 ++ l2) body s = (s' <- for_each l1 body s ;; for_each l2 body s').
Proof.
  revert s. induction l1 as [|a l1 IH]; intro s; simpl.
  - reflexivity.
  - destruct (body a s); simpl; auto.
Qed.


Lemma addOrderLine_accepted (self : PalletOptimizer) (item : OrderItem)
    (acc : list PackingItem) :
  lineAccepted self item ->
  addOrderLine self item acc
  = Ok (acc ++ map (packingItemOf self) (positiveLines [item])).
Proof.
  intros Hacc. unfold addOrderLine, positiveLines. cbn [filter].
  unfold Qltb at 1. fold (Qleb (OrderItem.quantity item) 0).
  destruct (Qleb (OrderItem.quantity item) 0) eqn:Eq; cbn [negb map].
  2:{ destruct Hacc as [Hq | (p & Hp & Hpass)]; [qprop; lra|].
    destruct (List.length _ =? 0)%nat eqn:El.
    + apply length_eqb_0_true in El.
      rewrite generateOrientationOptions_nil in El.
      rewrite (El p Hp) in Hpass. discriminate.
    + reflexivity. }
  rewrite app_nil_r. reflexivity.
Qed.

Lemma positiveLines_app (l1 l2 : list OrderItem) :
  positiveLines (l1 ++ l2) = positiveLines l1 ++ positiveLines l2.
Proof. apply filter_app. Qed.

Lemma initializeInventory_accepted (self : PalletOptimizer)
    (items : list OrderItem) :
  Forall (lineAccepted self) items ->
  forall acc,
    for_each items (addOrderLine self) acc
    = Ok (acc ++ map (packingItemOf self) (positiveLines items)).
Proof.
  induction 1 as [|item items Hitem Hitems IH]; intro acc.
  - simpl. rewrite app_nil_r. reflexivity.
  - cbn [for_each]. rewrite (addOrderLine_accepted self item acc Hitem).
    cbn [bind]. rewrite IH. rewrite <- app_assoc, <- map_app.
    change (item :: items) with ([item] ++ items).
    rewrite positiveLines_app. reflexivity.
Qed.

Lemma addOrderLine_rejected (self : PalletOptimizer) (item : OrderItem)
    (acc : list PackingItem) :
  0 < OrderItem.quantity item ->
  (forall p, In p (permutations (OrderItem.sku item)) ->
             passesFilters self p = false) ->
  addOrderLine self item acc = Throw (SkuExceedsPallet (OrderItem.sku item)).
Proof.
  intros Hq Hnone. unfold addOrderLine.
  destruct (Qleb (OrderItem.quantity item) 0) eqn:E; [qprop; lra|].
  apply generateOrientationOptions_nil in Hnone. rewrite Hnone. reflexivity.
Qed.

(** Whatever the set-up returns is the list of the positive lines, each
    with the orientations of its SKU. *)
Lemma initializeInventory_Ok (self : PalletOptimizer) (items : list OrderItem) :
  forall acc inventory,
    for_each items (addOrderLine self) acc = Ok inventory ->
    inventory = acc ++ map (packingItemOf self) (positiveLines items)
    /\ Forall (lineAccepted self) items.
Proof.
  induction items as [|item items IH]; intros acc inventory H.
  - simpl in H. injection H as <-. rewrite app_nil_r. split; constructor.
  - cbn [for_each] in H. inv_bind H.
    assert (Hacc : lineAccepted self item).
    { unfold addOrderLine in E. unfold lineAccepted.
      destruct (Qleb (OrderItem.quantity item) 0) eqn:Eq;
        [qprop; left; exact Eq|].
      right.
      destruct (List.length _ =? 0)%nat eqn:El; [discriminate|].
      apply length_eqb_0_false in El.
      destruct (existsb (passesFilters self) (permutations (OrderItem.sku item)))
        eqn:Ex.
      - apply existsb_exists in Ex. exact Ex.
      - exfalso. apply El. apply generateOrientationOptions_nil.
        intros p Hp. destruct (passesFilters self p) eqn:Ep; [|reflexivity].
        assert (Hex : existsb (passesFilters self)
                        (permutations (OrderItem.sku item)) = true)
          by (apply existsb_exists; exists p; split; assumption).
        congruence. }
    rewrite (addOrderLine_accepted self item acc Hacc) in E.
    injection E as <-. apply IH in H. destruct H as [H1 H2]. split.
    + rewrite H1, <- app_assoc, <- map_app.
      change (item :: items) with ([item] ++ items).
      rewrite positiveLines_app. reflexivity.
    + constructor; assumption.
Qed.

(** C6 (amended). The orientation generator returns the permutations that
    pass the height filter and the footprint filter, one per key of
    dimensions rounded to three decimals; and when the first order line that
    the set-up rejects -- a line with a positive quantity none of whose six
    permutations passes both filters -- is [item], [optimize] throws the
    error naming the SKU of [item], with any fuel: no layer is packed and no
    pallet is built before. *)
Theorem first_rejected_line_is_reported :
  forall (self : PalletOptimizer) (fuel : nat)
         (before : list OrderItem) (item : OrderItem) (after : list OrderItem),
    Forall (lineAccepted self) before ->
    0 < OrderItem.quantity item ->
    (forall p, In p (permutations (OrderItem.sku item)) ->
               passesFilters self p = false) ->
    optimize self fuel (before ++ item :: after)
    = Throw (SkuExceedsPallet (OrderItem.sku item))
    /\ generateOrientationOptions self (OrderItem.sku item) = []
    /\ (forall sku,
          generateOrientationOptions self sku = validOrientations self sku).
Proof.
  intros self fuel before item after Hbefore Hq Hnone. split; [|split].
  - unfold optimize, initializeInventory. rewrite for_each_app.
    rewrite (initializeInventory_accepted self before Hbefore). cbn [bind for_each].
    rewrite (addOrderLine_rejected self item _ Hq Hnone). reflexivity.
  - apply generateOrientationOptions_nil. exact Hnone.
  - intro sku. apply generateOrientationOptions_valid.
Qed.

Lemma first_rejected_line_is_reported_witness :
  optimize Ex.small 0 ([Ex.line Ex.box 1] ++ Ex.line Ex.crate 1 :: [Ex.line Ex.drum 1])
  = Throw (SkuExceedsPallet Ex.crate)
  /\ generateOrientationOptions Ex.small Ex.crate = []
  /\ (forall sku,
        generateOrientationOptions Ex.small sku = validOrientations Ex.small sku).
Proof.
  apply (first_rejected_line_is_reported Ex.small 0 [Ex.line Ex.box 1]
           (Ex.line Ex.crate 1) [Ex.line Ex.drum 1]).
  - constructor; [|constructor]. right. exists (2, 2, 2). split.
    + left. reflexivity.
    + vm_compute. reflexivity.
  - reflexivity.
  - intros p Hp. simpl in Hp.
    repeat (destruct Hp as [Hp | Hp]; [subst p; vm_compute; reflexivity|]).
    destruct Hp.
Defined.

(** C6 as stated fails: with two rejected lines the error names the SKU of
    the first one, not the SKU of each of them. *)
Lemma every_rejected_line_is_reported_fails :
  ~ (forall (self : PalletOptimizer) (fuel : nat) (items : list OrderItem)
            (item : OrderItem),
        In item items ->
        0 < OrderItem.quantity item ->
        generateOrientationOptions self (OrderItem.sku item) = [] ->
        optimize self fuel items = Throw (SkuExceedsPallet (OrderItem.sku item))).
Proof.
  intro H.
  specialize (H Ex.small 1%nat [Ex.line Ex.crate 1; Ex.line Ex.drum 1]
                (Ex.line Ex.drum 1)).
  assert (Hin : In (Ex.line Ex.drum 1) [Ex.line Ex.crate 1; Ex.line Ex.drum 1])
    by (right; left; reflexivity).
  specialize (H Hin eq_refl eq_refl).
  vm_compute in H. discriminate H.
Qed.

(** ** The empty pallet *)

Lemma getFirstRemainingItem_Some (inventory : list PackingItem) :
  hasRemaining inventory = true ->
  exists item,
    getFirstRemainingItem inventory = Some item
    /\ In item inventory /\ 0 < PackingItem.remaining item.
Proof.
  unfold hasRemaining, getFirstRemainingItem.
  induction inventory as [|it inventory IH]; simpl; intro H; [discriminate|].
  destruct (Qgtb (PackingItem.remaining it) 0) eqn:E.
  - exists it. qprop. auto.
  - simpl in H. destruct (IH H) as (item & H1 & H2 & H3).
    exists item. auto.
Qed.

Lemma buildPallet_empty (self : PalletOptimizer) (fuel : nat)
    (inventory : list PackingItem) (palletId : Z) (pallet : Pallet)
    (inventory' : list PackingItem) :
  buildPallet self fuel inventory palletId = Ok (pallet, inventory') ->
  Pallet.layers pallet = [] -> inventory' = inventory.
Proof.
  unfold buildPallet. intros H Hl. inv_bind H. injection H as <- <-.
  cbn in Hl. apply (buildPallet_loop_empty self) in E; [|exact Hl].
  subst r. reflexivity.
Qed.

(** C7. When the loop of [optimize] calls [buildPallet] (some item has
    units left) and the pallet comes back without layers, the call ends by
    throwing the error that names the first inventory item with units left;
    the inventory is the one from before the call of [buildPallet].  The
    outcome is the thrown error alone: the pallets completed so far
    ([pallets]) are not part of it. *)
Theorem empty_pallet_throws :
  forall (self : PalletOptimizer) (fuel inner : nat)
         (inventory : list PackingItem) (pallets : list Pallet) (palletId : Z)
         (pallet : Pallet) (inventory' : list PackingItem),
    hasRemaining inventory = true ->
    buildPallet self inner inventory palletId = Ok (pallet, inventory') ->
    Pallet.layers pallet = [] ->
    exists item,
      getFirstRemainingItem inventory' = Some item
      /\ 0 < PackingItem.remaining item
      /\ inventory' = inventory
      /\ optimize_loop self (S fuel) inner inventory pallets palletId
         = Throw (UnpackableRemainder (Some (PackingItem.sku item)))
      /\ forall partial,
           optimize_loop self (S fuel) inner inventory pallets palletId
           <> Ok partial.
Proof.
  intros self fuel inner inventory pallets palletId pallet inventory'
    Hrem Hbuild Hlayers.
  assert (Hinv : inventory' = inventory)
    by (eapply buildPallet_empty; eassumption).
  subst inventory'.
  destruct (getFirstRemainingItem_Some inventory Hrem) as (item & Hfirst & _ & Hpos).
  assert (Hthrow : optimize_loop self (S fuel) inner inventory pallets palletId
                   = Throw (UnpackableRemainder (Some (PackingItem.sku item)))).
  { cbn [optimize_loop]. rewrite Hrem. cbn [negb]. rewrite Hbuild. cbn [bind].
    rewrite Hlayers. cbn [List.length Nat.eqb]. rewrite Hfirst. reflexivity. }
  exists item. repeat split; try assumption.
  intros partial. rewrite Hthrow. discriminate.
Qed.

(** ** Sorting *)

Section SortFacts.
Context {A : Type} (cmp : A -> A -> JSNumber).

Lemma insert_sorted_perm (x : A) (l : list A) :
  Permutation (insert_sorted cmp x l) (x :: l).
Proof.
  induction l as [|y l IH]; simpl.
  - apply Permutation_refl.
  - destruct (precedes cmp x y).
    + apply Permutation_refl.
    + eapply Permutation_trans; [apply perm_skip, IH | apply perm_swap].
Qed.

Lemma Array_sort_perm (l : list A) : Permutation (Array_sort cmp l) l.
Proof.
  induction l as [|x l IH]; simpl.
  - constructor.
  - eapply Permutation_trans; [apply insert_sorted_perm|].
    apply perm_skip, IH.
Qed.

Lemma Array_sort_In (l : list A) (x : A) : In x (Array_sort cmp l) <-> In x l.
Proof.
  split; apply Permutation_in;
    [apply Array_sort_perm | apply Permutation_sym, Array_sort_perm].
Qed.

Lemma Array_sort_nonempty (l : list A) :
  l <> [] -> exists h, hd_error (Array_sort cmp l) = Some h.
Proof.
  intro Hl. destruct (Array_sort cmp l) as [|h s] eqn:E.
  - exfalso. apply Hl. apply Permutation_nil.
    rewrite <- E. apply Array_sort_perm.
  - exists h. reflexivity.
Qed.

(** With a comparator that is total and transitive on the list, the head of
    the sorted list precedes every element. *)
Lemma Array_sort_head (l : list A) :
  (forall a b, In a l -> In b l ->
               precedes cmp a b = true \/ precedes cmp b a = true) ->
  (forall a b c, In a l -> In b l -> In c l ->
                 precedes cmp a b = true -> precedes cmp b c = true ->
                 precedes cmp a c = true) ->
  forall h, hd_error (Array_sort cmp l) = Some h ->
            forall t, In t l -> precedes cmp h t = true.
Proof.
  induction l as [|x l IH]; intros Htot Htrans h Hh t Ht.
  - destruct Ht.
  - assert (IH' : forall h', hd_error (Array_sort cmp l) = Some h' ->
                  forall t, In t l -> precedes cmp h' t = true).
    { apply IH.
      - intros a b Ha Hb. apply Htot; right; assumption.
      - intros a b c Ha Hb Hc. apply Htrans; right; assumption. }
    clear IH. cbn [Array_sort fold_right] in Hh.
    fold (Array_sort cmp l) in Hh.
    assert (Hxx : precedes cmp x x = true).
    { destruct (Htot x x) as [H | H]; try (left; reflexivity); exact H. }
    destruct (Array_sort cmp l) as [|h' s] eqn:Es.
    + assert (l = []).
      { apply Permutation_nil. rewrite <- Es. apply Array_sort_perm. }
      subst l. simpl in Hh. injection Hh as <-.
      destruct Ht as [<- | []]. exact Hxx.
    + assert (Hh' : In h' l).
      { apply Array_sort_In. rewrite Es. left. reflexivity. }
      specialize (IH' h' eq_refl).
      cbn [insert_sorted] in Hh.
      destruct (precedes cmp x h') eqn:Ex; simpl in Hh; injection Hh as <-.
      * destruct Ht as [<- | Ht]; [exact Hxx|].
        apply (Htrans x h' t); try (right; assumption);
          [left; reflexivity | exact Ex | apply IH'; exact Ht].
      * destruct Ht as [<- | Ht]; [|apply IH'; exact Ht].
        destruct (Htot h' x) as [H | H];
          [right; exact Hh' | left; reflexivity | exact H | congruence].
Qed.

(** The head of the sorted list is the first element of the list that goes
    in front of all those before it. *)
Lemma Array_sort_head_first (l : list A) (h : A) :
  hd_error (Array_sort cmp l) = Some h ->
  exists before after,
    l = before ++ h :: after
    /\ forall c, In c before -> precedes cmp c h = false.
Proof.
  revert h. induction l as [|x l IH]; intros h Hh; [discriminate Hh|].
  cbn [Array_sort fold_right] in Hh. fold (Array_sort cmp l) in Hh.
  destruct (Array_sort cmp l) as [|h' s] eqn:Es.
  - assert (El : l = []).
    { apply Permutation_nil. rewrite <- Es. apply Array_sort_perm. }
    subst l. cbn in Hh. injection Hh as <-.
    exists [], []. split; [reflexivity | intros c []].
  - cbn [insert_sorted] in Hh.
    destruct (precedes cmp x h') eqn:Ex; cbn in Hh; injection Hh as <-.
    + exists [], l. split; [reflexivity | intros c []].
    + destruct (IH h' eq_refl) as (before & after & -> & Hbefore).
      exists (x :: before), after. split; [reflexivity|].
      intros c [<- | Hc]; [exact Ex | apply Hbefore; exact Hc].
Qed.
End SortFacts.

(** ** The selection hierarchy *)

Lemma js_abs_sub_swap (a b : JSNumber) (t : Q) :
  js_gtb (js_abs (js_sub a b)) t = js_gtb (js_abs (js_sub b a)) t.
Proof.
  destruct a as [x| | |], b as [y| | |]; cbn [js_sub js_abs js_gtb];
    try reflexivity.
  unfold Math_abs. rewrite (Qabs_Qminus x y). reflexivity.
Qed.

Lemma Qgtb_sub_swap (x y : Q) : Qgtb (x - y) 0 = Qltb (y - x) 0.
Proof.
  destruct (Qgtb (x - y) 0) eqn:E1, (Qltb (y - x) 0) eqn:E2; qprop;
    try reflexivity; lra.
Qed.

Lemma js_sub_swap (a b : JSNumber) :
  js_gtb (js_sub a b) 0 = js_ltb (js_sub b a) 0.
Proof.
  destruct a as [x| | |], b as [y| | |]; cbn [js_sub js_gtb js_ltb];
    try reflexivity.
  apply Qgtb_sub_swap.
Qed.

(** Swapping the arguments of the comparator flips the sign of its result. *)
Lemma compareCandidates_swap (a b : LayerCandidate) :
  js_gtb (compareCandidates a b) 0 = js_ltb (compareCandidates b a) 0.
Proof.
  unfold compareCandidates.
  rewrite (js_abs_sub_swap (LayerCandidate.efficiency b)).
  destruct (js_gtb _ EPSILON); [apply js_sub_swap|].
  unfold Math_abs.
  rewrite (Qabs_Qminus (LayerCandidate.wasteVolume b)).
  destruct (Qgtb _ EPSILON); [apply Qgtb_sub_swap|].
  rewrite (Qabs_Qminus (Layer.height (LayerCandidate.layer b))).
  destruct (Qgtb _ HEIGHT_TOLERANCE); apply Qgtb_sub_swap.
Qed.

Lemma precedes_ranksBefore (a b : LayerCandidate) :
  precedes compareCandidates a b = negb (ranksBefore b a).
Proof.
  unfold precedes, ranksBefore. rewrite compareCandidates_swap. reflexivity.
Qed.

Lemma ranksBefore_asym (a b : LayerCandidate) :
  ranksBefore a b = true -> ranksBefore b a = false.
Proof.
  unfold ranksBefore. intro H. rewrite <- (compareCandidates_swap a b).
  destruct (compareCandidates a b) as [q| | |]; cbn [js_ltb js_gtb] in *;
    try discriminate; try reflexivity.
  destruct (Qgtb q 0) eqn:E; [|reflexivity]. qprop. lra.
Qed.

Lemma selectTier_first (candidates : list LayerCandidate) :
  selectTier candidates = firstNonEmptyTier candidates.
Proof.
  unfold selectTier, firstNonEmptyTier. cbn [filter].
  destruct (filter LayerCandidate.perfectlyDivisible candidates) as [|c1 l1];
    cbn [List.length Nat.ltb Nat.leb Nat.eqb negb]; [|reflexivity].
  destruct (filter LayerCandidate.perfectFit candidates) as [|c2 l2];
    cbn [List.length Nat.ltb Nat.leb Nat.eqb negb]; [|reflexivity].
  destruct candidates; reflexivity.
Qed.

Lemma firstNonEmptyTier_nonempty (candidates : list LayerCandidate) :
  candidates <> [] -> firstNonEmptyTier candidates <> [].
Proof.
  intro H. rewrite <- selectTier_first. unfold selectTier.
  destruct (filter LayerCandidate.perfectlyDivisible candidates) as [|c1 l1];
    cbn [List.length Nat.ltb Nat.leb]; [|discriminate].
  destruct (filter LayerCandidate.perfectFit candidates) as [|c2 l2];
    cbn [List.length Nat.ltb Nat.leb]; [exact H | discriminate].
Qed.

Lemma firstNonEmptyTier_incl (candidates : list LayerCandidate) (c : LayerCandidate) :
  In c (firstNonEmptyTier candidates) -> In c candidates.
Proof.
  rewrite <- selectTier_first. unfold selectTier.
  destruct (0 <? _)%nat; [intro H; apply filter_In in H; tauto|].
  destruct (0 <? _)%nat; [intro H; apply filter_In in H; tauto|].
  auto.
Qed.

Lemma pickBestCandidate_best (tier : list LayerCandidate) (c : LayerCandidate) :
  pickBestCandidate tier = Some c ->
  In c tier
  /\ (rankingTransitiveOn tier ->
      forall t, In t tier -> ranksBefore t c = false).
Proof.
  unfold pickBestCandidate. intro H. split.
  - apply (Array_sort_In compareCandidates).
    destruct (Array_sort compareCandidates tier); simpl in H; [discriminate|].
    injection H as <-. left. reflexivity.
  - intros Htrans t Ht.
    assert (Hp : precedes compareCandidates c t = true).
    { apply (Array_sort_head compareCandidates tier); try assumption.
      - intros a b _ _. rewrite !precedes_ranksBefore.
        destruct (ranksBefore b a) eqn:E; [|left; reflexivity].
        right. rewrite (ranksBefore_asym _ _ E). reflexivity.
      - intros x y z Hx Hy Hz. rewrite !precedes_ranksBefore.
        rewrite !negb_true_iff. apply Htrans; assumption. }
    rewrite precedes_ranksBefore in Hp. apply negb_true_iff in Hp. exact Hp.
Qed.

(** Ties go to the candidate collected first: the candidates of the tier
    that come before the one picked are ranked strictly after it. *)
Lemma pickBestCandidate_first (tier : list LayerCandidate) (c : LayerCandidate) :
  pickBestCandidate tier = Some c ->
  exists before after,
    tier = before ++ c :: after
    /\ forall t, In t before -> ranksBefore c t = true.
Proof.
  unfold pickBestCandidate. intro H.
  destruct (Array_sort_head_first compareCandidates tier c H)
    as (before & after & Htier & Hbefore).
  exists before, after. split; [exact Htier|].
  intros t Ht. specialize (Hbefore t Ht).
  rewrite precedes_ranksBefore in Hbefore.
  apply negb_false_iff in Hbefore. exact Hbefore.
Qed.

Lemma rankingTransitiveOnb_true (tier : list LayerCandidate) :
  rankingTransitiveOnb tier = true -> rankingTransitiveOn tier.
Proof.
  unfold rankingTransitiveOnb. intros H a b c Ha Hb Hc Hba Hcb.
  rewrite forallb_forall in H. specialize (H a Ha).
  rewrite forallb_forall in H. specialize (H b Hb).
  rewrite forallb_forall in H. specialize (H c Hc).
  rewrite Hba, Hcb in H. cbn [orb] in H.
  apply negb_true_iff in H. exact H.
Qed.

(** C5 (amended). When the candidates that [selectNextLayer] collects are
    not empty, it returns a candidate of the first non-empty tier among the
    perfectly divisible candidates, the perfect fits and all the candidates.
    When the tolerance-based ranking is transitive on that tier, the
    comparator is a consistent one, the sorted tier is the same for every
    engine, and the candidate returned is the first best one: no candidate
    of the tier is ranked strictly before it, and the candidates of the
    tier that were collected before it are ranked strictly after it. *)
Theorem selectNextLayer_picks_from_first_tier :
  forall (self : PalletOptimizer) (inventory : list PackingItem)
         (maxHeightRemaining maxWeightRemainingBase : Q)
         (candidates : list LayerCandidate),
    EPSILON < maxWeightRemainingBase ->
    collectCandidates self inventory
      (Map_values (collectHeights inventory maxHeightRemaining))
      maxHeightRemaining maxWeightRemainingBase
    = Ok candidates ->
    candidates <> [] ->
    exists chosen,
      selectNextLayer self inventory maxHeightRemaining maxWeightRemainingBase
      = Ok (Some chosen)
      /\ In chosen (firstNonEmptyTier candidates)
      /\ (rankingTransitiveOn (firstNonEmptyTier candidates) ->
          (forall other,
              In other (firstNonEmptyTier candidates) ->
              ranksBefore other chosen = false)
          /\ exists before after,
               firstNonEmptyTier candidates = before ++ chosen :: after
               /\ forall earlier,
                    In earlier before -> ranksBefore chosen earlier = true).
Proof.
  intros self inventory mhr mwrb candidates Hw Hcoll Hne.
  unfold selectNextLayer.
  apply Qleb_false in Hw. rewrite Hw.
  destruct (List.length (collectHeights inventory mhr) =? 0)%nat eqn:Eh.
  { exfalso. apply length_eqb_0_true in Eh. rewrite Eh in Hcoll.
    simpl in Hcoll. injection Hcoll as <-. apply Hne. reflexivity. }
  rewrite Hcoll. cbn [bind].
  apply length_eqb_0_false in Hne. rewrite Hne.
  rewrite selectTier_first.
  apply length_eqb_0_false in Hne.
  destruct (Array_sort_nonempty compareCandidates (firstNonEmptyTier candidates)
              (firstNonEmptyTier_nonempty _ Hne)) as (chosen & Hchosen).
  exists chosen. unfold pickBestCandidate at 1. rewrite Hchosen.
  split; [reflexivity|].
  destruct (pickBestCandidate_best _ _ Hchosen) as [Hin Hbest].
  split; [exact Hin|]. intro Htrans.
  split; [exact (Hbest Htrans) | exact (pickBestCandidate_first _ _ Hchosen)].
Qed.

(** The tier of [Tiers]: no candidate is perfectly divisible, the perfect
    fits are the layers of height 3, 4 and 6, in this order, and the
    ranking, which their heights decide, is transitive on them. *)
Lemma Tiers_tier :
  filter LayerCandidate.perfectlyDivisible Tiers.candidates = []
  /\ List.length Tiers.candidates = 4%nat
  /\ firstNonEmptyTier Tiers.candidates
     = filter LayerCandidate.perfectFit Tiers.candidates
  /\ map (fun c => Layer.height (LayerCandidate.layer c))
       (firstNonEmptyTier Tiers.candidates)
     = [3; 4; 6].
Proof. vm_compute. repeat split. Qed.

Lemma Tiers_ranking_transitive :
  rankingTransitiveOn (firstNonEmptyTier Tiers.candidates).
Proof. apply rankingTransitiveOnb_true. vm_compute. reflexivity. Qed.

Lemma selectNextLayer_picks_from_first_tier_witness :
  exists chosen,
    selectNextLayer Tiers.pallet Tiers.inventory 10 100 = Ok (Some chosen)
    /\ In chosen (firstNonEmptyTier Tiers.candidates)
    /\ (forall other,
          In other (firstNonEmptyTier Tiers.candidates) ->
          ranksBefore other chosen = false)
    /\ exists before after,
         firstNonEmptyTier Tiers.candidates = before ++ chosen :: after
         /\ forall earlier,
              In earlier before -> ranksBefore chosen earlier = true.
Proof.
  destruct (selectNextLayer_picks_from_first_tier Tiers.pallet Tiers.inventory
              10 100 Tiers.candidates)
    as (chosen & Hsel & Hin & Hbest).
  - reflexivity.
  - vm_compute. reflexivity.
  - discriminate.
  - exists chosen. split; [exact Hsel|]. split; [exact Hin|].
    exact (Hbest Tiers_ranking_transitive).
Defined.

(** The candidate selected for [Tiers] is the last of the three perfect
    fits, the layer of height 6, in front of which the two others were
    collected. *)
Lemma Tiers_selected :
  selectNextLayer Tiers.pallet Tiers.inventory 10 100 = Ok Tiers.selected
  /\ option_map (fun c => Layer.height (LayerCandidate.layer c)) Tiers.selected
     = Some 6
  /\ option_map Some Tiers.selected
     = Some (nth_error (firstNonEmptyTier Tiers.candidates) 2).
Proof. vm_compute. repeat split. Qed.

Lemma Cycle_candidates :
  collectCandidates Cycle.pallet Cycle.inventory
    (Map_values (collectHeights Cycle.inventory 3)) 3 100
  = Ok Cycle.candidates.
Proof. vm_compute. reflexivity. Qed.

Lemma Cycle_selected :
  selectNextLayer Cycle.pallet Cycle.inventory 3 100 = Ok Cycle.selected.
Proof. vm_compute. reflexivity. Qed.

(** On the three layers of [Cycle] the ranking has no best element: each
    candidate has another one ranked strictly before it, so that no choice
    of [selectNextLayer] can be a best one. *)
Lemma Cycle_no_best :
  forallb
    (fun c => existsb (fun other => ranksBefore other c)
                (firstNonEmptyTier Cycle.candidates))
    (firstNonEmptyTier Cycle.candidates)
  = true.
Proof. vm_compute. reflexivity. Qed.

(** C5 as stated fails: the candidate returned for [Cycle] has a candidate
    of its tier ranked strictly before it. *)
Lemma selectNextLayer_best_of_tier_fails :
  ~ (forall (self : PalletOptimizer) (inventory : list PackingItem)
            (maxHeightRemaining maxWeightRemainingBase : Q)
            (candidates : list LayerCandidate) (chosen : LayerCandidate),
        EPSILON < maxWeightRemainingBase ->
        collectCandidates self inventory
          (Map_values (collectHeights inventory maxHeightRemaining))
          maxHeightRemaining maxWeightRemainingBase
        = Ok candidates ->
        candidates <> [] ->
        selectNextLayer self inventory maxHeightRemaining maxWeightRemainingBase
        = Ok (Some chosen) ->
        In chosen (firstNonEmptyTier candidates)
        /\ forall other,
             In other (firstNonEmptyTier candidates) ->
             ranksBefore other chosen = false).
Proof.
  intro H.
  pose proof Cycle_selected as Hsel.
  destruct Cycle.selected as [chosen|] eqn:Echosen; [|discriminate Echosen].
  assert (Hw : EPSILON < 100) by reflexivity.
  assert (Hne : Cycle.candidates <> []) by discriminate.
  destruct (H _ _ _ _ _ _ Hw Cycle_candidates Hne Hsel) as [Hin Hbest].
  pose proof Cycle_no_best as Hcycle.
  rewrite forallb_forall in Hcycle. specialize (Hcycle chosen Hin).
  apply existsb_exists in Hcycle. destruct Hcycle as (other & Hother & Hrank).
  rewrite (Hbest other Hother) in Hrank. discriminate.
Qed.

(** ** Whole units *)

Lemma inject_Z_minus (x y : Z) : inject_Z (x - y) = inject_Z x - inject_Z y.
Proof.
  unfold Z.sub, Qminus. rewrite inject_Z_plus, inject_Z_opp. reflexivity.
Qed.

Lemma Qceiling_minus_Z (q : Q) (z : Z) :
  Qceiling (q - inject_Z z) = (Qceiling q - z)%Z.
Proof.
  assert (H1 := Qle_ceiling q). assert (H2 := Qceiling_lt q).
  assert (H3 := Qle_ceiling (q - inject_Z z)).
  assert (H4 := Qceiling_lt (q - inject_Z z)).
  assert (Ha : inject_Z (Qceiling (q - inject_Z z) - 1) < inject_Z (Qceiling q - z)).
  { rewrite !inject_Z_minus. rewrite !inject_Z_minus in H4. lra. }
  assert (Hb : inject_Z (Qceiling q - z - 1) < inject_Z (Qceiling (q - inject_Z z))).
  { rewrite !inject_Z_minus. rewrite !inject_Z_minus in H2. lra. }
  rewrite <- Zlt_Qlt in Ha, Hb. lia.
Qed.

Lemma unitsOf_positive (q : Q) : 0 < q <-> (0 < unitsOf q)%Z.
Proof.
  unfold unitsOf. assert (H1 := Qle_ceiling q). assert (H2 := Qceiling_lt q).
  split; intro H.
  - assert (0 < Qceiling q)%Z; [|lia].
    rewrite Zlt_Qlt. change (inject_Z 0) with 0. lra.
  - assert (Hc : (0 < Qceiling q)%Z) by lia.
    assert (Hd : (0 <= Qceiling q - 1)%Z) by lia.
    rewrite Zle_Qle in Hd. change (inject_Z 0) with 0 in Hd. lra.
Qed.

Lemma unitsOf_nonneg (q : Q) : (0 <= unitsOf q)%Z.
Proof. unfold unitsOf. lia. Qed.

(** One iteration of [remaining -= 1] takes one unit. *)
Lemma unitsOf_pred (q : Q) : 0 < q -> unitsOf (q - 1) = (unitsOf q - 1)%Z.
Proof.
  intro H. apply unitsOf_positive in H. unfold unitsOf in *.
  change 1 with (inject_Z 1). rewrite Qceiling_minus_Z. lia.
Qed.

(** What [Math.max(0, remaining - count)] leaves. *)
Lemma unitsOf_decrement (q : Q) (count : Z) :
  (0 <= count)%Z ->
  unitsOf (Math_max 0 (q - inject_Z count)) = Z.max 0 (unitsOf q - count).
Proof.
  intro Hc. unfold Math_max.
  destruct (Qleb 0 (q - inject_Z count)) eqn:E; qprop.
  - unfold unitsOf. rewrite Qceiling_minus_Z. lia.
  - assert (H0 : unitsOf 0 = 0%Z) by reflexivity. rewrite H0.
    assert (Hneg : ~ (0 < unitsOf (q - inject_Z count))%Z).
    { intro Hp. apply unitsOf_positive in Hp. lra. }
    unfold unitsOf in *. rewrite Qceiling_minus_Z in Hneg. lia.
Qed.

(** ** The layer packer, one unit at a time *)

Lemma findPlacementForOptions_Some (self : PalletOptimizer)
    (grid : list (list bool)) (options : list OrientationOption)
    (option : OrientationOption) (position : Position * bool) :
  findPlacementForOptions self grid options = Ok (Some (option, position)) ->
  In option options
  /\ findBestPosition self grid (OrientationOption.length option)
       (OrientationOption.width option)
     = Ok (Some position).
Proof.
  induction options as [|o options IH]; simpl; intro H; [discriminate|].
  inv_bind H. destruct r as [pos|].
  - injection H as <- <-. split; [left; reflexivity | exact E].
  - destruct (IH H) as [H1 H2]. split; [right; exact H1 | exact H2].
Qed.

Lemma placeUnits_run (self : PalletOptimizer) (candidate : LayerQueueItem)
    (sortedOptions : list OrientationOption) (maxWeightRemainingBase : Q)
    (fuel : nat) :
  0 < toBaseWeight self (LayerQueueItem.weight candidate) ->
  (forall o, In o sortedOptions ->
             In o (LayerQueueItem.orientationOptions candidate)) ->
  forall remaining st st',
    placeUnits self fuel candidate
      (toBaseWeight self (LayerQueueItem.weight candidate)) sortedOptions
      maxWeightRemainingBase remaining st
    = Ok st' ->
    exists n,
      (Z.of_nat n <= unitsOf remaining)%Z
      /\ unitsPlaced self maxWeightRemainingBase candidate n st st'.
Proof.
  intros Hw Hopts. induction fuel as [|fuel IH]; intros remaining st st' H.
  - simpl in H. apply Ok_inj in H. subst st'. exists 0%nat.
    split; [unfold unitsOf; lia | constructor].
  - cbn [placeUnits] in H.
    destruct (Qleb remaining 0) eqn:Er.
    { apply Ok_inj in H. subst st'. exists 0%nat.
      split; [unfold unitsOf; lia | constructor]. }
    destruct (Qgtb _ _) eqn:Ew.
    { apply Ok_inj in H. subst st'. exists 0%nat.
      split; [unfold unitsOf; lia | constructor]. }
    inv_bind H. destruct r as [[option position]|].
    2:{ apply Ok_inj in H. subst st'. exists 0%nat.
        split; [unfold unitsOf; lia | constructor]. }
    inv_bind H. apply IH in H. destruct H as (n & Hn & Hrun).
    apply findPlacementForOptions_Some in E. destruct E as [Hin Hpos].
    exists (S n). qprop. split.
    + rewrite (unitsOf_pred remaining Er) in Hn. lia.
    + econstructor; [|exact Hrun].
      unfold unitPlaced. split; [exact Hw|]. split; [exact Ew|].
      exists option, position. auto.
Qed.

Lemma packCandidate_run (self : PalletOptimizer) (maxWeightRemainingBase : Q)
    (candidate : LayerQueueItem) (st st' : LayerState) :
  packCandidate self maxWeightRemainingBase candidate st = Ok st' ->
  exists n,
    (Z.of_nat n <= unitsOf (LayerQueueItem.remaining candidate))%Z
    /\ unitsPlaced self maxWeightRemainingBase candidate n st st'.
Proof.
  unfold packCandidate. intro H.
  destruct (Qleb (toBaseWeight self (LayerQueueItem.weight candidate)) 0) eqn:Ew.
  - apply Ok_inj in H. subst st'. exists 0%nat.
    split; [unfold unitsOf; lia | constructor].
  - qprop. eapply placeUnits_run; [exact Ew | | exact H].
    intros o Ho. apply Array_sort_In in Ho. exact Ho.
Qed.

(** The fuel that [packCandidate] gives to the loop is enough: with any
    fuel that covers the units of [remaining] the loop returns the same
    state, so it never stops for lack of fuel. *)
Lemma placeUnits_enough (self : PalletOptimizer) (candidate : LayerQueueItem)
    (skuWeightBase : Q) (sortedOptions : list OrientationOption) (mwrb : Q)
    (fuel : nat) :
  forall fuel' remaining st,
    (unitsOf remaining <= Z.of_nat fuel)%Z ->
    (unitsOf remaining <= Z.of_nat fuel')%Z ->
    placeUnits self fuel candidate skuWeightBase sortedOptions mwrb remaining st
    = placeUnits self fuel' candidate skuWeightBase sortedOptions mwrb remaining
        st.
Proof.
  induction fuel as [|fuel IH]; intros fuel' remaining st H H'.
  - assert (Hr : Qleb remaining 0 = true).
    { destruct (Qleb remaining 0) eqn:E; [reflexivity|]. qprop.
      apply unitsOf_positive in E. lia. }
    destruct fuel'; cbn [placeUnits]; [reflexivity|]. rewrite Hr. reflexivity.
  - destruct fuel' as [|fuel'].
    + assert (Hr : Qleb remaining 0 = true).
      { destruct (Qleb remaining 0) eqn:E; [reflexivity|]. qprop.
        apply unitsOf_positive in E. lia. }
      cbn [placeUnits]. rewrite Hr. reflexivity.
    + cbn [placeUnits]. destruct (Qleb remaining 0) eqn:Er; [reflexivity|].
      destruct (Qgtb _ _); [reflexivity|].
      destruct (findPlacementForOptions self (LayerState.grid st) sortedOptions)
        as [[[option position]|]| |]; cbn [bind]; try reflexivity.
      destruct (placeUnit candidate skuWeightBase option position st)
        as [st'| |]; cbn [bind]; try reflexivity.
      qprop. apply IH; rewrite (unitsOf_pred remaining Er); lia.
Qed.

(** A property of the state that every placement keeps holds after the
    queue has been packed. *)
Lemma unitsPlaced_invariant (self : PalletOptimizer) (mwrb : Q)
    (candidate : LayerQueueItem) (I : LayerState -> Prop) :
  (forall st st', I st -> unitPlaced self mwrb candidate st st' -> I st') ->
  forall n st st', unitsPlaced self mwrb candidate n st st' -> I st -> I st'.
Proof.
  intros Hstep n st st' Hrun. induction Hrun as [st | n st st1 st2 H1 _ IH].
  - auto.
  - intro Hst. apply IH. eapply Hstep; eassumption.
Qed.

Lemma packQueue_invariant (self : PalletOptimizer) (mwrb : Q)
    (I : LayerState -> Prop) (queue : list LayerQueueItem) :
  (forall candidate st st',
      In candidate queue -> I st -> unitPlaced self mwrb candidate st st' ->
      I st') ->
  forall st st',
    for_each queue (packCandidate self mwrb) st = Ok st' -> I st -> I st'.
Proof.
  induction queue as [|candidate queue IH]; intros Hstep st st' H Hst.
  - simpl in H. injection H as <-. exact Hst.
  - cbn [for_each] in H. inv_bind H.
    apply packCandidate_run in E. destruct E as (n & _ & Hrun).
    eapply IH; [| exact H |].
    + intros c s s' Hc. apply Hstep. right. exact Hc.
    + eapply unitsPlaced_invariant; [| exact Hrun | exact Hst].
      intros s s'. apply Hstep. left. reflexivity.
Qed.

(** What a successful [packLayerForHeight] is made of. *)
Lemma packLayerForHeight_Some (self : PalletOptimizer)
    (inventory : list PackingItem) (layerHeight mhr mwrb : Q)
    (c : LayerCandidate) :
  packLayerForHeight self inventory layerHeight mhr mwrb = Ok (Some c) ->
  exists grid st,
    createGrid self = Ok grid
    /\ for_each (layerQueue inventory layerHeight) (packCandidate self mwrb)
         (LayerState.mk grid [] [] 0 0 0)
       = Ok st
    /\ LayerState.placedItems st <> []
    /\ LayerCandidate.layer c
       = Layer.mk (LayerState.placedItems st) layerHeight
           (LayerState.layerWeightInput st)
    /\ LayerCandidate.usage c = LayerState.usage st
    /\ LayerCandidate.weightBase c = LayerState.layerWeightBase st.
Proof.
  unfold packLayerForHeight. intro H.
  destruct (List.length _ =? 0)%nat; [discriminate|].
  inv_bind H. inv_bind H.
  destruct (List.length (LayerState.placedItems r0) =? 0)%nat eqn:Ep;
    [discriminate|].
  injection H as <-. apply length_eqb_0_false in Ep.
  exists r, r0. cbn. repeat split; assumption.
Qed.

(** ** The layer selector *)

Lemma Map_values_set {K V : Type} (eqb : K -> K -> bool) (m : list (K * V))
    (k : K) (v v' : V) :
  In v (Map_values (Map_set eqb m k v')) -> v = v' \/ In v (Map_values m).
Proof.
  unfold Map_values. induction m as [|[k0 v0] m IH]; simpl.
  - intros [H | []]. left. symmetry. exact H.
  - destruct (eqb k0 k); simpl.
    + intros [H | H]; [left; symmetry; exact H | right; right; exact H].
    + intros [H | H]; [right; left; exact H|].
      destruct (IH H) as [H' | H']; [left; exact H' | right; right; exact H'].
Qed.

Lemma collectHeights_bound (inventory : list PackingItem) (mhr : Q) :
  forall h, In h (Map_values (collectHeights inventory mhr)) ->
            h <= mhr + HEIGHT_TOLERANCE.
Proof.
  unfold collectHeights.
  set (P := fun m : list (Q * Q) =>
              forall h, In h (Map_values m) -> h <= mhr + HEIGHT_TOLERANCE).
  assert (Hinner : forall options m, P m ->
            P (fold_left
                 (fun heightMap option =>
                    if Qleb (OrientationOption.height option)
                         (mhr + HEIGHT_TOLERANCE)
                    then
                      let key := normalizeHeight (OrientationOption.height option) in
                      if Map_has Qeq_bool heightMap key then heightMap
                      else Map_set Qeq_bool heightMap key
                             (OrientationOption.height option)
                    else heightMap)
                 options m)).
  { induction options as [|o options IH]; intros m Hm; simpl; [exact Hm|].
    apply IH.
    destruct (Qleb (OrientationOption.height o) (mhr + HEIGHT_TOLERANCE)) eqn:E;
      [|exact Hm].
    destruct (Map_has _ _ _); [exact Hm|].
    intros h Hh. apply Map_values_set in Hh. destruct Hh as [-> | Hh].
    - qprop. exact E.
    - apply Hm. exact Hh. }
  assert (Houter : forall items m, P m ->
            P (fold_left
                 (fun heightMap item =>
                    if Qleb (PackingItem.remaining item) 0 then heightMap
                    else
                      fold_left
                        (fun heightMap option =>
                           if Qleb (OrientationOption.height option)
                                (mhr + HEIGHT_TOLERANCE)
                           then
                             let key :=
                               normalizeHeight (OrientationOption.height option) in
                             if Map_has Qeq_bool heightMap key then heightMap
                             else Map_set Qeq_bool heightMap key
                                    (OrientationOption.height option)
                           else heightMap)
                        (PackingItem.orientations item) heightMap)
                 items m)).
  { induction items as [|item items IH]; intros m Hm; simpl; [exact Hm|].
    apply IH. destruct (Qleb (PackingItem.remaining item) 0); [exact Hm|].
    apply Hinner. exact Hm. }
  apply Houter. intros h [].
Qed.

Lemma collectCandidates_In (self : PalletOptimizer)
    (inventory : list PackingItem) (mhr mwrb : Q) (heights : list Q) :
  forall acc candidates,
    for_each heights
      (fun heightValue candidates =>
         candidate <- packLayerForHeight self inventory heightValue mhr mwrb ;;
         match candidate with
         | Some candidate => Ok (candidates ++ [candidate])
         | None => Ok candidates
         end)
      acc
    = Ok candidates ->
    forall c, In c candidates ->
      In c acc
      \/ exists h, In h heights
                   /\ packLayerForHeight self inventory h mhr mwrb = Ok (Some c).
Proof.
  induction heights as [|h heights IH]; intros acc candidates H c Hc.
  - simpl in H. injection H as <-. left. exact Hc.
  - cbn [for_each] in H. inv_bind H. inv_bind E.
    destruct (IH _ _ H c Hc) as [Hin | (h' & Hh' & Hpack)].
    + destruct r0 as [c0|]; injection E as <-.
      * apply in_app_or in Hin. destruct Hin as [Hin | [<- | []]].
        -- left. exact Hin.
        -- right. exists h. split; [left; reflexivity | exact E0].
      * left. exact Hin.
    + right. exists h'. split; [right; exact Hh' | exact Hpack].
Qed.

Lemma pickBestCandidate_In (tier : list LayerCandidate) (c : LayerCandidate) :
  pickBestCandidate tier = Some c -> In c tier.
Proof. intro H. apply pickBestCandidate_best in H. tauto. Qed.

(** The layer that the selector returns was packed for one of the collected
    heights, each of which fits the height left within the tolerance. *)
Lemma selectNextLayer_Some (self : PalletOptimizer)
    (inventory : list PackingItem) (mhr mwrb : Q) (c : LayerCandidate) :
  selectNextLayer self inventory mhr mwrb = Ok (Some c) ->
  exists h,
    h <= mhr + HEIGHT_TOLERANCE
    /\ packLayerForHeight self inventory h mhr mwrb = Ok (Some c).
Proof.
  unfold selectNextLayer. intro H.
  destruct (Qleb mwrb EPSILON); [discriminate|].
  destruct (List.length (collectHeights inventory mhr) =? 0)%nat; [discriminate|].
  inv_bind H.
  destruct (List.length r =? 0)%nat; [discriminate|].
  injection H as H. apply pickBestCandidate_In in H.
  rewrite selectTier_first in H. apply firstNonEmptyTier_incl in H.
  destruct (collectCandidates_In self inventory mhr mwrb _ _ _ E c H)
    as [[] | (h & Hh & Hpack)].
  exists h. split; [|exact Hpack].
  apply (collectHeights_bound inventory mhr). exact Hh.
Qed.

(** ** The pallet builder and the driver, by invariant *)

(** ** The pallet builder and the driver, by invariant *)

Lemma buildPallet_loop_invariant (self : PalletOptimizer)
    (I : PalletState -> Prop) :
  (forall st nextLayer,
      I st ->
      hasRemaining (PalletState.inventory st) = true ->
      HEIGHT_TOLERANCE
      < PalletOptimizer.maxHeight self - PalletState.currentHeight st ->
      EPSILON
      < PalletOptimizer.maxWeightBase self - PalletState.currentWeightBase st ->
      selectNextLayer self (PalletState.inventory st)
        (PalletOptimizer.maxHeight self - PalletState.currentHeight st)
        (PalletOptimizer.maxWeightBase self - PalletState.currentWeightBase st)
      = Ok (Some nextLayer) ->
      I (addLayer st nextLayer)) ->
  forall fuel st st',
    buildPallet_loop self fuel st = Ok st' -> I st -> I st'.
Proof.
  intros Hstep. induction fuel as [|fuel IH]; intros st st' H Hst.
  - simpl in H. destruct (negb _); [|discriminate]. injection H as <-. exact Hst.
  - cbn [buildPallet_loop] in H.
    destruct (negb (hasRemaining (PalletState.inventory st))) eqn:Er.
    { injection H as <-. exact Hst. }
    destruct (_ || _) eqn:Eg. { injection H as <-. exact Hst. }
    inv_bind H. destruct r as [nextLayer|].
    2:{ injection H as <-. exact Hst. }
    apply (IH _ _ H). qprop.
    match goal with
    | H0 : HEIGHT_TOLERANCE < _, H1 : EPSILON < _ |- _ =>
        exact (Hstep st nextLayer Hst Er H0 H1 E)
    end.
Qed.

Lemma optimize_loop_invariant (self : PalletOptimizer)
    (I : list PackingItem -> list Pallet -> Prop) :
  (forall inner inventory pallets palletId pallet inventory',
      I inventory pallets ->
      hasRemaining inventory = true ->
      buildPallet self inner inventory palletId = Ok (pallet, inventory') ->
      Pallet.layers pallet <> [] ->
      I inventory' (pallets ++ [pallet])) ->
  forall fuel inner inventory pallets palletId result,
    optimize_loop self fuel inner inventory pallets palletId = Ok result ->
    I inventory pallets ->
    exists inventory',
      I inventory' result /\ hasRemaining inventory' = false.
Proof.
  intros Hstep. induction fuel as [|fuel IH];
    intros inner inventory pallets palletId result H Hinv.
  - simpl in H. destruct (hasRemaining inventory) eqn:Er; [discriminate|].
    injection H as <-. exists inventory. auto.
  - cbn [optimize_loop] in H.
    destruct (hasRemaining inventory) eqn:Er; cbn [negb] in H.
    2:{ injection H as <-. exists inventory. auto. }
    inv_bind H. destruct r as [pallet inventory'].
    destruct (List.length (Pallet.layers pallet) =? 0)%nat eqn:El; [discriminate|].
    apply length_eqb_0_false in El.
    apply (IH _ _ _ _ _ H). eapply Hstep; eassumption.
Qed.

(** ** Inventory items keep their SKU, orientations and weight *)

Lemma decrementFirst_wf (self : PalletOptimizer) (inventory : list PackingItem)
    (skuId : string) (count : Z) :
  Forall (wfItem self) inventory ->
  Forall (wfItem self) (decrementFirst inventory skuId count).
Proof.
  induction 1 as [|item rest Hitem Hrest IH]; simpl; [constructor|].
  destruct (String.eqb _ _); constructor; assumption.
Qed.

Lemma applyUsage_wf (self : PalletOptimizer) (usage : list (string * Z)) :
  forall inventory,
    Forall (wfItem self) inventory ->
    Forall (wfItem self) (applyUsage inventory usage).
Proof.
  unfold applyUsage. induction usage as [|[skuId count] usage IH];
    intros inventory H; simpl; [exact H|].
  apply IH. apply decrementFirst_wf. exact H.
Qed.

Lemma initializeInventory_wf (self : PalletOptimizer) (items : list OrderItem)
    (inventory : list PackingItem) :
  initializeInventory self items = Ok inventory ->
  Forall (wfItem self) inventory.
Proof.
  intro H. apply initializeInventory_Ok in H. destruct H as [-> _].
  simpl. apply Forall_forall. intros item Hin. apply in_map_iff in Hin.
  destruct Hin as (line & <- & _). split; reflexivity.
Qed.

Lemma filter_map_In {A B : Type} (f : A -> option B) (l : list A) (b : B) :
  In b (filter_map f l) <-> exists a, In a l /\ f a = Some b.
Proof.
  induction l as [|a l IH]; simpl.
  - split; [intros [] | intros (a & [] & _)].
  - destruct (f a) as [b'|] eqn:E; simpl; rewrite IH; split.
    + intros [<- | (a' & H1 & H2)]; [exists a; auto | exists a'; auto].
    + intros (a' & [<- | H1] & H2); [left; congruence | right; exists a'; auto].
    + intros (a' & H1 & H2). exists a'. auto.
    + intros (a' & [<- | H1] & H2); [congruence | exists a'; auto].
Qed.

Lemma toQueueItem_Some (layerHeight : Q) (item : PackingItem)
    (candidate : LayerQueueItem) :
  toQueueItem layerHeight item = Some candidate ->
  LayerQueueItem.sku candidate = PackingItem.sku item
  /\ LayerQueueItem.weight candidate = PackingItem.weight item
  /\ LayerQueueItem.remaining candidate = PackingItem.remaining item
  /\ LayerQueueItem.orientationOptions candidate
     = filter
         (fun option =>
            Qleb (Math_abs (OrientationOption.height option - layerHeight))
              HEIGHT_TOLERANCE)
         (PackingItem.orientations item).
Proof.
  unfold toQueueItem. destruct (filter _ _) as [|first others] eqn:E;
    [discriminate|].
  intro H. injection H as <-. cbn. auto.
Qed.

Lemma layerQueue_In (inventory : list PackingItem) (layerHeight : Q)
    (candidate : LayerQueueItem) :
  In candidate (layerQueue inventory layerHeight) ->
  exists item,
    In item inventory /\ 0 < PackingItem.remaining item
    /\ toQueueItem layerHeight item = Some candidate.
Proof.
  unfold layerQueue. intro H. apply Array_sort_In in H.
  apply filter_map_In in H. destruct H as (item & Hin & Hq).
  apply filter_In in Hin. destruct Hin as [Hin Hpos]. qprop.
  exists item. auto.
Qed.

Lemma placeUnit_Ok (candidate : LayerQueueItem) (skuWeightBase : Q)
    (option : OrientationOption) (position : Position * bool)
    (st st' : LayerState) :
  placeUnit candidate skuWeightBase option position st = Ok st' ->
  let placedLength :=
    if snd position then OrientationOption.width option
    else OrientationOption.length option in
  let placedWidth :=
    if snd position then OrientationOption.length option
    else OrientationOption.width option in
  let placed :=
    PlacedItem.mk (LayerQueueItem.sku candidate) 1 (Position.x (fst position))
      (Position.y (fst position)) placedWidth placedLength (snd position) in
  markGridOccupied (LayerState.grid st) (Position.x (fst position))
    (Position.y (fst position)) placedLength placedWidth
  = Ok (LayerState.grid st')
  /\ LayerState.placedItems st' = LayerState.placedItems st ++ [placed]
  /\ LayerState.usage st'
     = Map_set String.eqb (LayerState.usage st)
         (SKU.id (LayerQueueItem.sku candidate))
         (match
            Map_get String.eqb (LayerState.usage st)
              (SKU.id (LayerQueueItem.sku candidate))
          with
          | Some n => n
          | None => 0
          end + 1)%Z
  /\ LayerState.areaUsed st'
     = LayerState.areaUsed st + placedLength * placedWidth
  /\ LayerState.layerWeightInput st'
     = LayerState.layerWeightInput st + LayerQueueItem.weight candidate
  /\ LayerState.layerWeightBase st'
     = LayerState.layerWeightBase st + skuWeightBase.
Proof.
  unfold placeUnit. intro H. inv_bind H. injection H as <-. cbn.
  repeat split; try reflexivity. exact E.
Qed.

(** ** Height homogeneity *)

Lemma packLayerForHeight_homogeneous (self : PalletOptimizer)
    (inventory : list PackingItem) (layerHeight mhr mwrb : Q)
    (c : LayerCandidate) :
  Forall (wfItem self) inventory ->
  packLayerForHeight self inventory layerHeight mhr mwrb = Ok (Some c) ->
  heightHomogeneous self (LayerCandidate.layer c).
Proof.
  intros Hwf H. apply packLayerForHeight_Some in H.
  destruct H as (grid & st & _ & Hrun & _ & Hlayer & _).
  rewrite Hlayer. unfold heightHomogeneous. cbn [Layer.items Layer.height].
  revert Hrun.
  set (I := fun st : LayerState =>
              forall p, In p (LayerState.placedItems st) ->
                exists o,
                  In o (generateOrientationOptions self (PlacedItem.sku p))
                  /\ placedWithOption p o
                  /\ Qabs (OrientationOption.height o - layerHeight)
                     <= HEIGHT_TOLERANCE).
  intro Hrun. apply (packQueue_invariant self mwrb I _) in Hrun.
  - exact Hrun.
  - intros candidate s s' Hcand Hs (_ & _ & o & position & Ho & _ & Hplace).
    apply layerQueue_In in Hcand. destruct Hcand as (item & Hitem & _ & Hq).
    apply toQueueItem_Some in Hq. destruct Hq as (Hsku & _ & _ & Hopts).
    rewrite Forall_forall in Hwf. destruct (Hwf item Hitem) as [Hgen _].
    rewrite Hopts in Ho. apply filter_In in Ho. destruct Ho as [Ho Hnear].
    apply placeUnit_Ok in Hplace. destruct Hplace as (_ & Hplaced & _).
    intros p Hp. unfold I in Hs. rewrite Hplaced in Hp.
    apply in_app_or in Hp. destruct Hp as [Hp | [<- | []]]; [auto|].
    exists o. cbn [PlacedItem.sku]. rewrite Hsku, <- Hgen.
    split; [exact Ho|]. split.
    + unfold placedWithOption. cbn. destruct (snd position); auto.
    + qprop. exact Hnear.
  - intros p [].
Qed.

(** A property of layers that every packed layer has holds of all the
    layers of all the pallets that [optimize] returns. *)
Lemma optimize_layers (self : PalletOptimizer) (P : Layer -> Prop) :
  (forall inventory layerHeight mhr mwrb c,
      Forall (wfItem self) inventory ->
      packLayerForHeight self inventory layerHeight mhr mwrb = Ok (Some c) ->
      P (LayerCandidate.layer c)) ->
  forall fuel items pallets,
    optimize self fuel items = Ok pallets ->
    forall pallet layer,
      In pallet pallets -> In layer (Pallet.layers pallet) -> P layer.
Proof.
  intros Hpack fuel items pallets H.
  unfold optimize in H. inv_bind H. rename r into inventory.
  apply initializeInventory_wf in E.
  set (I := fun (inv : list PackingItem) (ps : list Pallet) =>
              Forall (wfItem self) inv
              /\ forall pallet layer,
                   In pallet ps -> In layer (Pallet.layers pallet) -> P layer).
  apply (optimize_loop_invariant self I) in H.
  - destruct H as (inv' & [_ H] & _). exact H.
  - clear H E. intros inner inv ps palletId pallet inv' [Hwf Hps] _ Hbuild _.
    unfold buildPallet in Hbuild. inv_bind Hbuild. injection Hbuild as <- <-.
    set (J := fun st : PalletState =>
                Forall (wfItem self) (PalletState.inventory st)
                /\ forall layer, In layer (PalletState.layers st) -> P layer).
    apply (buildPallet_loop_invariant self J) in E.
    + destruct E as [Hwf' Hlayers]. split; [exact Hwf'|].
      intros pallet layer Hin Hl. apply in_app_or in Hin.
      destruct Hin as [Hin | [<- | []]]; [eapply Hps; eassumption|].
      apply Hlayers. exact Hl.
    + intros st nextLayer [Hw Hl] _ _ _ Hsel. split.
      * cbn. apply applyUsage_wf. exact Hw.
      * cbn. intros layer Hin. apply in_app_or in Hin.
        destruct Hin as [Hin | [<- | []]]; [auto|].
        apply selectNextLayer_Some in Hsel. destruct Hsel as (h & _ & Hsel).
        eapply Hpack; eassumption.
    + split; [exact Hwf | intros layer []].
  - split; [exact E | intros pallet layer []].
Qed.

(** C4. In every layer of every pallet that a successful [optimize]
    returns, each placed item lies in an orientation of its SKU whose height
    is within [HEIGHT_TOLERANCE] of the height of the layer. *)
Theorem layers_are_height_homogeneous :
  forall (self : PalletOptimizer) (fuel : nat) (items : list OrderItem)
         (pallets : list Pallet) (pallet : Pallet) (layer : Layer),
    optimize self fuel items = Ok pallets ->
    In pallet pallets ->
    In layer (Pallet.layers pallet) ->
    heightHomogeneous self layer.
Proof.
  intros self fuel items pallets pallet layer H Hp Hl.
  eapply (optimize_layers self (heightHomogeneous self)); try eassumption.
  intros. eapply packLayerForHeight_homogeneous; eassumption.
Qed.

(** ** The occupancy grid *)

Lemma list_set_length {A : Type} (l : list A) (n : nat) (f : A -> A) :
  List.length (list_set l n f) = List.length l.
Proof.
  revert n. induction l as [|a l IH]; intros [|n]; simpl; auto.
Qed.

Lemma nth_list_set_same {A : Type} (l : list A) (n : nat) (f : A -> A) (d : A) :
  (n < List.length l)%nat -> nth n (list_set l n f) d = f (nth n l d).
Proof.
  revert n. induction l as [|a l IH]; intros [|n]; simpl; intro H;
    try lia; auto. apply IH. lia.
Qed.

Lemma nth_list_set_other {A : Type} (l : list A) (n k : nat) (f : A -> A) (d : A) :
  k <> n -> nth k (list_set l n f) d = nth k l d.
Proof.
  revert n k. induction l as [|a l IH]; intros [|n] [|k]; simpl; intro H;
    try congruence; auto.
Qed.

Lemma list_set_Forall {A : Type} (P : A -> Prop) (l : list A) (n : nat)
    (f : A -> A) :
  (forall a, P a -> P (f a)) -> Forall P l -> Forall P (list_set l n f).
Proof.
  intros Hf. revert n. induction l as [|a l IH]; intros [|n] H; simpl;
    inversion H; subst; constructor; auto.
Qed.

Lemma grid_set_dims (grid : list (list bool)) (i j : Z) (rows columns : nat) :
  gridDims grid rows columns -> gridDims (grid_set grid i j) rows columns.
Proof.
  intros [H1 H2]. unfold grid_set. split.
  - rewrite list_set_length. exact H1.
  - apply list_set_Forall; [|exact H2].
    intros row Hrow. rewrite list_set_length. exact Hrow.
Qed.

Lemma grid_set_mono (grid : list (list bool)) (i j i' j' : Z) :
  grid_get grid i' j' = true -> grid_get (grid_set grid i j) i' j' = true.
Proof.
  unfold grid_get, grid_set. intro H.
  destruct (Nat.eq_dec (Z.to_nat i') (Z.to_nat i)) as [Ei | Ei].
  - rewrite Ei in *.
    destruct (Nat.lt_ge_cases (Z.to_nat i) (List.length grid)) as [Hlt | Hge].
    + rewrite nth_list_set_same by exact Hlt.
      destruct (Nat.eq_dec (Z.to_nat j') (Z.to_nat j)) as [Ej | Ej].
      * rewrite Ej in *.
        rewrite nth_list_set_same; [reflexivity|].
        destruct (Nat.lt_ge_cases (Z.to_nat j)
                    (List.length (nth (Z.to_nat i) grid []))) as [Hj | Hj];
          [exact Hj|].
        rewrite nth_overflow in H by exact Hj. discriminate.
      * rewrite nth_list_set_other by exact Ej. exact H.
    + rewrite (nth_overflow grid) in H by exact Hge.
      destruct (Z.to_nat j'); discriminate.
  - rewrite nth_list_set_other by exact Ei. exact H.
Qed.

Lemma grid_set_marks (grid : list (list bool)) (i j : Z) (rows columns : nat) :
  gridDims grid rows columns ->
  (Z.to_nat i < rows)%nat -> (Z.to_nat j < columns)%nat ->
  grid_get (grid_set grid i j) i j = true.
Proof.
  intros [H1 H2] Hi Hj. unfold grid_get, grid_set.
  rewrite nth_list_set_same by lia.
  rewrite nth_list_set_same; [reflexivity|].
  rewrite Forall_forall in H2. rewrite (H2 (nth (Z.to_nat i) grid [])).
  - exact Hj.
  - apply nth_In. lia.
Qed.

Lemma range_In (lo hi i : Z) : In i (range lo hi) <-> (lo <= i < hi)%Z.
Proof.
  unfold range. rewrite in_map_iff. split.
  - intros (k & <- & Hk). apply in_seq in Hk. lia.
  - intro H. exists (Z.to_nat (i - lo)). split; [lia|].
    apply in_seq. lia.
Qed.

Lemma mark_row (i : Z) (rows columns : nat) (js : list Z) :
  forall grid,
    gridDims grid rows columns ->
    let grid' := fold_left (fun g j => grid_set g i j) js grid in
    gridDims grid' rows columns
    /\ (forall i' j', grid_get grid i' j' = true -> grid_get grid' i' j' = true)
    /\ (forall j, In j js -> (Z.to_nat i < rows)%nat ->
                  (Z.to_nat j < columns)%nat -> grid_get grid' i j = true).
Proof.
  induction js as [|j0 js IH]; intros grid Hd; simpl.
  - split; [exact Hd|]. split; [auto | intros j []].
  - destruct (IH (grid_set grid i j0) (grid_set_dims _ _ _ _ _ Hd))
      as (Hd' & Hmono & Hmark).
    split; [exact Hd'|]. split.
    + intros i' j' H. apply Hmono. apply grid_set_mono. exact H.
    + intros j [<- | Hj] Hi Hc.
      * apply Hmono. eapply grid_set_marks; eassumption.
      * apply Hmark; assumption.
Qed.

Lemma mark_rect (rows columns : nat) (js : list Z) (ks : list Z) :
  forall grid,
    gridDims grid rows columns ->
    let grid' :=
      fold_left (fun g i => fold_left (fun g' j => grid_set g' i j) js g)
        ks grid in
    gridDims grid' rows columns
    /\ (forall i' j', grid_get grid i' j' = true -> grid_get grid' i' j' = true)
    /\ (forall i j, In i ks -> In j js -> (Z.to_nat i < rows)%nat ->
                    (Z.to_nat j < columns)%nat -> grid_get grid' i j = true).
Proof.
  induction ks as [|i0 ks IH]; intros grid Hd; simpl.
  - split; [exact Hd|]. split; [auto | intros i j []].
  - destruct (mark_row i0 rows columns js grid Hd) as (Hd0 & Hmono0 & Hmark0).
    destruct (IH _ Hd0) as (Hd' & Hmono & Hmark).
    split; [exact Hd'|]. split.
    + intros i' j' H. apply Hmono, Hmono0, H.
    + intros i j [<- | Hi] Hj Hr Hc.
      * apply Hmono. apply Hmark0; assumption.
      * apply Hmark; assumption.
Qed.

Lemma Zle_Qfloor (z : Z) (q : Q) : inject_Z z <= q -> (z <= Qfloor q)%Z.
Proof.
  intro H. apply Qfloor_resp_le in H. rewrite Qfloor_Z in H. exact H.
Qed.



Lemma markGridOccupied_Ok (grid grid' : list (list bool)) (x y : Z)
    (length width : Q) (rows columns : nat) :
  markGridOccupied grid x y length width = Ok grid' ->
  gridDims grid rows columns ->
  gridDims grid' rows columns
  /\ (forall i j, grid_get grid i j = true -> grid_get grid' i j = true)
  /\ (forall i j,
        (0 <= x)%Z -> (0 <= y)%Z ->
        (x <= i < Z.min (Qceiling (inject_Z x + length)) (Z.of_nat rows))%Z ->
        (y <= j < Z.min (Qceiling (inject_Z y + width)) (Z.of_nat columns))%Z ->
        grid_get grid' i j = true).
Proof.
  unfold markGridOccupied. destruct grid as [|row0 rest]; [discriminate|].
  set (grid := row0 :: rest). intros H Hd. apply Ok_inj in H. subst grid'.
  unfold Math_floor, Math_ceil. rewrite !Qfloor_Z.
  assert (Hrows : List.length grid = rows) by apply Hd.
  assert (Hcols : List.length row0 = columns).
  { destruct Hd as [_ Hd]. inversion Hd; subst. reflexivity. }
  rewrite Hrows, Hcols.
  destruct (mark_rect rows columns
              (range y (Z.min (Qceiling (inject_Z y + width)) (Z.of_nat columns)))
              (range x (Z.min (Qceiling (inject_Z x + length)) (Z.of_nat rows)))
              grid Hd) as (Hd' & Hmono & Hmark).
  split; [exact Hd'|]. split; [exact Hmono|].
  intros i j Hx Hy Hi Hj. apply Hmark; try (apply range_In; assumption); lia.
Qed.




Lemma findBestPosition_Some (self : PalletOptimizer) (grid : list (list bool))
    (length width : Q) (position : Position * bool) :
  findBestPosition self grid length width = Ok (Some position) ->
  findPosition self grid
    (if snd position then width else length)
    (if snd position then length else width)
  = Ok (Some (fst position)).
Proof.
  unfold findBestPosition. intro H. inv_bind H.
  destruct r as [pos|].
  - injection H as <-. exact E.
  - inv_bind H. destruct r as [pos|]; [|discriminate].
    injection H as <-. exact E0.
Qed.


(** ** Placement within the footprint and without overlap *)







(** ** Height and weight budgets *)

Lemma sumQ_app (l1 l2 : list Q) : sumQ (l1 ++ l2) == sumQ l1 + sumQ l2.
Proof.
  induction l1 as [|a l1 IH]; simpl.
  - ring.
  - rewrite IH. ring.
Qed.

Lemma toBaseWeight_plus (self : PalletOptimizer) (a b : Q) :
  toBaseWeight self (a + b) == toBaseWeight self a + toBaseWeight self b.
Proof.
  unfold toBaseWeight, toBaseWeight_in.
  destruct (PalletOptimizer.weightUnit self); ring.
Qed.

Lemma toBaseWeight_zero (self : PalletOptimizer) : toBaseWeight self 0 == 0.
Proof.
  unfold toBaseWeight, toBaseWeight_in.
  destruct (PalletOptimizer.weightUnit self); ring.
Qed.

Lemma packLayerForHeight_weight (self : PalletOptimizer)
    (inventory : list PackingItem) (layerHeight mhr mwrb : Q)
    (c : LayerCandidate) :
  Forall (wfItem self) inventory ->
  packLayerForHeight self inventory layerHeight mhr mwrb = Ok (Some c) ->
  Layer.height (LayerCandidate.layer c) = layerHeight
  /\ LayerCandidate.weightBase c
     == sumQ (map (unitWeightBase self) (Layer.items (LayerCandidate.layer c)))
  /\ toBaseWeight self (Layer.weight (LayerCandidate.layer c))
     == LayerCandidate.weightBase c
  /\ LayerCandidate.weightBase c <= mwrb + EPSILON.
Proof.
  intros Hwf H. apply packLayerForHeight_Some in H.
  destruct H as (grid & st & _ & Hrun & Hne & Hlayer & _ & Hwb).
  apply (packQueue_invariant self mwrb (weightInvariant self mwrb)) in Hrun.
  - destruct Hrun as (H1 & H2 & H3). rewrite Hlayer, Hwb. cbn.
    repeat split; try assumption. destruct H3 as [H3 | H3]; [congruence | exact H3].
  - intros candidate s s' Hcand (H1 & H2 & H3)
      (_ & Hle & o & position & _ & _ & Hplace).
    apply placeUnit_Ok in Hplace. cbv zeta in Hplace.
    destruct Hplace as (_ & Hplaced & _ & _ & Hlwi & Hlwb).
    apply layerQueue_In in Hcand. destruct Hcand as (item & Hitem & _ & Hq).
    apply toQueueItem_Some in Hq. destruct Hq as (Hsku & Hweight & _).
    rewrite Forall_forall in Hwf. destruct (Hwf item Hitem) as [_ Hw].
    unfold weightInvariant. rewrite Hplaced, Hlwi, Hlwb.
    rewrite map_app, sumQ_app, toBaseWeight_plus. cbn [map sumQ fold_right].
    unfold unitWeightBase at 2. cbn [PlacedItem.sku].
    rewrite Hsku, <- Hw, <- Hweight.
    split; [rewrite H1; ring|]. split; [rewrite H2; ring|].
    right. exact Hle.
  - cbn. split; [reflexivity|]. split; [apply toBaseWeight_zero|].
    left. reflexivity.
Qed.

Lemma addLayer_budget (self : PalletOptimizer) (st : PalletState)
    (nextLayer : LayerCandidate) :
  budgetInvariant self st ->
  selectNextLayer self (PalletState.inventory st)
    (PalletOptimizer.maxHeight self - PalletState.currentHeight st)
    (PalletOptimizer.maxWeightBase self - PalletState.currentWeightBase st)
  = Ok (Some nextLayer) ->
  budgetInvariant self (addLayer st nextLayer).
Proof.
  intros (Hwf & Hh & Hwb & Hwi & _) Hsel.
  apply selectNextLayer_Some in Hsel. destruct Hsel as (h & Hbound & Hpack).
  apply (packLayerForHeight_weight self _ _ _ _ _ Hwf) in Hpack.
  destruct Hpack as (Hheight & Hsum & Hinput & Hle).
  unfold budgetInvariant, addLayer.
  cbn [PalletState.inventory PalletState.layers PalletState.currentHeight
       PalletState.currentWeightInput PalletState.currentWeightBase].
  split; [apply applyUsage_wf; exact Hwf|].
  rewrite map_app, flat_map_app, map_app, !sumQ_app, toBaseWeight_plus.
  cbn [map flat_map sumQ fold_right]. rewrite app_nil_r.
  rewrite Hheight in *. fold (sumQ (map (unitWeightBase self)
                                 (Layer.items (LayerCandidate.layer nextLayer)))).
  unalias. split; [lra|]. split; [lra|]. split; [lra|].
  right. split; lra.
Qed.

Lemma buildPallet_budget (self : PalletOptimizer) (inner : nat)
    (inventory : list PackingItem) (palletId : Z) (pallet : Pallet)
    (inventory' : list PackingItem) :
  Forall (wfItem self) inventory ->
  buildPallet self inner inventory palletId = Ok (pallet, inventory') ->
  Forall (wfItem self) inventory'
  /\ Pallet.totalHeight pallet == layersHeight pallet
  /\ toBaseWeight self (Pallet.totalWeight pallet) == placedWeightBase self pallet
  /\ (Pallet.layers pallet <> [] ->
      Pallet.totalHeight pallet
      <= PalletOptimizer.maxHeight self + HEIGHT_TOLERANCE
      /\ placedWeightBase self pallet
         <= PalletOptimizer.maxWeightBase self + EPSILON).
Proof.
  intros Hwf H. unfold buildPallet in H. inv_bind H.
  apply Ok_inj in H. injection H as <- <-.
  apply (buildPallet_loop_invariant self (budgetInvariant self)) in E.
  - destruct E as (Hwf' & Hh & Hwb & Hwi & Hbound).
    unfold layersHeight, placedWeightBase, placedItemsOf. cbn.
    split; [exact Hwf'|]. split; [exact Hh|].
    split; [rewrite Hwi; exact Hwb|].
    intro Hne. destruct Hbound as [Hnil | [H1 H2]]; [congruence|].
    split; [exact H1 | rewrite <- Hwb; exact H2].
  - intros st nextLayer Hst _ _ _ Hsel. apply addLayer_budget; assumption.
  - unfold budgetInvariant. cbn. split; [exact Hwf|].
    split; [reflexivity|]. split; [reflexivity|].
    split; [apply toBaseWeight_zero|]. left. reflexivity.
Qed.

(** A property of pallets that every built pallet with a layer has holds of
    all the pallets that [optimize] returns. *)
Lemma optimize_pallets (self : PalletOptimizer) (P : Pallet -> Prop) :
  (forall inner inventory palletId pallet inventory',
      Forall (wfItem self) inventory ->
      buildPallet self inner inventory palletId = Ok (pallet, inventory') ->
      Pallet.layers pallet <> [] ->
      P pallet) ->
  forall fuel items pallets,
    optimize self fuel items = Ok pallets ->
    forall pallet, In pallet pallets -> P pallet.
Proof.
  intros Hbuild fuel items pallets H.
  unfold optimize in H. inv_bind H. rename r into inventory.
  apply initializeInventory_wf in E.
  set (I := fun (inv : list PackingItem) (ps : list Pallet) =>
              Forall (wfItem self) inv
              /\ forall pallet, In pallet ps -> P pallet).
  apply (optimize_loop_invariant self I) in H.
  - destruct H as (inv' & [_ H] & _). exact H.
  - clear H E. intros inner inv ps palletId pallet inv' [Hwf Hps] _ Hb Hne.
    split.
    + eapply buildPallet_budget; eassumption.
    + intros q Hq. apply in_app_or in Hq.
      destruct Hq as [Hq | [<- | []]]; [auto|].
      eapply Hbuild; eassumption.
  - split; [exact E | intros pallet []].
Qed.


(** ** The theorems at concrete inputs *)



Lemma layers_are_height_homogeneous_witness :
  heightHomogeneous Ex.small Ex.firstLayer.
Proof.
  apply (layers_are_height_homogeneous Ex.small 3 Ex.order Ex.packed
           Ex.firstPallet Ex.firstLayer).
  - vm_compute. reflexivity.
  - left. reflexivity.
  - left. reflexivity.
Defined.

Lemma empty_pallet_throws_witness :
  exists item,
    getFirstRemainingItem Ex.feathers = Some item
    /\ 0 < PackingItem.remaining item
    /\ Ex.feathers = Ex.feathers
    /\ optimize_loop Ex.small 1 1 Ex.feathers [Ex.firstPallet] 1
       = Throw (UnpackableRemainder (Some (PackingItem.sku item)))
    /\ forall partial,
         optimize_loop Ex.small 1 1 Ex.feathers [Ex.firstPallet] 1 <> Ok partial.
Proof.
  apply (empty_pallet_throws Ex.small 0 1 Ex.feathers [Ex.firstPallet] 1
           Ex.featherPallet Ex.feathers).
  - reflexivity.
  - vm_compute. reflexivity.
  - reflexivity.
Defined.

Lemma freight_class_of_built_pallet_witness :
  Pallet.freightClass Ex.slabPallet
  = classOfDensity
      (palletDensity Ex.dock (Pallet.totalWeight Ex.slabPallet)
         (Pallet.totalHeight Ex.slabPallet))
  /\ (Pallet.layers Ex.slabPallet = [] ->
      Pallet.totalHeight Ex.slabPallet = 0
      /\ Pallet.totalWeight Ex.slabPallet = 0
      /\ Pallet.freightClass Ex.slabPallet = "Class 500"%string).
Proof.
  apply (freight_class_of_built_pallet Ex.dock 2 Ex.slabs 1 Ex.slabPallet
           Ex.slabsLeft).
  vm_compute. reflexivity.
Defined.

(** The slab on the dock: 550 lbs on 48 x 40 x 33.  The quotient of the
    reals is 15, which is not above 15 and would be "Class 77.5"; the code
    divides by the double of the volume and finds 15.000000000000002, which
    is "Class 70".  The pallet of the feathers has no layer and is
    "Class 500". *)
Lemma freight_class_of_the_slab :
  Pallet.layers Ex.slabPallet <> []
  /\ Pallet.totalWeight Ex.slabPallet = 550
  /\ Pallet.totalHeight Ex.slabPallet = 33
  /\ palletDensity Ex.dock 550 33
     = SpecFloat.S754_finite false 8444249301319681 (-49)
  /\ binary64_of_Q 15 = SpecFloat.S754_finite false 8444249301319680 (-49)
  /\ Pallet.freightClass Ex.slabPallet = "Class 70"%string
  /\ Pallet.layers Ex.featherPallet = []
  /\ Pallet.freightClass Ex.featherPallet = "Class 500"%string.
Proof. vm_compute. repeat split. discriminate. Qed.

(** ** Items hidden behind an item of the same id *)

Lemma decrementFirst_ids (inventory : list PackingItem) (skuId : string)
    (count : Z) :
  map itemId (decrementFirst inventory skuId count) = map itemId inventory.
Proof.
  induction inventory as [|item rest IH]; simpl; [reflexivity|].
  fold (itemId item). destruct (String.eqb (itemId item) skuId); simpl.
  - reflexivity.
  - rewrite IH. reflexivity.
Qed.

Lemma decrementFirst_other (inventory : list PackingItem) (skuId : string)
    (count : Z) (b : PackingItem) :
  In b inventory -> itemId b <> skuId ->
  In b (decrementFirst inventory skuId count).
Proof.
  induction inventory as [|item rest IH]; simpl; [auto|].
  intros [<- | Hin] Hb; fold (itemId item).
  - destruct (String.eqb (itemId item) skuId) eqn:E.
    + apply String.eqb_eq in E. contradiction.
    + left. reflexivity.
  - destruct (String.eqb (itemId item) skuId); right; auto.
Qed.

Lemma decrementFirst_shadowed (inventory : list PackingItem) (skuId : string)
    (count : Z) :
  shadowed inventory -> shadowed (decrementFirst inventory skuId count).
Proof.
  induction 1 as [a rest b Hb Hid Hpos | a rest Hrest IH]; simpl;
    fold (itemId a); destruct (String.eqb (itemId a) skuId) eqn:E.
  - eapply shadowed_here; [exact Hb | exact Hid | exact Hpos].
  - eapply shadowed_here; [| exact Hid | exact Hpos].
    apply decrementFirst_other; [exact Hb|].
    apply String.eqb_neq in E. congruence.
  - apply shadowed_later. exact Hrest.
  - apply shadowed_later. exact IH.
Qed.

Lemma applyUsage_shadowed (usage : list (string * Z)) :
  forall inventory, shadowed inventory -> shadowed (applyUsage inventory usage).
Proof.
  unfold applyUsage. induction usage as [|[skuId count] usage IH];
    intros inventory H; simpl; [exact H|].
  apply IH. apply decrementFirst_shadowed. exact H.
Qed.

Lemma shadowed_hasRemaining (inventory : list PackingItem) :
  shadowed inventory -> hasRemaining inventory = true.
Proof.
  unfold hasRemaining.
  induction 1 as [a rest b Hb Hid Hpos | a rest Hrest IH]; simpl.
  - apply orb_true_iff. right. apply existsb_exists. exists b.
    split; [exact Hb | apply Qgtb_true; exact Hpos].
  - apply orb_true_iff. right. exact IH.
Qed.

Lemma duplicate_ids_shadowed (inventory : list PackingItem) :
  (forall item, In item inventory -> 0 < PackingItem.remaining item) ->
  ~ NoDup (map itemId inventory) ->
  shadowed inventory.
Proof.
  induction inventory as [|a rest IH]; intros Hpos Hdup.
  - exfalso. apply Hdup. constructor.
  - destruct (in_dec string_dec (itemId a) (map itemId rest)) as [Hin | Hout].
    + apply in_map_iff in Hin. destruct Hin as (b & Hid & Hb).
      eapply shadowed_here; [exact Hb | symmetry; exact Hid|].
      apply Hpos. right. exact Hb.
    + apply shadowed_later. apply IH.
      * intros item Hitem. apply Hpos. right. exact Hitem.
      * intro Hnd. apply Hdup. simpl. constructor; assumption.
Qed.

(** With an item hidden behind another one of its id, [optimize] has no
    successful return: the hidden item keeps its units for ever. *)
Lemma shadowed_never_returns (self : PalletOptimizer) (fuel inner : nat)
    (inventory : list PackingItem) (pallets : list Pallet) (palletId : Z)
    (result : list Pallet) :
  shadowed inventory ->
  optimize_loop self fuel inner inventory pallets palletId <> Ok result.
Proof.
  intros Hsh H.
  apply (optimize_loop_invariant self (fun inv _ => shadowed inv)) in H.
  - destruct H as (inventory' & Hsh' & Hdone).
    apply shadowed_hasRemaining in Hsh'. congruence.
  - clear. intros inner inventory pallets palletId pallet inventory' Hsh _ Hb _.
    unfold buildPallet in Hb. inv_bind Hb. apply Ok_inj in Hb.
    injection Hb as <- <-.
    apply (buildPallet_loop_invariant self
             (fun st => shadowed (PalletState.inventory st))) in E.
    + exact E.
    + intros st nextLayer Hst _ _ _ _. cbn. apply applyUsage_shadowed. exact Hst.
    + exact Hsh.
  - exact Hsh.
Qed.

(** ** Usage maps and inventories without duplicate ids *)

Lemma Map_get_set (m : list (string * Z)) (k k' : string) (v : Z) :
  Map_get String.eqb (Map_set String.eqb m k v) k'
  = if String.eqb k k' then Some v else Map_get String.eqb m k'.
Proof.
  induction m as [|[k0 v0] m IH]; simpl.
  - reflexivity.
  - destruct (String.eqb k0 k) eqn:E0; simpl.
    + apply String.eqb_eq in E0. subst k0.
      destruct (String.eqb k k'); reflexivity.
    + rewrite IH. destruct (String.eqb k0 k') eqn:E1; [|reflexivity].
      apply String.eqb_eq in E1. subst k0. rewrite String.eqb_sym, E0.
      reflexivity.
Qed.

Lemma usageOf_set (m : list (string * Z)) (k k' : string) (v : Z) :
  usageOf (Map_set String.eqb m k v) k'
  = if String.eqb k k' then v else usageOf m k'.
Proof.
  unfold usageOf. rewrite Map_get_set. destruct (String.eqb k k'); reflexivity.
Qed.

Lemma Map_set_key_In (m : list (string * Z)) (k k' : string) (v : Z) :
  In k' (map fst (Map_set String.eqb m k v)) -> k' = k \/ In k' (map fst m).
Proof.
  induction m as [|[k0 v0] m IH]; simpl.
  - intros [H | []]. left. symmetry. exact H.
  - destruct (String.eqb k0 k); simpl.
    + intros [H | H]; right; [left; exact H | right; exact H].
    + intros [H | H]; [right; left; exact H|].
      destruct (IH H) as [H' | H']; [left; exact H' | right; right; exact H'].
Qed.

Lemma Map_set_keys (m : list (string * Z)) (k : string) (v : Z) :
  NoDup (map fst m) -> NoDup (map fst (Map_set String.eqb m k v)).
Proof.
  induction m as [|[k0 v0] m IH]; simpl; intro H.
  - constructor; [intros [] | constructor].
  - inversion H as [|? ? Hout Hnd]; subst.
    destruct (String.eqb k0 k) eqn:E; simpl.
    + constructor; assumption.
    + constructor; [|apply IH; exact Hnd].
      intro Hin. apply Map_set_key_In in Hin. destruct Hin as [-> | Hin].
      * rewrite String.eqb_refl in E. discriminate.
      * apply Hout. exact Hin.
Qed.

Lemma Map_get_absent (m : list (string * Z)) (k : string) :
  ~ In k (map fst m) -> Map_get String.eqb m k = None.
Proof.
  induction m as [|[k0 v0] m IH]; simpl; intro H; [reflexivity|].
  destruct (String.eqb k0 k) eqn:E.
  - apply String.eqb_eq in E. exfalso. apply H. left. exact E.
  - apply IH. intro Hin. apply H. right. exact Hin.
Qed.

Lemma decremented_id (skuId : string) (count : Z) (item : PackingItem) :
  itemId (decremented skuId count item) = itemId item.
Proof.
  unfold decremented. destruct (String.eqb (itemId item) skuId); reflexivity.
Qed.

Lemma decremented_absent (skuId : string) (count : Z)
    (inventory : list PackingItem) :
  ~ In skuId (map itemId inventory) ->
  map (decremented skuId count) inventory = inventory.
Proof.
  induction inventory as [|b rest IH]; simpl; intro Hout; [reflexivity|].
  assert (Hb : String.eqb (itemId b) skuId = false).
  { apply String.eqb_neq. intro Hb. apply Hout. left. exact Hb. }
  unfold decremented at 1. rewrite Hb. f_equal.
  apply IH. intro Hin. apply Hout. right. exact Hin.
Qed.

Lemma decrementFirst_NoDup (inventory : list PackingItem) (skuId : string)
    (count : Z) :
  NoDup (map itemId inventory) ->
  decrementFirst inventory skuId count = map (decremented skuId count) inventory.
Proof.
  induction inventory as [|item rest IH]; simpl; intro H; [reflexivity|].
  inversion H as [|? ? Hout Hnd]; subst. unfold decremented at 1.
  fold (itemId item). destruct (String.eqb (itemId item) skuId) eqn:E.
  - f_equal. apply String.eqb_eq in E. rewrite <- E.
    symmetry. apply decremented_absent. exact Hout.
  - f_equal. apply IH. exact Hnd.
Qed.

Lemma used_id (usage : list (string * Z)) (item : PackingItem) :
  itemId (used usage item) = itemId item.
Proof.
  unfold used. destruct (Map_get String.eqb usage (itemId item)); reflexivity.
Qed.

Lemma applyUsage_NoDup (usage : list (string * Z)) :
  NoDup (map fst usage) ->
  forall inventory,
    NoDup (map itemId inventory) ->
    applyUsage inventory usage = map (used usage) inventory.
Proof.
  unfold applyUsage.
  induction usage as [|[skuId count] usage IH]; intros Hkeys inventory Hids.
  - simpl. unfold used. simpl. rewrite map_id. reflexivity.
  - inversion Hkeys as [|? ? Hout Hnd]; subst. cbn [fold_left].
    rewrite IH; [|exact Hnd | rewrite decrementFirst_ids; exact Hids].
    rewrite decrementFirst_NoDup by exact Hids. rewrite map_map.
    apply map_ext. intro item. unfold used at 2. cbn [Map_get].
    rewrite String.eqb_sym. unfold decremented.
    destruct (String.eqb (itemId item) skuId) eqn:E.
    + apply String.eqb_eq in E. unfold used, itemId at 1.
      cbn [PackingItem.sku]. fold (itemId item). rewrite E.
      rewrite (Map_get_absent usage skuId Hout). reflexivity.
    + reflexivity.
Qed.

Lemma sumZ_app (l1 l2 : list Z) : sumZ (l1 ++ l2) = (sumZ l1 + sumZ l2)%Z.
Proof.
  induction l1 as [|a l1 IH]; simpl; [reflexivity|]. rewrite IH. lia.
Qed.

Lemma placedCount_app (skuId : string) (l1 l2 : list PlacedItem) :
  placedCount skuId (l1 ++ l2)
  = (placedCount skuId l1 + placedCount skuId l2)%Z.
Proof.
  unfold placedCount. rewrite filter_app, map_app, sumZ_app. reflexivity.
Qed.

(** ** Counting the placed units *)

Lemma unitPlaced_count (self : PalletOptimizer) (mwrb : Q)
    (candidate : LayerQueueItem) (st st' : LayerState) (skuId : string) :
  unitPlaced self mwrb candidate st st' ->
  placedCount skuId (LayerState.placedItems st')
  = (placedCount skuId (LayerState.placedItems st)
     + (if String.eqb (candidateId candidate) skuId then 1 else 0))%Z.
Proof.
  intros (_ & _ & o & position & _ & _ & Hplace).
  apply placeUnit_Ok in Hplace. cbv zeta in Hplace.
  destruct Hplace as (_ & Hplaced & _). rewrite Hplaced, placedCount_app.
  f_equal. unfold placedCount. cbn [filter PlacedItem.sku].
  fold (candidateId candidate).
  destruct (String.eqb (candidateId candidate) skuId); reflexivity.
Qed.

Lemma unitsPlaced_count (self : PalletOptimizer) (mwrb : Q)
    (candidate : LayerQueueItem) (skuId : string) (n : nat)
    (st st' : LayerState) :
  unitsPlaced self mwrb candidate n st st' ->
  placedCount skuId (LayerState.placedItems st')
  = (placedCount skuId (LayerState.placedItems st)
     + (if String.eqb (candidateId candidate) skuId then Z.of_nat n else 0))%Z.
Proof.
  induction 1 as [st | n st st1 st2 H1 _ IH].
  - destruct (String.eqb _ _); simpl; lia.
  - rewrite IH, (unitPlaced_count _ _ _ _ _ skuId H1).
    destruct (String.eqb _ _); lia.
Qed.

Lemma packQueue_counts (self : PalletOptimizer) (mwrb : Q) (skuId : string)
    (queue : list LayerQueueItem) :
  NoDup (map candidateId queue) ->
  forall st st',
    for_each queue (packCandidate self mwrb) st = Ok st' ->
    (placedCount skuId (LayerState.placedItems st)
     <= placedCount skuId (LayerState.placedItems st'))%Z
    /\ (~ In skuId (map candidateId queue) ->
        placedCount skuId (LayerState.placedItems st')
        = placedCount skuId (LayerState.placedItems st))
    /\ (forall candidate,
          In candidate queue -> candidateId candidate = skuId ->
          (placedCount skuId (LayerState.placedItems st')
           <= placedCount skuId (LayerState.placedItems st)
              + unitsOf (LayerQueueItem.remaining candidate))%Z).
Proof.
  induction queue as [|c queue IH]; intros Hnd st st' H.
  - simpl in H. apply Ok_inj in H. subst st'.
    split; [lia|]. split; [reflexivity | intros candidate []].
  - cbn [for_each] in H. inv_bind H. rename r into st1.
    inversion Hnd as [|? ? Hout Hnd']; subst.
    apply packCandidate_run in E. destruct E as (n & Hn & Hrun).
    pose proof (unitsPlaced_count self mwrb c skuId n st st1 Hrun) as Hc.
    destruct (IH Hnd' st1 st' H) as (Hmono & Hout' & Hin').
    split; [|split].
    + destruct (String.eqb (candidateId c) skuId); lia.
    + intro Hnot. simpl in Hnot.
      assert (Hne : String.eqb (candidateId c) skuId = false).
      { apply String.eqb_neq. intro Heq. apply Hnot. left. exact Heq. }
      rewrite Hne in Hc. rewrite Hout'; [lia|].
      intro Hin. apply Hnot. right. exact Hin.
    + intros candidate [<- | Hcand] Hid.
      * rewrite <- Hid in Hc. rewrite String.eqb_refl in Hc.
        rewrite Hout'; [rewrite <- Hid; lia|].
        rewrite <- Hid. exact Hout.
      * assert (Hne : String.eqb (candidateId c) skuId = false).
        { apply String.eqb_neq. intro Heq. apply Hout. rewrite Heq, <- Hid.
          apply in_map. exact Hcand. }
        rewrite Hne in Hc. specialize (Hin' candidate Hcand Hid). lia.
Qed.

Lemma unitPlaced_countInvariant (self : PalletOptimizer) (mwrb : Q)
    (queue : list LayerQueueItem) (candidate : LayerQueueItem)
    (st st' : LayerState) :
  In candidate queue ->
  countInvariant self queue st ->
  unitPlaced self mwrb candidate st st' ->
  countInvariant self queue st'.
Proof.
  intros Hcand (Husage & Hkeys & Hitems) Hstep.
  pose proof (fun skuId => unitPlaced_count self mwrb candidate st st' skuId Hstep)
    as Hcount.
  destruct Hstep as (Hw & _ & o & position & _ & _ & Hplace).
  apply placeUnit_Ok in Hplace. cbv zeta in Hplace.
  destruct Hplace as (_ & Hplaced & Hu & _).
  split; [|split].
  - intro skuId. rewrite Hcount, Hu, usageOf_set.
    fold (candidateId candidate). fold (usageOf (LayerState.usage st)
                                          (candidateId candidate)).
    destruct (String.eqb (candidateId candidate) skuId) eqn:E.
    + apply String.eqb_eq in E. rewrite <- E, Husage. reflexivity.
    + rewrite Husage. lia.
  - rewrite Hu. apply Map_set_keys. exact Hkeys.
  - intros p Hp. rewrite Hplaced in Hp. apply in_app_or in Hp.
    destruct Hp as [Hp | [<- | []]]; [auto|].
    split; [reflexivity|]. exists candidate. cbn. auto.
Qed.

Lemma NoDup_map_eq {A B : Type} (f : A -> B) (l : list A) (a b : A) :
  NoDup (map f l) -> In a l -> In b l -> f a = f b -> a = b.
Proof.
  induction l as [|x l IH]; simpl; intros Hnd Ha Hb Hf; [destruct Ha|].
  inversion Hnd as [|? ? Hout Hnd']; subst.
  destruct Ha as [<- | Ha], Hb as [<- | Hb].
  - reflexivity.
  - exfalso. apply Hout. rewrite Hf. apply in_map. exact Hb.
  - exfalso. apply Hout. rewrite <- Hf. apply in_map. exact Ha.
  - apply IH; assumption.
Qed.

Lemma layerQueue_item (inventory : list PackingItem) (layerHeight : Q)
    (candidate : LayerQueueItem) :
  In candidate (layerQueue inventory layerHeight) ->
  exists item,
    In item inventory
    /\ 0 < PackingItem.remaining item
    /\ LayerQueueItem.sku candidate = PackingItem.sku item
    /\ LayerQueueItem.weight candidate = PackingItem.weight item
    /\ LayerQueueItem.remaining candidate = PackingItem.remaining item.
Proof.
  intro H. apply layerQueue_In in H. destruct H as (item & Hin & Hpos & Hq).
  apply toQueueItem_Some in Hq. destruct Hq as (H1 & H2 & H3 & _).
  exists item. auto.
Qed.

Lemma layerQueue_NoDup (inventory : list PackingItem) (layerHeight : Q) :
  NoDup (map itemId inventory) ->
  NoDup (map candidateId (layerQueue inventory layerHeight)).
Proof.
  intro Hnd. unfold layerQueue.
  eapply Permutation_NoDup.
  { apply Permutation_map. apply Permutation_sym. apply Array_sort_perm. }
  induction inventory as [|item rest IH]; simpl; [constructor|].
  inversion Hnd as [|? ? Hout Hnd']; subst.
  destruct (Qgtb (PackingItem.remaining item) 0); [|apply IH; exact Hnd'].
  cbn [filter_map]. destruct (toQueueItem layerHeight item) as [c|] eqn:Eq;
    [|apply IH; exact Hnd'].
  cbn [map]. constructor; [|apply IH; exact Hnd'].
  intro Hin. apply in_map_iff in Hin. destruct Hin as (c' & Hid & Hc').
  apply filter_map_In in Hc'. destruct Hc' as (item' & Hitem' & Hq').
  apply filter_In in Hitem'. destruct Hitem' as [Hitem' _].
  apply toQueueItem_Some in Eq, Hq'.
  destruct Eq as (Hs & _), Hq' as (Hs' & _).
  apply Hout. apply in_map_iff. exists item'. split; [|exact Hitem'].
  unfold itemId, candidateId in *. congruence.
Qed.

Lemma placedCount_In (skuId : string) (l : list PlacedItem) (p : PlacedItem) :
  (forall q, In q l -> PlacedItem.quantity q = 1%Z) ->
  In p l -> SKU.id (PlacedItem.sku p) = skuId ->
  (1 <= placedCount skuId l)%Z.
Proof.
  unfold placedCount. induction l as [|q l IH]; intros Hq Hp Hid; [destruct Hp|].
  assert (Hrest : (0 <= sumZ (map PlacedItem.quantity
                     (filter (fun p => String.eqb (SKU.id (PlacedItem.sku p)) skuId)
                        l)))%Z).
  { clear - Hq. induction l as [|r l IH]; simpl; [lia|].
    destruct (String.eqb _ _); simpl.
    - rewrite (Hq r) by (right; left; reflexivity).
      assert (0 <= sumZ (map PlacedItem.quantity
                  (filter (fun p => String.eqb (SKU.id (PlacedItem.sku p)) skuId)
                     l)))%Z; [|lia].
      apply IH. intros q0 [<- | H]; apply Hq; [left | right; right]; auto.
    - apply IH. intros q0 [<- | H]; apply Hq; [left | right; right]; auto. }
  cbn [filter]. destruct Hp as [<- | Hp].
  - rewrite Hid, String.eqb_refl. cbn [map sumZ fold_right].
    rewrite (Hq q) by (left; reflexivity). fold sumZ in *. unfold sumZ in *. lia.
  - assert (H1 : (1 <= sumZ (map PlacedItem.quantity
                    (filter (fun p => String.eqb (SKU.id (PlacedItem.sku p)) skuId)
                       l)))%Z).
    { apply IH; [|exact Hp | exact Hid]. intros r Hr. apply Hq. right. exact Hr. }
    destruct (String.eqb _ _); cbn [map sumZ fold_right]; [|exact H1].
    rewrite (Hq q) by (left; reflexivity). unfold sumZ in *. lia.
Qed.

(** What a packed layer uses of an inventory without duplicate ids. *)
Lemma packLayerForHeight_usage (self : PalletOptimizer)
    (inventory : list PackingItem) (layerHeight mhr mwrb : Q)
    (c : LayerCandidate) :
  NoDup (map itemId inventory) ->
  Forall (wfItem self) inventory ->
  packLayerForHeight self inventory layerHeight mhr mwrb = Ok (Some c) ->
  NoDup (map fst (LayerCandidate.usage c))
  /\ (forall skuId,
        usageOf (LayerCandidate.usage c) skuId
        = placedCount skuId (Layer.items (LayerCandidate.layer c)))
  /\ (forall item, In item inventory ->
        (0 <= placedCount (itemId item) (Layer.items (LayerCandidate.layer c))
         <= unitsLeft item)%Z)
  /\ (forall skuId, ~ In skuId (map itemId inventory) ->
        placedCount skuId (Layer.items (LayerCandidate.layer c)) = 0%Z)
  /\ (exists item,
        In item inventory
        /\ (1 <= placedCount (itemId item)
                   (Layer.items (LayerCandidate.layer c)))%Z)
  /\ (forall p, In p (Layer.items (LayerCandidate.layer c)) ->
        0 < unitWeightBase self p
        /\ exists item, In item inventory
                        /\ PlacedItem.sku p = PackingItem.sku item).
Proof.
  intros Hnd Hwf H. apply packLayerForHeight_Some in H.
  destruct H as (grid & st & _ & Hrun & Hne & Hlayer & Husage & _).
  rewrite Hlayer, Husage. cbn [Layer.items].
  set (queue := layerQueue inventory layerHeight) in *.
  assert (Hq : NoDup (map candidateId queue)) by (apply layerQueue_NoDup; exact Hnd).
  assert (Hinv : countInvariant self queue st).
  { apply (packQueue_invariant self mwrb (countInvariant self queue) queue)
      with (st := LayerState.mk grid [] [] 0 0 0); [| exact Hrun |].
    - intros candidate s s' Hc Hs Hstep.
      eapply unitPlaced_countInvariant; eassumption.
    - split; [reflexivity|]. split; [constructor | intros p []]. }
  destruct Hinv as (Hu & Hkeys & Hitems).
  assert (Hcounts := fun skuId => packQueue_counts self mwrb skuId queue Hq _ _ Hrun).
  cbn [LayerState.placedItems] in Hcounts.
  assert (Hzero : forall skuId, placedCount skuId [] = 0%Z) by reflexivity.
  assert (Hsrc : forall p, In p (LayerState.placedItems st) ->
            PlacedItem.quantity p = 1%Z
            /\ exists item, In item inventory
                            /\ PlacedItem.sku p = PackingItem.sku item
                            /\ 0 < unitWeightBase self p).
  { intros p Hp. destruct (Hitems p Hp) as (Hone & cand & Hcand & Hsku & Hw).
    split; [exact Hone|].
    apply layerQueue_item in Hcand.
    destruct Hcand as (item & Hitem & _ & Hs & Hwt & _).
    exists item. split; [exact Hitem|]. split; [congruence|].
    rewrite Forall_forall in Hwf. destruct (Hwf item Hitem) as [_ Hwi].
    unfold unitWeightBase. rewrite Hsku, Hs, <- Hwi, <- Hwt. exact Hw. }
  split; [exact Hkeys|]. split; [exact Hu|]. split; [|split; [|split]].
  - intros item Hitem. destruct (Hcounts (itemId item)) as (Hmono & Hout & Hin).
    rewrite Hzero in *. split; [exact Hmono|].
    destruct (in_dec string_dec (itemId item) (map candidateId queue))
      as [Hmem | Hmem].
    + apply in_map_iff in Hmem. destruct Hmem as (cand & Hid & Hcand).
      specialize (Hin cand Hcand Hid).
      apply layerQueue_item in Hcand.
      destruct Hcand as (item' & Hitem' & Hp' & Hs & _ & Hr).
      assert (item' = item).
      { apply (NoDup_map_eq itemId inventory); try assumption.
        unfold itemId, candidateId in *. congruence. }
      subst item'. rewrite Hr in Hin. unfold unitsLeft. lia.
    + rewrite (Hout Hmem). apply unitsOf_nonneg.
  - intros skuId Hnot. destruct (Hcounts skuId) as (_ & Hout & _).
    rewrite Hout; [reflexivity|].
    intro Hmem. apply Hnot. apply in_map_iff in Hmem.
    destruct Hmem as (cand & Hid & Hcand). apply layerQueue_item in Hcand.
    destruct Hcand as (item & Hitem & _ & Hs & _).
    apply in_map_iff. exists item. split; [|exact Hitem].
    unfold itemId, candidateId in *. congruence.
  - destruct (LayerState.placedItems st) as [|p rest] eqn:Ep; [congruence|].
    destruct (Hsrc p (or_introl eq_refl)) as (_ & item & Hitem & Hsku & _).
    exists item. split; [exact Hitem|].
    apply (placedCount_In (itemId item) (p :: rest) p).
    + intros q Hq'. apply Hsrc. exact Hq'.
    + left. reflexivity.
    + unfold itemId. congruence.
  - intros p Hp. destruct (Hsrc p Hp) as (_ & item & Hitem & Hsku & Hw).
    split; [exact Hw|]. exists item. auto.
Qed.

(** ** Conservation *)

Lemma used_remaining (usage : list (string * Z)) (item : PackingItem) :
  (0 <= usageOf usage (itemId item) <= unitsLeft item)%Z ->
  unitsLeft (used usage item)
  = (unitsLeft item - usageOf usage (itemId item))%Z.
Proof.
  unfold used, usageOf, unitsLeft.
  destruct (Map_get String.eqb usage (itemId item)) as [count|];
    cbn [PackingItem.remaining]; intro H; [|lia].
  rewrite unitsOf_decrement by lia. lia.
Qed.

Lemma remainingQuantity_absent (skuId : string) (inventory : list PackingItem) :
  ~ In skuId (map itemId inventory) -> remainingQuantity skuId inventory = 0%Z.
Proof.
  unfold remainingQuantity.
  induction inventory as [|item rest IH]; simpl; intro H; [reflexivity|].
  destruct (String.eqb (itemId item) skuId) eqn:E.
  - apply String.eqb_eq in E. exfalso. apply H. left. exact E.
  - apply IH. intro Hin. apply H. right. exact Hin.
Qed.

Lemma remainingQuantity_used (usage : list (string * Z)) (skuId : string)
    (inventory : list PackingItem) :
  NoDup (map itemId inventory) ->
  (forall item, In item inventory ->
     (0 <= usageOf usage (itemId item) <= unitsLeft item)%Z) ->
  (~ In skuId (map itemId inventory) -> usageOf usage skuId = 0%Z) ->
  remainingQuantity skuId (map (used usage) inventory)
  = (remainingQuantity skuId inventory - usageOf usage skuId)%Z.
Proof.
  induction inventory as [|item rest IH]; intros Hnd Hle Hout.
  - simpl. rewrite Hout by (intros []). reflexivity.
  - inversion Hnd as [|? ? Hnot Hnd']; subst.
    unfold remainingQuantity in *. cbn [map filter]. rewrite used_id.
    destruct (String.eqb (itemId item) skuId) eqn:E.
    + apply String.eqb_eq in E. subst skuId. cbn [map sumZ fold_right].
      rewrite used_remaining by (apply Hle; left; reflexivity).
      fold (sumZ (map unitsLeft
                    (filter (fun it => String.eqb (itemId it) (itemId item))
                       (map (used usage) rest)))).
      fold (remainingQuantity (itemId item) (map (used usage) rest)).
      fold (sumZ (map unitsLeft
                    (filter (fun it => String.eqb (itemId it) (itemId item))
                       rest))).
      fold (remainingQuantity (itemId item) rest).
      rewrite !remainingQuantity_absent; [lia | exact Hnot |].
      rewrite map_map.
      rewrite (map_ext (fun x => itemId (used usage x)) itemId)
        by (intro; apply used_id).
      exact Hnot.
    + apply IH; [exact Hnd' | |].
      * intros it Hit. apply Hle. right. exact Hit.
      * intro Hnotin. apply Hout. simpl. intros [Heq | Hin]; [|auto].
        apply String.eqb_neq in E. contradiction.
Qed.

Lemma totalRemaining_used (usage : list (string * Z))
    (inventory : list PackingItem) :
  (forall item, In item inventory ->
     (0 <= usageOf usage (itemId item) <= unitsLeft item)%Z) ->
  (totalRemaining (map (used usage) inventory) <= totalRemaining inventory)%Z
  /\ ((exists item, In item inventory /\ (1 <= usageOf usage (itemId item))%Z) ->
      (totalRemaining (map (used usage) inventory) < totalRemaining inventory)%Z).
Proof.
  unfold totalRemaining.
  induction inventory as [|item rest IH]; intro Hle.
  - simpl. split; [lia | intros (it & [] & _)].
  - cbn [map sumZ fold_right].
    rewrite used_remaining by (apply Hle; left; reflexivity).
    assert (Hhead := Hle item (or_introl eq_refl)).
    destruct IH as [IH1 IH2]; [intros it Hit; apply Hle; right; exact Hit|].
    unfold sumZ in *. split; [lia|].
    intros (it & [<- | Hit] & Hone); [lia|].
    assert (fold_right Z.add 0 (map unitsLeft (map (used usage) rest))
            < fold_right Z.add 0 (map unitsLeft rest))%Z
      by (apply IH2; exists it; auto).
    lia.
Qed.

Lemma applyUsage_tidy (self : PalletOptimizer) (inventory : list PackingItem)
    (mhr mwrb : Q) (c : LayerCandidate) :
  tidy inventory ->
  Forall (wfItem self) inventory ->
  selectNextLayer self inventory mhr mwrb = Ok (Some c) ->
  tidy (applyUsage inventory (LayerCandidate.usage c))
  /\ map PackingItem.sku (applyUsage inventory (LayerCandidate.usage c))
     = map PackingItem.sku inventory
  /\ (forall skuId,
        (placedCount skuId (Layer.items (LayerCandidate.layer c))
         + remainingQuantity skuId (applyUsage inventory (LayerCandidate.usage c))
         = remainingQuantity skuId inventory)%Z)
  /\ (totalRemaining (applyUsage inventory (LayerCandidate.usage c))
      < totalRemaining inventory)%Z
  /\ (forall p, In p (Layer.items (LayerCandidate.layer c)) ->
        0 < unitWeightBase self p
        /\ exists item, In item inventory
                        /\ PlacedItem.sku p = PackingItem.sku item).
Proof.
  unfold tidy. intros Hnd Hwf Hsel.
  apply selectNextLayer_Some in Hsel. destruct Hsel as (h & _ & Hpack).
  apply (packLayerForHeight_usage self _ _ _ _ _ Hnd Hwf) in Hpack.
  destruct Hpack as (Hkeys & Hu & Hle & Hout & Hsome & Hitems).
  rewrite (applyUsage_NoDup _ Hkeys _ Hnd).
  set (usage := LayerCandidate.usage c) in *.
  assert (Hle' : forall item, In item inventory ->
            (0 <= usageOf usage (itemId item) <= unitsLeft item)%Z).
  { intros item Hitem. rewrite Hu. apply Hle. exact Hitem. }
  assert (Hids : map itemId (map (used usage) inventory) = map itemId inventory).
  { rewrite map_map. apply map_ext. intro. apply used_id. }
  split; [|split; [|split; [|split]]].
  - rewrite Hids. exact Hnd.
  - rewrite map_map. apply map_ext. intro item. unfold used.
    destruct (Map_get _ _ _); reflexivity.
  - intro skuId. rewrite remainingQuantity_used; try assumption.
    + rewrite Hu. lia.
    + intro Hnot. rewrite Hu. apply Hout. exact Hnot.
  - apply totalRemaining_used; [exact Hle'|].
    destruct Hsome as (item & Hitem & Hone). exists item.
    split; [exact Hitem | rewrite Hu; exact Hone].
  - exact Hitems.
Qed.

Lemma buildPallet_conserves (self : PalletOptimizer) (inner : nat)
    (inventory : list PackingItem) (palletId : Z) (pallet : Pallet)
    (inventory' : list PackingItem) :
  tidy inventory ->
  Forall (wfItem self) inventory ->
  buildPallet self inner inventory palletId = Ok (pallet, inventory') ->
  conservationInvariant self inventory
    (PalletState.mk inventory' (Pallet.layers pallet) (Pallet.totalHeight pallet)
       (Pallet.totalWeight pallet) 0)
  /\ map PackingItem.sku inventory' = map PackingItem.sku inventory.
Proof.
  intros Htidy Hwf H. unfold buildPallet in H. inv_bind H.
  apply Ok_inj in H. injection H as <- <-.
  cbn [Pallet.layers Pallet.totalHeight Pallet.totalWeight].
  apply (buildPallet_loop_invariant self
           (fun st => conservationInvariant self inventory st
                      /\ map PackingItem.sku (PalletState.inventory st)
                         = map PackingItem.sku inventory)) in E.
  - destruct E as [E Hskus]. split; [|exact Hskus].
    unfold conservationInvariant in *. exact E.
  - intros st c [(Ht & Hw & Hcons & Hle & Hlt & Hitems) Hskus] _ _ _ Hsel.
    destruct (applyUsage_tidy self _ _ _ _ Ht Hw Hsel)
      as (Ht' & Hskus' & Hcons' & Hlt' & Hitems').
    unfold conservationInvariant, addLayer.
    cbn [PalletState.inventory PalletState.layers].
    split; [|congruence].
    split; [exact Ht'|]. split; [apply applyUsage_wf; exact Hw|].
    split; [|split; [|split]].
    + intro skuId. rewrite flat_map_app, placedCount_app. cbn [flat_map].
      rewrite app_nil_r. specialize (Hcons skuId). specialize (Hcons' skuId).
      unalias. lia.
    + unalias. lia.
    + intros _. unalias. lia.
    + intros p Hp. rewrite flat_map_app in Hp. apply in_app_or in Hp.
      destruct Hp as [Hp | Hp]; [apply Hitems; exact Hp|].
      cbn [flat_map] in Hp. rewrite app_nil_r in Hp.
      destruct (Hitems' p Hp) as (Hpw & item & Hitem & Hsku).
      split; [exact Hpw|].
      assert (Hin : In (PackingItem.sku item) (map PackingItem.sku inventory)).
      { rewrite <- Hskus. apply in_map. exact Hitem. }
      apply in_map_iff in Hin. destruct Hin as (item0 & Hs0 & Hin0).
      exists item0. split; [exact Hin0 | congruence].
  - split; [|reflexivity]. unfold conservationInvariant.
    cbn [PalletState.inventory PalletState.layers flat_map].
    split; [exact Htidy|]. split; [exact Hwf|].
    split; [intro; reflexivity|]. split; [apply Z.le_refl|].
    split; [congruence | intros p []].
Qed.

Lemma unitsOf_nonpositive (q : Q) : q <= 0 -> unitsOf q = 0%Z.
Proof.
  intro H. pose proof (unitsOf_nonneg q) as H0.
  destruct (Z.eq_dec (unitsOf q) 0) as [E | E]; [exact E|].
  assert (Hp : (0 < unitsOf q)%Z) by lia.
  apply unitsOf_positive in Hp. lra.
Qed.

Lemma remainingQuantity_initial (self : PalletOptimizer) (skuId : string)
    (items : list OrderItem) :
  remainingQuantity skuId (map (packingItemOf self) (positiveLines items))
  = requestedUnits skuId items.
Proof.
  unfold remainingQuantity, requestedUnits, positiveLines, sumZ.
  induction items as [|item items IH]; [reflexivity|].
  cbn [filter]. destruct (Qltb 0 (OrderItem.quantity item)) eqn:Eq.
  - cbn [map filter]. unfold itemId at 1. cbn [packingItemOf PackingItem.sku].
    destruct (String.eqb (SKU.id (OrderItem.sku item)) skuId).
    + cbn [map fold_right]. rewrite IH. reflexivity.
    + exact IH.
  - destruct (String.eqb (SKU.id (OrderItem.sku item)) skuId); [|exact IH].
    cbn [map fold_right]. rewrite IH. qprop.
    rewrite (unitsOf_nonpositive _ Eq). reflexivity.
Qed.

Lemma remainingQuantity_done (skuId : string) (inventory : list PackingItem) :
  hasRemaining inventory = false ->
  remainingQuantity skuId inventory = 0%Z.
Proof.
  unfold hasRemaining, remainingQuantity.
  induction inventory as [|item rest IH]; intros Hdone; [reflexivity|].
  simpl in Hdone. apply orb_false_iff in Hdone. destruct Hdone as [H0 Hrest].
  assert (Hzero : unitsLeft item = 0%Z).
  { qprop. apply unitsOf_nonpositive. exact H0. }
  specialize (IH Hrest).
  cbn [filter]. destruct (String.eqb (itemId item) skuId); [|exact IH].
  cbn [map sumZ fold_right]. unfold sumZ in IH. rewrite IH, Hzero. reflexivity.
Qed.

Lemma initial_inventory_positive (self : PalletOptimizer) (items : list OrderItem)
    (item : PackingItem) :
  In item (map (packingItemOf self) (positiveLines items)) ->
  0 < PackingItem.remaining item.
Proof.
  intro H. apply in_map_iff in H. destruct H as (line & <- & Hline).
  apply filter_In in Hline. destruct Hline as [_ Hq]. qprop. exact Hq.
Qed.

(** Starting from an inventory without duplicate ids, the loop of [optimize]
    conserves the units of every SKU id. *)
Lemma optimize_loop_conserves (self : PalletOptimizer) (fuel inner : nat)
    (inventory : list PackingItem) (palletId : Z) (result : list Pallet) :
  tidy inventory ->
  Forall (wfItem self) inventory ->
  optimize_loop self fuel inner inventory [] palletId = Ok result ->
  forall skuId,
    placedQuantity skuId result = remainingQuantity skuId inventory.
Proof.
  intros Htidy Hwf H skuId.
  apply (optimize_loop_invariant self
           (fun inv ps =>
              tidy inv /\ Forall (wfItem self) inv
              /\ (placedQuantity skuId ps + remainingQuantity skuId inv
                  = remainingQuantity skuId inventory)%Z)) in H.
  - destruct H as (inv' & (Ht & _ & Hcons) & Hdone).
    rewrite (remainingQuantity_done skuId inv' Hdone) in Hcons.
    lia.
  - clear H. intros inner' inv ps pid pallet inv' (Ht & Hw & Hcons) _ Hb _.
    apply (buildPallet_conserves self _ _ _ _ _ Ht Hw) in Hb.
    destruct Hb as [(Ht' & Hw' & Hc & _) _].
    cbn [PalletState.inventory PalletState.layers] in *.
    split; [exact Ht'|]. split; [exact Hw'|].
    unfold placedQuantity in *. rewrite flat_map_app, placedCount_app.
    cbn [flat_map]. rewrite app_nil_r. unfold placedItemsOf at 2.
    specialize (Hc skuId). unalias. lia.
  - split; [exact Htidy|]. split; [exact Hwf|]. reflexivity.
Qed.

Lemma optimize_conserves_units (self : PalletOptimizer) (fuel : nat)
    (items : list OrderItem) (pallets : list Pallet) (skuId : string) :
  optimize self fuel items = Ok pallets ->
  placedQuantity skuId pallets = requestedUnits skuId items.
Proof.
  intros H.
  unfold optimize in H. inv_bind H. rename r into inventory.
  pose proof (initializeInventory_wf self items inventory E) as Hwf.
  apply initializeInventory_Ok in E. destruct E as [E _]. simpl in E.
  rewrite <- (remainingQuantity_initial self), <- E.
  destruct (ListDec.NoDup_dec string_dec (map itemId inventory)) as [Hnd | Hdup].
  - apply (optimize_loop_conserves self fuel fuel inventory 1); assumption.
  - exfalso. apply (shadowed_never_returns self fuel fuel inventory [] 1 pallets);
      [|exact H].
    apply duplicate_ids_shadowed; [|exact Hdup].
    intros item Hitem. rewrite E in Hitem.
    apply initial_inventory_positive in Hitem. exact Hitem.
Qed.

Lemma wholeNumber_units (q : Q) :
  (0 < q -> wholeNumber q) -> inject_Z (unitsOf q) == Math_max 0 q.
Proof.
  intro Hwhole. unfold Math_max. destruct (Qleb 0 q) eqn:E; qprop.
  - destruct (Qlt_le_dec 0 q) as [Hpos | Hneg].
    + specialize (Hwhole Hpos). unfold wholeNumber in Hwhole.
      assert (Hc : Qceiling q = Qfloor q).
      { rewrite Hwhole at 1. apply Qceiling_Z. }
      pose proof (proj1 (unitsOf_positive q) Hpos) as Hu.
      unfold unitsOf in *. rewrite Hc in *.
      rewrite Z.max_r by lia. symmetry. exact Hwhole.
    + rewrite (unitsOf_nonpositive q Hneg). change (inject_Z 0) with 0. lra.
  - rewrite (unitsOf_nonpositive q) by lra. reflexivity.
Qed.

Lemma requestedUnits_whole (skuId : string) (items : list OrderItem) :
  (forall item, In item items -> 0 < OrderItem.quantity item ->
                wholeNumber (OrderItem.quantity item)) ->
  inject_Z (requestedUnits skuId items) == requestedQuantity skuId items.
Proof.
  unfold requestedUnits, requestedQuantity, sumZ, sumQ.
  induction items as [|item items IH]; intro Hwhole; [reflexivity|].
  assert (IH' := IH (fun it Hit => Hwhole it (or_intror Hit))).
  cbn [filter]. destruct (String.eqb _ _); [|exact IH'].
  cbn [map fold_right]. rewrite inject_Z_plus, IH'.
  rewrite (wholeNumber_units (OrderItem.quantity item))
    by (apply Hwhole; left; reflexivity).
  reflexivity.
Qed.

(** C1 (amended). Conservation: when [optimize] returns pallets, the
    placed quantities of every SKU id, over all the layers of all the
    pallets, add up to the quantity requested under that id with each line
    rounded up to a whole number of units, the lines with a quantity of zero
    or less counting for nothing; so they add up to the requested quantity
    itself when the positive quantities are whole numbers.  With two lines
    of a positive quantity under one id there is no successful return to
    speak of: [inventory.find] reaches the first of the two items only and
    the second one keeps its units for ever. *)
Theorem optimize_conserves_quantities :
  forall (self : PalletOptimizer) (fuel : nat) (items : list OrderItem)
         (pallets : list Pallet) (skuId : string),
    optimize self fuel items = Ok pallets ->
    placedQuantity skuId pallets = requestedUnits skuId items
    /\ ((forall item, In item items -> 0 < OrderItem.quantity item ->
                      wholeNumber (OrderItem.quantity item)) ->
        inject_Z (placedQuantity skuId pallets)
        == requestedQuantity skuId items).
Proof.
  intros self fuel items pallets skuId H.
  pose proof (optimize_conserves_units self fuel items pallets skuId H) as Hu.
  split; [exact Hu|]. intro Hwhole. rewrite Hu.
  apply requestedUnits_whole. exact Hwhole.
Qed.

Lemma optimize_conserves_quantities_witness :
  placedQuantity "BOX" Ex.packed = requestedUnits "BOX" Ex.order
  /\ ((forall item, In item Ex.order -> 0 < OrderItem.quantity item ->
                    wholeNumber (OrderItem.quantity item)) ->
      inject_Z (placedQuantity "BOX" Ex.packed)
      == requestedQuantity "BOX" Ex.order).
Proof.
  apply (optimize_conserves_quantities Ex.small 3 Ex.order Ex.packed "BOX").
  vm_compute. reflexivity.
Defined.

(** C1 as stated fails: of two boxes and a half, three boxes are placed. *)
Lemma optimize_conserves_requested_fails :
  ~ (forall (self : PalletOptimizer) (fuel : nat) (items : list OrderItem)
            (pallets : list Pallet) (skuId : string),
        optimize self fuel items = Ok pallets ->
        inject_Z (placedQuantity skuId pallets)
        == requestedQuantity skuId items).
Proof.
  intro H.
  assert (Hrun : optimize Ex.small 3 Ex.fractional = Ok Ex.fractionalPacked)
    by (vm_compute; reflexivity).
  specialize (H Ex.small 3%nat Ex.fractional Ex.fractionalPacked "BOX"%string Hrun).
  vm_compute in H. discriminate H.
Qed.

(** ** Progress on a footprint with positive sides *)

Lemma for_first_total {A : Type} (body : Z -> result (option A)) (n : nat) :
  (forall x, exists r, body x = Ok r) ->
  forall x, exists r, for_first n x body = Ok r.
Proof.
  intros Hbody. induction n as [|n IH]; intro x; simpl.
  - eexists. reflexivity.
  - destruct (Hbody x) as (r & Hr). rewrite Hr. cbn [bind].
    destruct r as [a|]; [eexists; reflexivity | apply IH].
Qed.

Lemma canPlaceAt_total (grid : list (list bool)) (x y : Z) (length width : Q) :
  grid <> [] -> exists free, canPlaceAt grid x y length width = Ok free.
Proof.
  intro H. unfold canPlaceAt. destruct grid; [congruence|].
  eexists. reflexivity.
Qed.

Lemma findPosition_total (self : PalletOptimizer) (grid : list (list bool))
    (length width : Q) :
  grid <> [] -> exists r, findPosition self grid length width = Ok r.
Proof.
  intro H. unfold findPosition. destruct (_ || _); [eexists; reflexivity|].
  apply for_first_total. intro x. apply for_first_total. intro y.
  destruct (canPlaceAt_total grid x y length width H) as (free & ->).
  eexists. reflexivity.
Qed.

Lemma findBestPosition_total (self : PalletOptimizer) (grid : list (list bool))
    (length width : Q) :
  grid <> [] -> exists r, findBestPosition self grid length width = Ok r.
Proof.
  intro H. unfold findBestPosition.
  destruct (findPosition_total self grid length width H) as ([pos|] & ->);
    cbn [bind]; [eexists; reflexivity|].
  destruct (findPosition_total self grid width length H) as ([pos|] & ->);
    cbn [bind]; eexists; reflexivity.
Qed.

Lemma findPlacementForOptions_total (self : PalletOptimizer)
    (grid : list (list bool)) (options : list OrientationOption) :
  grid <> [] -> exists r, findPlacementForOptions self grid options = Ok r.
Proof.
  intro H. induction options as [|o options IH]; simpl; [eexists; reflexivity|].
  destruct (findBestPosition_total self grid (OrientationOption.length o)
              (OrientationOption.width o) H) as ([pos|] & ->); cbn [bind];
    [eexists; reflexivity | exact IH].
Qed.

Lemma mark_cells_length (cells : list Z) (i : Z) :
  forall grid,
    List.length (fold_left (fun g j => grid_set g i j) cells grid)
    = List.length grid.
Proof.
  induction cells as [|j cells IH]; intro grid; simpl; [reflexivity|].
  rewrite IH. unfold grid_set. apply list_set_length.
Qed.

Lemma markGridOccupied_total (grid : list (list bool)) (x y : Z)
    (length width : Q) :
  grid <> [] ->
  exists grid', markGridOccupied grid x y length width = Ok grid' /\ grid' <> [].
Proof.
  intro H. unfold markGridOccupied. destruct grid as [|row0 rest]; [congruence|].
  eexists. split; [reflexivity|].
  set (js := range _ _). generalize (range (Math_floor (inject_Z x))
    (Z.min (Math_ceil (inject_Z x + length))
       (Z.of_nat (List.length (row0 :: rest))))).
  intro rows. generalize (row0 :: rest) H. clear.
  induction rows as [|i rows IH]; intros grid H; simpl; [exact H|].
  apply IH. intro Hnil.
  assert (Hlen := mark_cells_length js i grid). rewrite Hnil in Hlen.
  destruct grid; [congruence | discriminate].
Qed.

Lemma placeUnits_total (self : PalletOptimizer) (candidate : LayerQueueItem)
    (skuWeightBase : Q) (sortedOptions : list OrientationOption) (mwrb : Q)
    (fuel : nat) :
  forall remaining st,
    LayerState.grid st <> [] ->
    exists st',
      placeUnits self fuel candidate skuWeightBase sortedOptions mwrb remaining st
      = Ok st'
      /\ LayerState.grid st' <> [].
Proof.
  induction fuel as [|fuel IH]; intros remaining st Hg; cbn [placeUnits].
  - exists st. auto.
  - destruct (Qleb remaining 0); [exists st; auto|].
    destruct (Qgtb _ _); [exists st; auto|].
    destruct (findPlacementForOptions_total self (LayerState.grid st)
                sortedOptions Hg) as ([[o position]|] & ->); cbn [bind];
      [|exists st; auto].
    unfold placeUnit.
    destruct (markGridOccupied_total (LayerState.grid st)
                (Position.x (fst position)) (Position.y (fst position))
                (if snd position then OrientationOption.width o
                 else OrientationOption.length o)
                (if snd position then OrientationOption.length o
                 else OrientationOption.width o) Hg) as (grid' & -> & Hg').
    cbn [bind]. apply IH. exact Hg'.
Qed.

Lemma packQueue_total (self : PalletOptimizer) (mwrb : Q)
    (queue : list LayerQueueItem) :
  forall st,
    LayerState.grid st <> [] ->
    exists st', for_each queue (packCandidate self mwrb) st = Ok st'.
Proof.
  induction queue as [|c queue IH]; intros st Hg; cbn [for_each].
  - eexists. reflexivity.
  - unfold packCandidate at 1.
    destruct (Qleb _ 0); cbn [bind]; [apply IH; exact Hg|].
    match goal with
    | |- context [placeUnits self ?f ?c ?w ?o ?m ?r ?s] =>
        destruct (placeUnits_total self c w o m f r s Hg) as (st' & -> & Hg')
    end.
    cbn [bind]. apply IH. exact Hg'.
Qed.

Lemma Qceiling_between (q : Q) (n : Z) :
  0 < q -> q <= inject_Z n -> (1 <= Qceiling q <= n)%Z.
Proof.
  intros H0 Hn.
  assert (H1 := Qle_ceiling q). assert (H2 := Qceiling_lt q).
  assert (Ha : inject_Z 0 < inject_Z (Qceiling q)).
  { change (inject_Z 0) with 0. lra. }
  assert (Hb : inject_Z (Qceiling q - 1) < inject_Z n) by lra.
  rewrite <- Zlt_Qlt in Ha, Hb. lia.
Qed.

Lemma createGrid_total (self : PalletOptimizer) :
  0 < PalletSize.length (PalletOptimizer.palletSize self) ->
  PalletSize.length (PalletOptimizer.palletSize self) <= 4294967295 ->
  0 < PalletSize.width (PalletOptimizer.palletSize self) ->
  PalletSize.width (PalletOptimizer.palletSize self) <= 4294967295 ->
  exists grid, createGrid self = Ok grid /\ grid <> [].
Proof.
  intros HL HL' HW HW'. unfold createGrid, Math_ceil.
  destruct (Qceiling_between _ 4294967295 HL HL') as [Hr0 Hr1].
  destruct (Qceiling_between _ 4294967295 HW HW') as [Hc0 Hc1].
  set (rows := Qceiling (PalletSize.length _)) in *.
  set (columns := Qceiling (PalletSize.width _)) in *.
  replace (rows <=? 0)%Z with false by (symmetry; apply Z.leb_gt; lia).
  replace (4294967295 <? rows)%Z with false by (symmetry; apply Z.ltb_ge; lia).
  replace (columns <? 0)%Z with false by (symmetry; apply Z.ltb_ge; lia).
  replace (4294967295 <? columns)%Z with false
    by (symmetry; apply Z.ltb_ge; lia).
  cbn [orb]. eexists. split; [reflexivity|].
  destruct (Z.to_nat rows) eqn:En; [lia | discriminate].
Qed.

Lemma packLayerForHeight_total (self : PalletOptimizer)
    (inventory : list PackingItem) (layerHeight mhr mwrb : Q) :
  0 < PalletSize.length (PalletOptimizer.palletSize self) ->
  PalletSize.length (PalletOptimizer.palletSize self) <= 4294967295 ->
  0 < PalletSize.width (PalletOptimizer.palletSize self) ->
  PalletSize.width (PalletOptimizer.palletSize self) <= 4294967295 ->
  exists r, packLayerForHeight self inventory layerHeight mhr mwrb = Ok r.
Proof.
  intros HL HL' HW HW'. unfold packLayerForHeight.
  destruct (List.length _ =? 0)%nat; [eexists; reflexivity|].
  destruct (createGrid_total self HL HL' HW HW') as (grid & -> & Hg). cbn [bind].
  match goal with
  | |- context [for_each ?q ?b ?s] =>
      destruct (packQueue_total self mwrb q s Hg) as (st' & Hst')
  end.
  unalias. rewrite Hst'.
  cbn [bind]. destruct (List.length _ =? 0)%nat; eexists; reflexivity.
Qed.

Lemma selectNextLayer_total (self : PalletOptimizer)
    (inventory : list PackingItem) (mhr mwrb : Q) :
  0 < PalletSize.length (PalletOptimizer.palletSize self) ->
  PalletSize.length (PalletOptimizer.palletSize self) <= 4294967295 ->
  0 < PalletSize.width (PalletOptimizer.palletSize self) ->
  PalletSize.width (PalletOptimizer.palletSize self) <= 4294967295 ->
  exists r, selectNextLayer self inventory mhr mwrb = Ok r.
Proof.
  intros HL HL' HW HW'. unfold selectNextLayer.
  destruct (Qleb mwrb EPSILON); [eexists; reflexivity|].
  destruct (List.length _ =? 0)%nat; [eexists; reflexivity|].
  assert (Hc : forall heights acc,
             exists cs, for_each heights
                          (fun heightValue candidates =>
                             candidate <-
                               packLayerForHeight self inventory heightValue mhr
                                 mwrb ;;
                             match candidate with
                             | Some candidate => Ok (candidates ++ [candidate])
                             | None => Ok candidates
                             end) acc = Ok cs).
  { induction heights as [|h heights IH]; intro acc; cbn [for_each].
    - eexists. reflexivity.
    - destruct (packLayerForHeight_total self inventory h mhr mwrb HL HL' HW HW')
        as ([c|] & ->); cbn [bind]; apply IH. }
  unfold collectCandidates.
  destruct (Hc (Map_values (collectHeights inventory mhr)) []) as (cs & ->).
  cbn [bind]. destruct (List.length cs =? 0)%nat; eexists; reflexivity.
Qed.

(** ** Termination without duplicate ids *)

Lemma totalRemaining_nonneg (inventory : list PackingItem) :
  (0 <= totalRemaining inventory)%Z.
Proof.
  unfold totalRemaining, sumZ.
  induction inventory as [|item rest IH]; simpl; [lia|].
  pose proof (unitsOf_nonneg (PackingItem.remaining item)).
  unfold unitsLeft at 1. lia.
Qed.

Lemma buildPallet_loop_total (self : PalletOptimizer) (fuel : nat) :
  0 < PalletSize.length (PalletOptimizer.palletSize self) ->
  PalletSize.length (PalletOptimizer.palletSize self) <= 4294967295 ->
  0 < PalletSize.width (PalletOptimizer.palletSize self) ->
  PalletSize.width (PalletOptimizer.palletSize self) <= 4294967295 ->
  forall st,
    tidy (PalletState.inventory st) ->
    Forall (wfItem self) (PalletState.inventory st) ->
    (totalRemaining (PalletState.inventory st) < Z.of_nat fuel)%Z ->
    exists st', buildPallet_loop self fuel st = Ok st'.
Proof.
  intros HL HL' HW HW'. induction fuel as [|fuel IH]; intros st Ht Hw Hfuel.
  - pose proof (totalRemaining_nonneg (PalletState.inventory st)). lia.
  - cbn [buildPallet_loop].
    destruct (negb (hasRemaining (PalletState.inventory st)));
      [eexists; reflexivity|].
    destruct (_ || _); [eexists; reflexivity|].
    match goal with
    | |- context [selectNextLayer self ?i ?h ?w] =>
        destruct (selectNextLayer_total self i h w HL HL' HW HW') as ([c|] & Hsel)
    end; rewrite Hsel; cbn [bind]; [|eexists; reflexivity].
    destruct (applyUsage_tidy self _ _ _ _ Ht Hw Hsel) as (Ht' & _ & _ & Hlt & _).
    apply IH; cbn [addLayer PalletState.inventory].
    + exact Ht'.
    + apply applyUsage_wf. exact Hw.
    + lia.
Qed.

Lemma optimize_loop_total (self : PalletOptimizer) (inner : nat) (fuel : nat) :
  0 < PalletSize.length (PalletOptimizer.palletSize self) ->
  PalletSize.length (PalletOptimizer.palletSize self) <= 4294967295 ->
  0 < PalletSize.width (PalletOptimizer.palletSize self) ->
  PalletSize.width (PalletOptimizer.palletSize self) <= 4294967295 ->
  forall inventory pallets palletId,
    tidy inventory ->
    Forall (wfItem self) inventory ->
    (totalRemaining inventory < Z.of_nat fuel)%Z ->
    (totalRemaining inventory < Z.of_nat inner)%Z ->
    (exists result,
        optimize_loop self fuel inner inventory pallets palletId = Ok result)
    \/ (exists sku,
          optimize_loop self fuel inner inventory pallets palletId
          = Throw (UnpackableRemainder (Some sku))).
Proof.
  intros HL HL' HW HW'. induction fuel as [|fuel IH];
    intros inventory pallets palletId Ht Hw Hfuel Hinner.
  - pose proof (totalRemaining_nonneg inventory). lia.
  - cbn [optimize_loop].
    destruct (hasRemaining inventory) eqn:Hrem; cbn [negb];
      [|left; eexists; reflexivity].
    unfold buildPallet.
    destruct (buildPallet_loop_total self inner HL HL' HW HW'
                (PalletState.mk inventory [] 0 0 0) Ht Hw Hinner) as (st & Hst).
    pose proof Hst as Hloop. rewrite Hst. cbn [bind Pallet.layers].
    assert (Hb : buildPallet self inner inventory palletId
                 = Ok (Pallet.mk palletId (PalletState.layers st)
                         (PalletState.currentHeight st)
                         (PalletState.currentWeightInput st)
                         (PalletOptimizer.palletSize self)
                         (calculateFreightClass self
                            (PalletState.currentWeightInput st)
                            (PalletState.currentHeight st)),
                       PalletState.inventory st)).
    { unfold buildPallet. rewrite Hst. reflexivity. }
    destruct (List.length (PalletState.layers st) =? 0)%nat eqn:El.
    + right. apply length_eqb_0_true in El.
      apply (buildPallet_loop_empty self) in Hloop; [|exact El]. subst st.
      cbn [PalletState.inventory].
      destruct (getFirstRemainingItem_Some inventory Hrem) as (item & -> & _).
      eexists. reflexivity.
    + apply length_eqb_0_false in El.
      destruct (buildPallet_conserves self _ _ _ _ _ Ht Hw Hb)
        as [(Ht' & Hw' & _ & _ & Hlt & _) _].
      cbn [PalletState.inventory PalletState.layers Pallet.layers] in *.
      specialize (Hlt El). apply IH; try assumption; lia.
Qed.

(** ** Units without weight *)

Lemma remainingQuantity_positive (inventory : list PackingItem)
    (zero : PackingItem) :
  In zero inventory -> 0 < PackingItem.remaining zero ->
  (0 < remainingQuantity (itemId zero) inventory)%Z.
Proof.
  unfold remainingQuantity, sumZ.
  induction inventory as [|item rest IH]; intros Hin Hz; [destruct Hin|].
  assert (Hrest : (0 <= fold_right Z.add 0
                     (map unitsLeft
                        (filter (fun it => String.eqb (itemId it) (itemId zero))
                           rest)))%Z).
  { clear. induction rest as [|it rest IH]; simpl; [lia|].
    destruct (String.eqb _ _); simpl; [|assumption].
    pose proof (unitsOf_nonneg (PackingItem.remaining it)).
    unfold unitsLeft at 1. lia. }
  cbn [filter]. destruct Hin as [<- | Hin].
  - rewrite String.eqb_refl. cbn [map fold_right].
    apply unitsOf_positive in Hz. unfold unitsLeft at 1. lia.
  - specialize (IH Hin Hz).
    destruct (String.eqb _ _); cbn [map fold_right]; [|assumption].
    pose proof (unitsOf_nonneg (PackingItem.remaining item)).
    unfold unitsLeft at 1. lia.
Qed.

Lemma placedCount_none (skuId : string) (placed : list PlacedItem) :
  (forall p, In p placed -> SKU.id (PlacedItem.sku p) <> skuId) ->
  placedCount skuId placed = 0%Z.
Proof.
  unfold placedCount. induction placed as [|p placed IH]; intro H; [reflexivity|].
  cbn [filter].
  destruct (String.eqb (SKU.id (PlacedItem.sku p)) skuId) eqn:E.
  - apply String.eqb_eq in E. exfalso. exact (H p (or_introl eq_refl) E).
  - apply IH. intros q Hq. apply H. right. exact Hq.
Qed.

(** With an item of non-positive weight that has units left, [optimize] has
    no successful return: no unit of it is ever placed. *)
Lemma weightless_never_returns (self : PalletOptimizer) (fuel inner : nat)
    (inventory : list PackingItem) (zero : PackingItem)
    (pallets : list Pallet) (palletId : Z) (result : list Pallet) :
  tidy inventory ->
  Forall (wfItem self) inventory ->
  In zero inventory ->
  0 < PackingItem.remaining zero ->
  toBaseWeight self (SKU.weight (PackingItem.sku zero)) <= 0 ->
  optimize_loop self fuel inner inventory pallets palletId <> Ok result.
Proof.
  intros Ht Hw Hz Hpos Hweight H.
  apply (optimize_loop_invariant self
           (fun inv _ =>
              tidy inv /\ Forall (wfItem self) inv
              /\ map PackingItem.sku inv = map PackingItem.sku inventory
              /\ remainingQuantity (itemId zero) inv
                 = remainingQuantity (itemId zero) inventory)) in H.
  - destruct H as (inv' & (Ht' & _ & _ & Hq) & Hdone).
    rewrite (remainingQuantity_done _ _ Hdone) in Hq.
    pose proof (remainingQuantity_positive inventory zero Hz Hpos).
    lia.
  - clear H. intros inner' inv ps pid pallet inv' (Hti & Hwi & Hskus & Hq) _ Hb _.
    apply (buildPallet_conserves self _ _ _ _ _ Hti Hwi) in Hb.
    destruct Hb as [(Ht' & Hw' & Hc & _ & _ & Hitems) Hskus'].
    cbn [PalletState.inventory PalletState.layers] in *.
    split; [exact Ht'|]. split; [exact Hw'|]. split; [congruence|].
    specialize (Hc (itemId zero)).
    rewrite placedCount_none in Hc; [lia|].
    intros p Hp Hid. destruct (Hitems p Hp) as (Hpw & item & Hitem & Hsku).
    assert (Hin : In (PackingItem.sku zero) (map PackingItem.sku inv)).
    { rewrite Hskus. apply in_map. exact Hz. }
    apply in_map_iff in Hin. destruct Hin as (zero' & Hs & Hzero').
    assert (item = zero').
    { apply (NoDup_map_eq itemId inv); try assumption.
      unfold itemId in *. congruence. }
    subst item. unfold unitWeightBase in Hpw. rewrite Hsku, Hs in Hpw. lra.
  - split; [exact Ht|]. split; [exact Hw|]. split; reflexivity.
Qed.

Lemma packLayerForHeight_positive_weight (self : PalletOptimizer)
    (inventory : list PackingItem) (layerHeight mhr mwrb : Q)
    (c : LayerCandidate) :
  Forall (wfItem self) inventory ->
  packLayerForHeight self inventory layerHeight mhr mwrb = Ok (Some c) ->
  forall p, In p (Layer.items (LayerCandidate.layer c)) ->
            0 < unitWeightBase self p.
Proof.
  intros Hwf H. apply packLayerForHeight_Some in H.
  destruct H as (grid & st & _ & Hrun & _ & Hlayer & _).
  rewrite Hlayer. cbn [Layer.items].
  set (queue := layerQueue inventory layerHeight) in *.
  assert (Hinv : countInvariant self queue st).
  { apply (packQueue_invariant self mwrb (countInvariant self queue) queue)
      with (st := LayerState.mk grid [] [] 0 0 0); [| exact Hrun |].
    - intros candidate s s' Hc Hs Hstep.
      eapply unitPlaced_countInvariant; eassumption.
    - split; [reflexivity|]. split; [constructor | intros p []]. }
  destruct Hinv as (_ & _ & Hitems).
  intros p Hp. destruct (Hitems p Hp) as (_ & cand & Hcand & Hsku & Hw).
  apply layerQueue_item in Hcand.
  destruct Hcand as (item & Hitem & _ & Hs & Hwt & _).
  rewrite Forall_forall in Hwf. destruct (Hwf item Hitem) as [_ Hwi].
  unfold unitWeightBase. rewrite Hsku, Hs, <- Hwi, <- Hwt. exact Hw.
Qed.

Lemma buildPallet_positive_weight (self : PalletOptimizer) (inner : nat)
    (inventory : list PackingItem) (palletId : Z) (pallet : Pallet)
    (inventory' : list PackingItem) :
  Forall (wfItem self) inventory ->
  buildPallet self inner inventory palletId = Ok (pallet, inventory') ->
  forall p, In p (placedItemsOf pallet) -> 0 < unitWeightBase self p.
Proof.
  intros Hwf H. unfold buildPallet in H. inv_bind H.
  apply Ok_inj in H. injection H as <- <-.
  unfold placedItemsOf. cbn [Pallet.layers].
  apply (buildPallet_loop_invariant self
           (fun st =>
              Forall (wfItem self) (PalletState.inventory st)
              /\ forall p, In p (flat_map Layer.items (PalletState.layers st)) ->
                           0 < unitWeightBase self p)) in E.
  - apply E.
  - intros st c [Hw Hl] _ _ _ Hsel. cbn [addLayer PalletState.inventory
                                           PalletState.layers].
    split; [apply applyUsage_wf; exact Hw|].
    intros p Hp. rewrite flat_map_app in Hp. apply in_app_or in Hp.
    destruct Hp as [Hp | Hp]; [apply Hl; exact Hp|].
    cbn [flat_map] in Hp. rewrite app_nil_r in Hp.
    apply selectNextLayer_Some in Hsel. destruct Hsel as (h & _ & Hpack).
    eapply packLayerForHeight_positive_weight; eassumption.
  - split; [exact Hwf | intros p []].
Qed.

Lemma totalRemaining_initial (self : PalletOptimizer) (items : list OrderItem) :
  totalRemaining (map (packingItemOf self) (positiveLines items))
  = totalRequested items.
Proof.
  unfold totalRemaining, totalRequested, positiveLines, sumZ.
  induction items as [|item items IH]; [reflexivity|].
  cbn [filter map fold_right].
  destruct (Qltb 0 (OrderItem.quantity item)) eqn:Eq; qprop.
  - cbn [map fold_right]. rewrite IH. reflexivity.
  - rewrite IH, (unitsOf_nonpositive _ Eq). reflexivity.
Qed.

(** C10 (amended). No unit of a SKU whose weight is zero or less in pounds
    is ever placed on a pallet.  On a footprint whose sides are positive and
    at most [2^32 - 1], the largest length of an array, when every line
    passes the inventory set-up and no two lines with a positive quantity
    share a SKU id, an order line with a positive quantity of such a SKU
    makes [optimize] throw the empty-pallet error, as soon as the fuel
    exceeds the number of units asked for. *)
Theorem weightless_line_blocks :
  forall (self : PalletOptimizer) (fuel : nat) (items : list OrderItem)
         (zero : OrderItem),
    0 < PalletSize.length (PalletOptimizer.palletSize self) ->
    PalletSize.length (PalletOptimizer.palletSize self) <= 4294967295 ->
    0 < PalletSize.width (PalletOptimizer.palletSize self) ->
    PalletSize.width (PalletOptimizer.palletSize self) <= 4294967295 ->
    Forall (lineAccepted self) items ->
    NoDup (map (fun line => SKU.id (OrderItem.sku line)) (positiveLines items)) ->
    In zero items ->
    0 < OrderItem.quantity zero ->
    toBaseWeight self (SKU.weight (OrderItem.sku zero)) <= 0 ->
    (totalRequested items < Z.of_nat fuel)%Z ->
    (exists sku,
        optimize self fuel items = Throw (UnpackableRemainder (Some sku)))
    /\ (forall inner inventory palletId pallet inventory',
          Forall (wfItem self) inventory ->
          buildPallet self inner inventory palletId = Ok (pallet, inventory') ->
          forall p, In p (placedItemsOf pallet) -> 0 < unitWeightBase self p).
Proof.
  intros self fuel items zero HL HL' HW HW' Hacc Hnd Hzero Hq Hweight Hfuel.
  split; [|intros; eapply buildPallet_positive_weight; eassumption].
  unfold optimize, initializeInventory.
  rewrite (initializeInventory_accepted self items Hacc). cbn [bind app].
  set (inventory := map (packingItemOf self) (positiveLines items)).
  assert (Ht : tidy inventory).
  { unfold tidy, inventory. rewrite map_map. exact Hnd. }
  assert (Hw : Forall (wfItem self) inventory).
  { apply Forall_forall. intros item Hitem. apply in_map_iff in Hitem.
    destruct Hitem as (line & <- & _). split; reflexivity. }
  assert (Htot : (totalRemaining inventory < Z.of_nat fuel)%Z).
  { unfold inventory. rewrite totalRemaining_initial. exact Hfuel. }
  destruct (optimize_loop_total self fuel fuel HL HL' HW HW' inventory [] 1
              Ht Hw Htot Htot)
    as [(result & Hres) | Hthrow]; [|exact Hthrow].
  exfalso.
  apply (weightless_never_returns self fuel fuel inventory
           (packingItemOf self zero) [] 1 result Ht Hw); try assumption.
  apply in_map. apply filter_In. split; [exact Hzero|].
  apply Qltb_true. exact Hq.
Qed.

Lemma weightless_line_blocks_witness :
  (exists sku,
      optimize Ex.small 4 Ex.mixed = Throw (UnpackableRemainder (Some sku)))
  /\ (forall inner inventory palletId pallet inventory',
        Forall (wfItem Ex.small) inventory ->
        buildPallet Ex.small inner inventory palletId = Ok (pallet, inventory') ->
        forall p, In p (placedItemsOf pallet) -> 0 < unitWeightBase Ex.small p).
Proof.
  apply (weightless_line_blocks Ex.small 4 Ex.mixed (Ex.line Ex.feather 2)).
  - reflexivity.
  - vm_compute. discriminate.
  - reflexivity.
  - vm_compute. discriminate.
  - constructor; [|constructor; [|constructor]]; right; exists (2, 2, 2);
      (split; [left; reflexivity | vm_compute; reflexivity]).
  - vm_compute. constructor.
    + intros [H | []]. discriminate H.
    + constructor; [intros [] | constructor].
  - right. left. reflexivity.
  - reflexivity.
  - vm_compute. discriminate.
  - reflexivity.
Defined.

(** C10 as stated fails: next to a line that the set-up rejects, the
    weightless line does not lead to the empty-pallet error. *)
Lemma weightless_line_always_blocks_fails :
  ~ (forall (self : PalletOptimizer) (items : list OrderItem) (zero : OrderItem),
        In zero items ->
        0 < OrderItem.quantity zero ->
        toBaseWeight self (SKU.weight (OrderItem.sku zero)) <= 0 ->
        generateOrientationOptions self (OrderItem.sku zero) <> [] ->
        exists fuel blocking,
          optimize self fuel items = Throw (UnpackableRemainder blocking)).
Proof.
  intro H.
  destruct (H Ex.small Ex.rejected (Ex.line Ex.feather 1)) as (fuel & blocking & Ht).
  - left. reflexivity.
  - reflexivity.
  - vm_compute. discriminate.
  - vm_compute. discriminate.
  - vm_compute in Ht. discriminate Ht.
Qed.

(** ** The constructor *)

(** A constructed optimizer has positive budgets, its weight budget is the
    maximum weight in pounds and its area the area of the footprint. *)
Lemma new_PalletOptimizer_Ok (palletSize : PalletSize) (maxHeight maxWeight : Q)
    (weightUnit : WeightUnit) (self : PalletOptimizer) :
  new_PalletOptimizer palletSize maxHeight maxWeight weightUnit = Ok self ->
  self
  = PalletOptimizer.mk palletSize maxHeight
      (toBaseWeight_in weightUnit maxWeight) weightUnit
      (PalletSize.length palletSize * PalletSize.width palletSize)
  /\ 0 < maxHeight
  /\ 0 < toBaseWeight_in weightUnit maxWeight.
Proof.
  unfold new_PalletOptimizer. cbn [PalletOptimizer.maxHeight
                                   PalletOptimizer.maxWeightBase].
  destruct (Qleb maxHeight 0) eqn:Eh; [discriminate|].
  destruct (Qleb (toBaseWeight_in weightUnit maxWeight) 0) eqn:Ew; [discriminate|].
  intro H. apply Ok_inj in H. qprop. auto.
Qed.

(** ** More fuel changes nothing *)

Lemma buildPallet_loop_more_fuel (self : PalletOptimizer) (fuel : nat) :
  forall st r,
    buildPallet_loop self fuel st = r -> r <> OutOfFuel ->
    forall fuel', (fuel <= fuel')%nat -> buildPallet_loop self fuel' st = r.
Proof.
  induction fuel as [|fuel IH]; intros st r H Hr fuel' Hle.
  - simpl in H. destruct fuel'; simpl;
      destruct (negb (hasRemaining (PalletState.inventory st)));
      try exact H; exfalso; apply Hr; symmetry; exact H.
  - destruct fuel' as [|fuel']; [lia|].
    cbn [buildPallet_loop] in *.
    destruct (negb (hasRemaining (PalletState.inventory st))); [exact H|].
    destruct (_ || _); [exact H|].
    destruct (selectNextLayer self _ _ _) as [[c|]| |]; cbn [bind] in *;
      try exact H.
    apply IH; [exact H | exact Hr | lia].
Qed.

Lemma buildPallet_more_fuel (self : PalletOptimizer) (fuel fuel' : nat)
    (inventory : list PackingItem) (palletId : Z)
    (r : result (Pallet * list PackingItem)) :
  buildPallet self fuel inventory palletId = r -> r <> OutOfFuel ->
  (fuel <= fuel')%nat ->
  buildPallet self fuel' inventory palletId = r.
Proof.
  unfold buildPallet. intros H Hr Hle.
  destruct (buildPallet_loop self fuel (PalletState.mk inventory [] 0 0 0))
    as [st| |] eqn:E.
  - rewrite (buildPallet_loop_more_fuel self fuel _ _ E) by (discriminate || lia).
    exact H.
  - rewrite (buildPallet_loop_more_fuel self fuel _ _ E) by (discriminate || lia).
    exact H.
  - simpl in H. exfalso. apply Hr. symmetry. exact H.
Qed.

Lemma optimize_loop_more_fuel (self : PalletOptimizer) (fuel : nat) :
  forall inner inventory pallets palletId r,
    optimize_loop self fuel inner inventory pallets palletId = r ->
    r <> OutOfFuel ->
    forall fuel' inner',
      (fuel <= fuel')%nat -> (inner <= inner')%nat ->
      optimize_loop self fuel' inner' inventory pallets palletId = r.
Proof.
  induction fuel as [|fuel IH];
    intros inner inventory pallets palletId r H Hr fuel' inner' Hle Hle'.
  - simpl in H. destruct fuel'; simpl; destruct (negb (hasRemaining inventory));
      try exact H; exfalso; apply Hr; symmetry; exact H.
  - destruct fuel' as [|fuel']; [lia|].
    cbn [optimize_loop] in *.
    destruct (negb (hasRemaining inventory)); [exact H|].
    destruct (buildPallet self inner inventory palletId) as [[p inv']| |] eqn:E;
      cbn [bind] in H.
    + rewrite (buildPallet_more_fuel self inner inner' _ _ _ E)
        by (discriminate || lia).
      cbn [bind]. destruct (List.length (Pallet.layers p) =? 0)%nat; [exact H|].
      apply (IH inner); [exact H | exact Hr | lia | lia].
    + rewrite (buildPallet_more_fuel self inner inner' _ _ _ E)
        by (discriminate || lia).
      exact H.
    + exfalso. apply Hr. symmetry. exact H.
Qed.

(** An outcome of [optimize] other than running out of fuel is its outcome
    with any larger fuel. *)
Lemma optimize_more_fuel (self : PalletOptimizer) (fuel fuel' : nat)
    (items : list OrderItem) (r : result (list Pallet)) :
  optimize self fuel items = r -> r <> OutOfFuel -> (fuel <= fuel')%nat ->
  optimize self fuel' items = r.
Proof.
  unfold optimize. intros H Hr Hle.
  destruct (initializeInventory self items) as [inventory| |]; cbn [bind] in *;
    try exact H.
  apply (optimize_loop_more_fuel self fuel fuel); assumption.
Qed.

(** ** Two lines under one SKU id *)

(** With two order lines of a positive quantity under one SKU id,
    [optimize] returns no pallets, whatever the fuel. *)
Lemma optimize_duplicate_ids (self : PalletOptimizer) (fuel : nat)
    (items : list OrderItem) (pallets : list Pallet) :
  ~ NoDup (map (fun line => SKU.id (OrderItem.sku line)) (positiveLines items)) ->
  optimize self fuel items <> Ok pallets.
Proof.
  intros Hdup H. unfold optimize in H. inv_bind H. rename r into inventory.
  apply initializeInventory_Ok in E. destruct E as [E _]. simpl in E.
  apply (shadowed_never_returns self fuel fuel inventory [] 1 pallets); [|exact H].
  apply duplicate_ids_shadowed.
  - intros item Hitem. rewrite E in Hitem.
    apply initial_inventory_positive in Hitem. exact Hitem.
  - rewrite E, map_map. exact Hdup.
Qed.

(** ** The freight class of the returned pallets *)

Lemma optimize_freight_class (self : PalletOptimizer) (fuel : nat)
    (items : list OrderItem) (pallets : list Pallet) (pallet : Pallet) :
  optimize self fuel items = Ok pallets ->
  In pallet pallets ->
  Pallet.freightClass pallet
  = classOfDensity
      (palletDensity self (Pallet.totalWeight pallet) (Pallet.totalHeight pallet)).
Proof.
  intros H Hin.
  apply (optimize_pallets self
           (fun pallet =>
              Pallet.freightClass pallet
              = classOfDensity
                  (palletDensity self (Pallet.totalWeight pallet)
                     (Pallet.totalHeight pallet)))
           ) with (fuel := fuel) (items := items) (pallets := pallets);
    try assumption.
  intros inner inventory palletId p inventory' _ Hb _.
  unfold buildPallet in Hb. inv_bind Hb. apply Ok_inj in Hb.
  injection Hb as <- <-. cbn. apply calculateFreightClass_table.
Qed.

(** * Further properties of the engine *)

(** ** The constructor *)

(** X1. The constructor checks the two limits and nothing else: it returns
    an optimizer exactly when the maximal height and the maximal weight are
    positive, in pounds as in kilograms and whatever the footprint; a height
    of zero or less is reported first, then a weight of zero or less.  The
    optimizer it returns holds the weight limit in pounds and the area of
    the footprint. *)
Theorem constructor_checks_the_limits :
  forall (palletSize : PalletSize) (maxHeight maxWeight : Q)
         (weightUnit : WeightUnit),
    match new_PalletOptimizer palletSize maxHeight maxWeight weightUnit with
    | Ok self =>
        0 < maxHeight /\ 0 < maxWeight
        /\ PalletOptimizer.palletSize self = palletSize
        /\ PalletOptimizer.maxHeight self = maxHeight
        /\ PalletOptimizer.weightUnit self = weightUnit
        /\ PalletOptimizer.maxWeightBase self
           = weightInPounds weightUnit maxWeight
        /\ PalletOptimizer.palletArea self
           = PalletSize.length palletSize * PalletSize.width palletSize
    | Throw e =>
        (maxHeight <= 0
         /\ error_message e
            = "Max pallet height must be greater than zero."%string)
        \/ (0 < maxHeight /\ maxWeight <= 0
            /\ error_message e
               = "Max pallet weight must be greater than zero."%string)
    | OutOfFuel => False
    end.
Proof.
  intros palletSize maxHeight maxWeight weightUnit.
  unfold new_PalletOptimizer. cbn [PalletOptimizer.maxHeight
    PalletOptimizer.maxWeightBase].
  destruct (Qleb maxHeight 0) eqn:Eh; qprop.
  - left. split; [exact Eh | reflexivity].
  - destruct (Qleb (toBaseWeight_in weightUnit maxWeight) 0) eqn:Ew; qprop.
    + right. split; [exact Eh|]. split; [|reflexivity].
      destruct weightUnit; cbn [toBaseWeight_in] in Ew; lra.
    + cbn. split; [exact Eh|]. split.
      * destruct weightUnit; cbn [toBaseWeight_in] in Ew; lra.
      * repeat split; destruct weightUnit; reflexivity.
Qed.

(** ** The list of pallets *)

Lemma buildPallet_id (self : PalletOptimizer) (inner : nat)
    (inventory : list PackingItem) (palletId : Z) (pallet : Pallet)
    (inventory' : list PackingItem) :
  buildPallet self inner inventory palletId = Ok (pallet, inventory') ->
  Pallet.id pallet = palletId
  /\ Pallet.palletSize pallet = PalletOptimizer.palletSize self.
Proof.
  unfold buildPallet. intro H. inv_bind H. apply Ok_inj in H.
  injection H as <- _. split; reflexivity.
Qed.

(** The loop of [optimize] appends to the pallets it was given, at least one
    pallet when something is left to pack, and numbers what it appends from
    [palletId] on. *)
Lemma optimize_loop_appends (self : PalletOptimizer) (fuel inner : nat) :
  forall inventory pallets palletId result,
    optimize_loop self fuel inner inventory pallets palletId = Ok result ->
    exists more,
      result = pallets ++ more
      /\ (hasRemaining inventory = true -> more <> [])
      /\ forall i pallet,
           nth_error more i = Some pallet ->
           Pallet.id pallet = (palletId + Z.of_nat i)%Z
           /\ Pallet.palletSize pallet = PalletOptimizer.palletSize self.
Proof.
  induction fuel as [|fuel IH]; intros inventory pallets palletId result H;
    cbn [optimize_loop] in H;
    destruct (hasRemaining inventory) eqn:Er; cbn [negb] in H;
    try discriminate.
  - apply Ok_inj in H. subst result. exists []. rewrite app_nil_r.
    split; [reflexivity|]. split; [discriminate|].
    intros [|i] pallet Hn; discriminate Hn.
  - inv_bind H. destruct r as [pallet inventory'].
    destruct (List.length (Pallet.layers pallet) =? 0)%nat; [discriminate|].
    apply IH in H. destruct H as (more & -> & _ & Hids).
    apply buildPallet_id in E. destruct E as [Eid Esize].
    exists (pallet :: more). rewrite <- app_assoc. split; [reflexivity|].
    split; [discriminate|].
    intros [|i] q Hn; cbn [nth_error] in Hn.
    + injection Hn as <-. split; [|exact Esize].
      rewrite Eid. lia.
    + apply Hids in Hn. destruct Hn as [Hn Hs]. split; [|exact Hs].
      rewrite Hn. lia.
  - apply Ok_inj in H. subst result. exists []. rewrite app_nil_r.
    split; [reflexivity|]. split; [discriminate|].
    intros [|i] pallet Hn; discriminate Hn.
Qed.

(** X2. The pallets of a successful run are numbered 1, 2, 3, ... in the
    order of the list, and each carries the footprint of the optimizer. *)
Theorem pallets_are_numbered_from_one :
  forall (self : PalletOptimizer) (fuel : nat) (items : list OrderItem)
         (pallets : list Pallet) (i : nat) (pallet : Pallet),
    optimize self fuel items = Ok pallets ->
    nth_error pallets i = Some pallet ->
    Pallet.id pallet = (1 + Z.of_nat i)%Z
    /\ Pallet.palletSize pallet = PalletOptimizer.palletSize self.
Proof.
  intros self fuel items pallets i pallet H Hn.
  unfold optimize in H. inv_bind H.
  apply optimize_loop_appends in H. destruct H as (more & -> & _ & Hids).
  cbn [app] in Hn. apply Hids. exact Hn.
Qed.

Lemma pallets_are_numbered_from_one_witness :
  optimize Ex.small 3 Ex.order = Ok Ex.packed
  /\ nth_error Ex.packed 0 = Some Ex.firstPallet
  /\ Pallet.id Ex.firstPallet = (1 + Z.of_nat 0)%Z
  /\ Pallet.palletSize Ex.firstPallet = PalletOptimizer.palletSize Ex.small.
Proof.
  split; [vm_compute; reflexivity|]. split; [vm_compute; reflexivity|].
  apply (pallets_are_numbered_from_one Ex.small 3 Ex.order Ex.packed 0).
  - vm_compute. reflexivity.
  - vm_compute. reflexivity.
Defined.

(** X3. A successful run returns no pallet exactly when no order line asks
    for a positive quantity: with such lines only, [optimize] returns the
    empty list whatever their SKUs, and an empty list is returned in no
    other case. *)
Theorem no_pallet_iff_nothing_ordered :
  forall (self : PalletOptimizer) (fuel : nat) (items : list OrderItem),
    optimize self fuel items = Ok [] <-> positiveLines items = [].
Proof.
  intros self fuel items. split.
  - intro H. unfold optimize in H. inv_bind H. rename r into inventory.
    apply initializeInventory_Ok in E. destruct E as [E _]. cbn [app] in E.
    apply optimize_loop_appends in H. destruct H as (more & Hmore & Hne & _).
    cbn [app] in Hmore. subst more.
    destruct (positiveLines items) as [|line rest] eqn:Ep; [reflexivity|].
    exfalso. apply Hne; [|reflexivity].
    assert (Hline : In line (positiveLines items)) by (rewrite Ep; left; reflexivity).
    unfold positiveLines in Hline. apply filter_In in Hline.
    destruct Hline as [_ Hq].
    subst inventory. cbn [map hasRemaining existsb].
    unfold packingItemOf at 1. cbn [PackingItem.remaining].
    unfold Qgtb. rewrite Hq. reflexivity.
  - intro Hp. unfold optimize, initializeInventory.
    rewrite (initializeInventory_accepted self items).
    + rewrite Hp. cbn [app map bind].
      destruct fuel; reflexivity.
    + apply Forall_forall. intros line Hline. left.
      destruct (Qltb 0 (OrderItem.quantity line)) eqn:Eq; qprop; [|exact Eq].
      exfalso.
      assert (Hin : In line (positiveLines items)).
      { apply filter_In. split; [exact Hline|]. apply Qltb_true. exact Eq. }
      rewrite Hp in Hin. exact Hin.
Qed.

(** Every item of a packed layer is one unit, and there is at least one. *)
Lemma packLayerForHeight_units (self : PalletOptimizer)
    (inventory : list PackingItem) (layerHeight mhr mwrb : Q)
    (c : LayerCandidate) :
  packLayerForHeight self inventory layerHeight mhr mwrb = Ok (Some c) ->
  Layer.items (LayerCandidate.layer c) <> []
  /\ forall p, In p (Layer.items (LayerCandidate.layer c)) ->
       PlacedItem.quantity p = 1%Z.
Proof.
  intro H. apply packLayerForHeight_Some in H.
  destruct H as (grid & st & _ & Hrun & Hne & El & _).
  rewrite El. cbn [Layer.items]. split; [exact Hne|].
  refine (packQueue_invariant self mwrb
            (fun s => forall p, In p (LayerState.placedItems s) ->
                                PlacedItem.quantity p = 1%Z) _ _ _ _ Hrun _).
  - intros candidate s s' _ Hs (_ & _ & option & position & _ & _ & Hplace).
    apply placeUnit_Ok in Hplace. cbn zeta in Hplace.
    destruct Hplace as (_ & Ep & _).
    intros p Hp. rewrite Ep in Hp. apply in_app_or in Hp.
    destruct Hp as [Hp | [<- | []]]; [auto | reflexivity].
  - intros p [].
Qed.

(** X4. No pallet of a successful run is empty and no layer is: every
    pallet has a layer, every layer has an item, and every item stands for
    exactly one unit. *)
Theorem pallets_and_layers_are_not_empty :
  forall (self : PalletOptimizer) (fuel : nat) (items : list OrderItem)
         (pallets : list Pallet) (pallet : Pallet),
    optimize self fuel items = Ok pallets ->
    In pallet pallets ->
    Pallet.layers pallet <> []
    /\ forall layer,
         In layer (Pallet.layers pallet) ->
         Layer.items layer <> []
         /\ forall p, In p (Layer.items layer) -> PlacedItem.quantity p = 1%Z.
Proof.
  intros self fuel items pallets pallet H Hin. split.
  - apply (optimize_pallets self (fun q => Pallet.layers q <> []))
      with (fuel := fuel) (items := items) (pallets := pallets);
      [|exact H | exact Hin].
    intros inner inventory palletId q inventory' _ _ Hne. exact Hne.
  - intros layer Hl.
    apply (optimize_layers self
             (fun l => Layer.items l <> []
                       /\ forall p, In p (Layer.items l) ->
                                    PlacedItem.quantity p = 1%Z))
      with (fuel := fuel) (items := items) (pallets := pallets)
           (pallet := pallet);
      [|exact H | exact Hin | exact Hl].
    intros inventory layerHeight mhr mwrb c _ Hpack.
    eapply packLayerForHeight_units. exact Hpack.
Qed.

Lemma pallets_and_layers_are_not_empty_witness :
  Pallet.layers Ex.firstPallet <> []
  /\ forall layer,
       In layer (Pallet.layers Ex.firstPallet) ->
       Layer.items layer <> []
       /\ forall p, In p (Layer.items layer) -> PlacedItem.quantity p = 1%Z.
Proof.
  apply (pallets_and_layers_are_not_empty Ex.small 3 Ex.order Ex.packed).
  - vm_compute. reflexivity.
  - left. reflexivity.
Defined.

(** The inventory of a run that returns has no two items of one SKU id. *)
Lemma returning_inventory_tidy (self : PalletOptimizer) (fuel inner : nat)
    (items : list OrderItem) (pallets : list Pallet) (palletId : Z)
    (result : list Pallet) :
  optimize_loop self fuel inner
    (map (packingItemOf self) (positiveLines items)) pallets palletId
  = Ok result ->
  tidy (map (packingItemOf self) (positiveLines items)).
Proof.
  intro H. unfold tidy.
  destruct (ListDec.NoDup_dec string_dec
              (map itemId (map (packingItemOf self) (positiveLines items))))
    as [Hnd | Hdup]; [exact Hnd|].
  exfalso.
  apply (shadowed_never_returns self fuel inner
           (map (packingItemOf self) (positiveLines items)) pallets palletId
           result);
    [|exact H].
  apply duplicate_ids_shadowed; [|exact Hdup].
  intros item Hitem. apply initial_inventory_positive in Hitem. exact Hitem.
Qed.

Lemma initial_inventory_wf (self : PalletOptimizer) (items : list OrderItem) :
  Forall (wfItem self) (map (packingItemOf self) (positiveLines items)).
Proof.
  apply Forall_forall. intros item Hitem. apply in_map_iff in Hitem.
  destruct Hitem as (line & <- & _). split; reflexivity.
Qed.

(** X5. Nothing is placed that was not ordered: the SKU of every placed item
    is the SKU of an order line that asks for a positive quantity. *)
Theorem only_ordered_skus_are_placed :
  forall (self : PalletOptimizer) (fuel : nat) (items : list OrderItem)
         (pallets : list Pallet) (pallet : Pallet) (p : PlacedItem),
    optimize self fuel items = Ok pallets ->
    In pallet pallets ->
    In p (placedItemsOf pallet) ->
    exists line,
      In line items
      /\ 0 < OrderItem.quantity line
      /\ PlacedItem.sku p = OrderItem.sku line.
Proof.
  intros self fuel items pallets pallet p H Hpallet Hp.
  unfold optimize in H. inv_bind H. rename r into inventory.
  apply initializeInventory_Ok in E. destruct E as [E _]. cbn [app] in E.
  subst inventory.
  set (inventory := map (packingItemOf self) (positiveLines items)) in *.
  pose proof (returning_inventory_tidy self fuel fuel items [] 1 pallets H)
    as Htidy.
  pose proof (initial_inventory_wf self items) as Hwf.
  fold inventory in Htidy, Hwf.
  apply (optimize_loop_invariant self
           (fun inv ps =>
              tidy inv /\ Forall (wfItem self) inv
              /\ map PackingItem.sku inv = map PackingItem.sku inventory
              /\ forall q x, In q ps -> In x (placedItemsOf q) ->
                   In (PlacedItem.sku x) (map PackingItem.sku inventory))) in H.
  - destruct H as (inv' & (_ & _ & _ & Hall) & _).
    specialize (Hall pallet p Hpallet Hp).
    apply in_map_iff in Hall. destruct Hall as (item & Esku & Hitem).
    unfold inventory in Hitem. apply in_map_iff in Hitem.
    destruct Hitem as (line & <- & Hline). apply filter_In in Hline.
    destruct Hline as [Hline Hq]. qprop.
    exists line. split; [exact Hline|]. split; [exact Hq|].
    symmetry. exact Esku.
  - clear H. intros inner inv ps pid q inv' (Ht & Hw & Hs & Hall) _ Hb _.
    apply (buildPallet_conserves self _ _ _ _ _ Ht Hw) in Hb.
    destruct Hb as [(Ht' & Hw' & _ & _ & _ & Hplaced) Hs'].
    cbn [PalletState.inventory PalletState.layers] in *.
    split; [exact Ht'|]. split; [exact Hw'|].
    split; [rewrite Hs'; exact Hs|].
    intros q' x Hq' Hx. apply in_app_or in Hq'.
    destruct Hq' as [Hq' | [<- | []]]; [eapply Hall; eassumption|].
    apply Hplaced in Hx. destruct Hx as (_ & item & Hitem & ->).
    rewrite <- Hs. apply in_map. exact Hitem.
  - split; [exact Htidy|]. split; [exact Hwf|]. split; [reflexivity|].
    intros q x [].
Qed.

Lemma only_ordered_skus_are_placed_witness :
  In Ex.firstPallet Ex.packed
  /\ forall p,
       In p (placedItemsOf Ex.firstPallet) ->
       exists line,
         In line Ex.order
         /\ 0 < OrderItem.quantity line
         /\ PlacedItem.sku p = OrderItem.sku line.
Proof.
  split; [left; reflexivity|]. intros p Hp.
  apply (only_ordered_skus_are_placed Ex.small 3 Ex.order Ex.packed
           Ex.firstPallet p).
  - vm_compute. reflexivity.
  - left. reflexivity.
  - exact Hp.
Defined.

(** X6. A successful run returns at most as many pallets as units were
    asked for, every line rounded up to whole units: each pallet takes at
    least one unit out of the inventory. *)
Theorem pallets_are_at_most_the_units :
  forall (self : PalletOptimizer) (fuel : nat) (items : list OrderItem)
         (pallets : list Pallet),
    optimize self fuel items = Ok pallets ->
    (Z.of_nat (List.length pallets) <= totalRequested items)%Z.
Proof.
  intros self fuel items pallets H.
  unfold optimize in H. inv_bind H. rename r into inventory.
  apply initializeInventory_Ok in E. destruct E as [E _]. cbn [app] in E.
  subst inventory.
  pose proof (returning_inventory_tidy self fuel fuel items [] 1 pallets H)
    as Htidy.
  pose proof (initial_inventory_wf self items) as Hwf.
  rewrite <- (totalRemaining_initial self).
  set (inventory := map (packingItemOf self) (positiveLines items)) in *.
  apply (optimize_loop_invariant self
           (fun inv ps =>
              tidy inv /\ Forall (wfItem self) inv
              /\ (Z.of_nat (List.length ps) + totalRemaining inv
                  <= totalRemaining inventory)%Z)) in H.
  - destruct H as (inv' & (_ & _ & Hle) & _).
    pose proof (totalRemaining_nonneg inv'). lia.
  - clear H. intros inner inv ps pid q inv' (Ht & Hw & Hle) _ Hb Hne.
    apply (buildPallet_conserves self _ _ _ _ _ Ht Hw) in Hb.
    destruct Hb as [(Ht' & Hw' & _ & _ & Hlt & _) _].
    cbn [PalletState.inventory PalletState.layers] in *.
    split; [exact Ht'|]. split; [exact Hw'|].
    specialize (Hlt Hne). rewrite length_app. cbn [List.length].
    lia.
  - split; [exact Htidy|]. split; [exact Hwf|]. cbn [List.length]. lia.
Qed.

Lemma pallets_are_at_most_the_units_witness :
  (Z.of_nat (List.length Ex.packed) <= totalRequested Ex.order)%Z.
Proof.
  apply (pallets_are_at_most_the_units Ex.small 3 Ex.order Ex.packed).
  vm_compute. reflexivity.
Defined.

(** The inventory set-up throws nothing but its own error. *)
Lemma addOrderLine_throws (self : PalletOptimizer) (item : OrderItem)
    (acc : list PackingItem) :
  (exists inventory, addOrderLine self item acc = Ok inventory)
  \/ addOrderLine self item acc = Throw (SkuExceedsPallet (OrderItem.sku item)).
Proof.
  unfold addOrderLine.
  destruct (Qleb (OrderItem.quantity item) 0); [left; eexists; reflexivity|].
  destruct (List.length _ =? 0)%nat; [right; reflexivity|].
  left. eexists. reflexivity.
Qed.

Lemma initializeInventory_throws (self : PalletOptimizer)
    (items : list OrderItem) :
  forall acc,
    (exists inventory, for_each items (addOrderLine self) acc = Ok inventory)
    \/ exists line,
         In line items
         /\ for_each items (addOrderLine self) acc
            = Throw (SkuExceedsPallet (OrderItem.sku line)).
Proof.
  induction items as [|item items IH]; intro acc; cbn [for_each].
  - left. exists acc. reflexivity.
  - destruct (addOrderLine_throws self item acc) as [(acc' & ->) | ->];
      cbn [bind].
    + destruct (IH acc') as [Hok | (line & Hline & Hthrow)].
      * left. exact Hok.
      * right. exists line. split; [right; exact Hline | exact Hthrow].
    + right. exists item. split; [left; reflexivity | reflexivity].
Qed.

(** X7. [optimize] terminates on every order whose lines of positive
    quantity have pairwise different SKU ids, for a footprint whose sides
    are positive and at most [2^32 - 1], the largest length of an array: run
    with more fuel than units asked for, it returns pallets, or throws for
    an order line whose SKU fits in no orientation, or throws for an item
    left over on an empty pallet.  It raises no other error and does not run
    out of fuel. *)
Theorem optimize_terminates :
  forall (self : PalletOptimizer) (fuel : nat) (items : list OrderItem),
    0 < PalletSize.length (PalletOptimizer.palletSize self) ->
    PalletSize.length (PalletOptimizer.palletSize self) <= 4294967295 ->
    0 < PalletSize.width (PalletOptimizer.palletSize self) ->
    PalletSize.width (PalletOptimizer.palletSize self) <= 4294967295 ->
    NoDup (map (fun line => SKU.id (OrderItem.sku line)) (positiveLines items)) ->
    (totalRequested items < Z.of_nat fuel)%Z ->
    (exists pallets, optimize self fuel items = Ok pallets)
    \/ (exists line,
          In line items
          /\ optimize self fuel items
             = Throw (SkuExceedsPallet (OrderItem.sku line)))
    \/ (exists sku,
          optimize self fuel items = Throw (UnpackableRemainder (Some sku))).
Proof.
  intros self fuel items HL HL' HW HW' Hnd Hfuel.
  unfold optimize, initializeInventory.
  destruct (initializeInventory_throws self items [])
    as [(inventory & Hok) | (line & Hline & Hthrow)].
  - rewrite Hok. cbn [bind].
    apply initializeInventory_Ok in Hok. destruct Hok as [-> _]. cbn [app].
    assert (Ht : tidy (map (packingItemOf self) (positiveLines items))).
    { unfold tidy. rewrite map_map. exact Hnd. }
    pose proof (initial_inventory_wf self items) as Hw.
    assert (Htot : (totalRemaining (map (packingItemOf self) (positiveLines items))
                    < Z.of_nat fuel)%Z).
    { rewrite totalRemaining_initial. exact Hfuel. }
    destruct (optimize_loop_total self fuel fuel HL HL' HW HW' _ [] 1%Z
                Ht Hw Htot Htot)
      as [Hres | Hthrow].
    + left. exact Hres.
    + right. right. exact Hthrow.
  - right. left. exists line. rewrite Hthrow. cbn [bind].
    split; [exact Hline | reflexivity].
Qed.

Lemma optimize_terminates_witness :
  (exists pallets, optimize Ex.small 6 Ex.order = Ok pallets)
  \/ (exists line,
        In line Ex.order
        /\ optimize Ex.small 6 Ex.order
           = Throw (SkuExceedsPallet (OrderItem.sku line)))
  \/ (exists sku,
        optimize Ex.small 6 Ex.order = Throw (UnpackableRemainder (Some sku))).
Proof.
  apply (optimize_terminates Ex.small 6 Ex.order).
  - reflexivity.
  - vm_compute. discriminate.
  - reflexivity.
  - vm_compute. discriminate.
  - vm_compute. constructor; [intros [] | constructor].
  - reflexivity.
Defined.

(** X22. A run that returns was given at most one line of a positive
    quantity for every SKU id.  With two such lines under one id the units
    of the second are counted down on the first, the second is never
    exhausted, and [optimize] does not return, whatever the fuel. *)
Theorem returned_orders_have_distinct_sku_ids :
  forall (self : PalletOptimizer) (fuel : nat) (items : list OrderItem)
         (pallets : list Pallet),
    optimize self fuel items = Ok pallets ->
    NoDup (map (fun line => SKU.id (OrderItem.sku line)) (positiveLines items)).
Proof.
  intros self fuel items pallets H.
  destruct (ListDec.NoDup_dec string_dec
              (map (fun line => SKU.id (OrderItem.sku line))
                 (positiveLines items))) as [Hnd | Hdup]; [exact Hnd|].
  exfalso. exact (optimize_duplicate_ids self fuel items pallets Hdup H).
Qed.

Lemma returned_orders_have_distinct_sku_ids_witness :
  optimize Ex.small 6 Ex.twoLines = Ok Ex.twoLinesPacked
  /\ Ex.twoLinesPacked <> []
  /\ List.length (positiveLines Ex.twoLines) = 2%nat
  /\ NoDup
       (map (fun line => SKU.id (OrderItem.sku line))
          (positiveLines Ex.twoLines)).
Proof.
  assert (Hrun : optimize Ex.small 6 Ex.twoLines = Ok Ex.twoLinesPacked)
    by (vm_compute; reflexivity).
  split; [exact Hrun|]. split; [discriminate|]. split; [reflexivity|].
  apply (returned_orders_have_distinct_sku_ids Ex.small 6 Ex.twoLines
           Ex.twoLinesPacked Hrun).
Defined.

(** ** Heights *)

Lemma inject_Z_succ (k : Z) : inject_Z (k + 1) == inject_Z k + 1.
Proof. rewrite inject_Z_plus. reflexivity. Qed.

Lemma Math_round_dist (q : Q) : Qabs (q - inject_Z (Math_round q)) <= 1 # 2.
Proof.
  unfold Math_round.
  pose proof (Qfloor_le (q + (1 # 2))) as H1.
  pose proof (Qlt_floor (q + (1 # 2))) as H2.
  rewrite inject_Z_succ in H2.
  apply Qabs_Qle_condition. split; lra.
Qed.

(** [isDivisible] on the edge of the tolerance: the quotient of 9.99 by 10
    is the double of 0.999, whose distance to 1 is a double above the double
    of 0.001, where the distance of the reals is 0.001; 10 is divided by 5
    and by 2.5, and by no height within the tolerance. *)
Lemma isDivisible_in_binary64 :
  isDivisible (999 # 100) 10 = false
  /\ isDivisible 10 5 = true
  /\ isDivisible 10 (5 # 2) = true
  /\ isDivisible 10 3 = false
  /\ isDivisible 10 (1 # 1000) = false.
Proof. vm_compute. repeat split. Qed.

Lemma normalizeHeight_dist (value : Q) :
  Qabs (normalizeHeight value - value) <= 1 # 2000.
Proof.
  unfold normalizeHeight, HEIGHT_TOLERANCE.
  pose proof (Math_round_dist (value / (1 # 1000))) as H.
  assert (Ev : value / (1 # 1000) == value * 1000) by (field; discriminate).
  revert H. generalize (Math_round (value / (1 # 1000))).
  generalize dependent (value / (1 # 1000)). intros q Ev k H.
  apply Qabs_Qle_condition in H. destruct H as [H1 H2].
  apply Qabs_Qle_condition. split; lra.
Qed.

Lemma normalizeHeight_same_key (a b : Q) :
  normalizeHeight a == normalizeHeight b -> Qabs (a - b) <= HEIGHT_TOLERANCE.
Proof.
  intro E.
  pose proof (normalizeHeight_dist a) as Ha.
  pose proof (normalizeHeight_dist b) as Hb.
  apply Qabs_Qle_condition in Ha, Hb. destruct Ha as [Ha1 Ha2], Hb as [Hb1 Hb2].
  unfold HEIGHT_TOLERANCE. apply Qabs_Qle_condition. split; lra.
Qed.

(** The two loops that fill the height map of [selectNextLayer]. *)
Lemma collectHeights_fold (inventory : list PackingItem) (mhr : Q) :
  collectHeights inventory mhr
  = fold_left
      (fun heightMap item =>
         if Qleb (PackingItem.remaining item) 0 then heightMap
         else
           fold_left
             (fun heightMap option =>
                if Qleb (OrientationOption.height option)
                     (mhr + HEIGHT_TOLERANCE)
                then
                  if Map_has Qeq_bool heightMap
                       (normalizeHeight (OrientationOption.height option))
                  then heightMap
                  else Map_set Qeq_bool heightMap
                         (normalizeHeight (OrientationOption.height option))
                         (OrientationOption.height option)
                else heightMap)
             (PackingItem.orientations item) heightMap)
      inventory [].
Proof. reflexivity. Qed.

Lemma Map_has_Qeq (m : list (Q * Q)) (key : Q) :
  Map_has Qeq_bool m key = true
  <-> exists k v, In (k, v) m /\ k == key.
Proof.
  unfold Map_has. induction m as [|[k v] m IH]; cbn [Map_get].
  - split; [discriminate | intros (k & v & [] & _)].
  - destruct (Qeq_bool k key) eqn:E.
    + split; [|reflexivity]. intros _. exists k, v.
      split; [left; reflexivity | apply Qeq_bool_iff; exact E].
    + rewrite IH. split.
      * intros (k' & v' & Hin & Hk). exists k', v'.
        split; [right; exact Hin | exact Hk].
      * intros (k' & v' & [Hin | Hin] & Hk).
        -- injection Hin as <- <-. apply Qeq_bool_iff in Hk. congruence.
        -- exists k', v'. split; [exact Hin | exact Hk].
Qed.

Lemma Map_set_fresh (m : list (Q * Q)) (key value : Q) :
  Map_has Qeq_bool m key = false ->
  Map_set Qeq_bool m key value = m ++ [(key, value)].
Proof.
  unfold Map_has. induction m as [|[k v] m IH]; cbn [Map_get Map_set app];
    [reflexivity|].
  destruct (Qeq_bool k key); [discriminate|].
  intro H. rewrite (IH H). reflexivity.
Qed.


Lemma Map_has_app (m : list (Q * Q)) (entry : Q * Q) (key : Q) :
  Map_has Qeq_bool m key = true ->
  Map_has Qeq_bool (m ++ [entry]) key = true.
Proof.
  rewrite !Map_has_Qeq. intros (k & v & Hin & Hk). exists k, v.
  split; [apply in_or_app; left; exact Hin | exact Hk].
Qed.

Lemma heightMap_ok_add (seen : Q -> Prop) (m : list (Q * Q)) (value : Q) :
  heightMap_ok seen m ->
  seen value ->
  Map_has Qeq_bool m (normalizeHeight value) = false ->
  heightMap_ok seen (m ++ [(normalizeHeight value, value)]).
Proof.
  intros [Hentries Hkeys] Hseen Hnew. split.
  - intros k v Hin. apply in_app_or in Hin.
    destruct Hin as [Hin | [Hin | []]]; [apply Hentries; exact Hin|].
    injection Hin as <- <-. split; [reflexivity | exact Hseen].
  - assert (Hfresh : forall n a, nth_error m n = Some a ->
                                 ~ fst a == normalizeHeight value).
    { intros n [k v] Hn Hk. apply nth_error_In in Hn.
      assert (Hhas : Map_has Qeq_bool m (normalizeHeight value) = true).
      { apply Map_has_Qeq. exists k, v. split; [exact Hn | exact Hk]. }
      congruence. }
    assert (Hlast : forall n a,
              nth_error (m ++ [(normalizeHeight value, value)]) n = Some a ->
              (nth_error m n = Some a /\ (n < List.length m)%nat)
              \/ (n = List.length m /\ a = (normalizeHeight value, value))).
    { intros n a Hn. destruct (Nat.lt_ge_cases n (List.length m)) as [Hlt | Hge].
      - left. rewrite nth_error_app1 in Hn by exact Hlt. split; assumption.
      - right. rewrite nth_error_app2 in Hn by exact Hge.
        destruct (n - List.length m)%nat as [|d] eqn:Ed.
        + cbn in Hn. injection Hn as <-. split; [lia | reflexivity].
        + destruct d; discriminate Hn. }
    intros i j a b Hij Ha Hb.
    apply Hlast in Ha, Hb.
    destruct Ha as [[Ha _] | [Hi ->]], Hb as [[Hb _] | [Hj ->]].
    + eapply Hkeys; eassumption.
    + cbn [fst]. eapply Hfresh. exact Ha.
    + cbn [fst]. intro E. eapply Hfresh; [exact Hb|]. symmetry. exact E.
    + lia.
Qed.

(** One option more in the height map. *)
Lemma collectHeights_step (seen : Q -> Prop) (mhr : Q) (m : list (Q * Q))
    (o : OrientationOption) :
  let m' :=
    if Qleb (OrientationOption.height o) (mhr + HEIGHT_TOLERANCE)
    then
      if Map_has Qeq_bool m (normalizeHeight (OrientationOption.height o))
      then m
      else Map_set Qeq_bool m (normalizeHeight (OrientationOption.height o))
             (OrientationOption.height o)
    else m in
  heightMap_ok seen m ->
  (OrientationOption.height o <= mhr + HEIGHT_TOLERANCE ->
   seen (OrientationOption.height o)) ->
  heightMap_ok seen m'
  /\ (forall key, Map_has Qeq_bool m key = true ->
                  Map_has Qeq_bool m' key = true)
  /\ (OrientationOption.height o <= mhr + HEIGHT_TOLERANCE ->
      Map_has Qeq_bool m' (normalizeHeight (OrientationOption.height o)) = true).
Proof.
  intros m' Hok Hseen. subst m'.
  destruct (Qleb (OrientationOption.height o) (mhr + HEIGHT_TOLERANCE)) eqn:E;
    qprop.
  - destruct (Map_has Qeq_bool m (normalizeHeight (OrientationOption.height o)))
      eqn:Eh.
    + split; [exact Hok|]. split; [auto|]. intros _. exact Eh.
    + rewrite (Map_set_fresh _ _ _ Eh). split.
      * apply heightMap_ok_add; [exact Hok | apply Hseen; exact E | exact Eh].
      * split; [intros key Hkey; apply Map_has_app; exact Hkey|].
        intros _. apply Map_has_Qeq.
        exists (normalizeHeight (OrientationOption.height o)),
          (OrientationOption.height o).
        split; [apply in_or_app; right; left; reflexivity | reflexivity].
  - split; [exact Hok|]. split; [auto|]. intro H. lra.
Qed.

Lemma collectHeights_options (seen : Q -> Prop) (mhr : Q)
    (options : list OrientationOption) :
  forall m,
    heightMap_ok seen m ->
    (forall o, In o options ->
               OrientationOption.height o <= mhr + HEIGHT_TOLERANCE ->
               seen (OrientationOption.height o)) ->
    let m' :=
      fold_left
        (fun heightMap option =>
           if Qleb (OrientationOption.height option) (mhr + HEIGHT_TOLERANCE)
           then
             if Map_has Qeq_bool heightMap
                  (normalizeHeight (OrientationOption.height option))
             then heightMap
             else Map_set Qeq_bool heightMap
                    (normalizeHeight (OrientationOption.height option))
                    (OrientationOption.height option)
           else heightMap)
        options m in
    heightMap_ok seen m'
    /\ (forall key, Map_has Qeq_bool m key = true ->
                    Map_has Qeq_bool m' key = true)
    /\ (forall o, In o options ->
                  OrientationOption.height o <= mhr + HEIGHT_TOLERANCE ->
                  Map_has Qeq_bool m'
                    (normalizeHeight (OrientationOption.height o)) = true).
Proof.
  induction options as [|o options IH]; intros m Hok Hseen; cbn [fold_left].
  - split; [exact Hok|]. split; [auto|]. intros o [].
  - destruct (collectHeights_step seen mhr m o Hok) as (Hok1 & Hmono1 & Hcov1).
    { apply Hseen. left. reflexivity. }
    cbn zeta in Hok1, Hmono1, Hcov1.
    destruct (IH _ Hok1) as (Hok2 & Hmono2 & Hcov2).
    { intros o' Ho'. apply Hseen. right. exact Ho'. }
    cbn zeta in Hok2, Hmono2, Hcov2.
    split; [exact Hok2|]. split; [intros key Hkey; auto|].
    intros o' [<- | Ho'] He; [|apply Hcov2; assumption].
    apply Hmono2. apply Hcov1. exact He.
Qed.

Lemma collectHeights_items (seen : Q -> Prop) (mhr : Q)
    (items : list PackingItem) :
  forall m,
    heightMap_ok seen m ->
    (forall item o,
        In item items -> 0 < PackingItem.remaining item ->
        In o (PackingItem.orientations item) ->
        OrientationOption.height o <= mhr + HEIGHT_TOLERANCE ->
        seen (OrientationOption.height o)) ->
    let m' :=
      fold_left
        (fun heightMap item =>
           if Qleb (PackingItem.remaining item) 0 then heightMap
           else
             fold_left
               (fun heightMap option =>
                  if Qleb (OrientationOption.height option)
                       (mhr + HEIGHT_TOLERANCE)
                  then
                    if Map_has Qeq_bool heightMap
                         (normalizeHeight (OrientationOption.height option))
                    then heightMap
                    else Map_set Qeq_bool heightMap
                           (normalizeHeight (OrientationOption.height option))
                           (OrientationOption.height option)
                  else heightMap)
               (PackingItem.orientations item) heightMap)
        items m in
    heightMap_ok seen m'
    /\ (forall key, Map_has Qeq_bool m key = true ->
                    Map_has Qeq_bool m' key = true)
    /\ (forall item o,
          In item items -> 0 < PackingItem.remaining item ->
          In o (PackingItem.orientations item) ->
          OrientationOption.height o <= mhr + HEIGHT_TOLERANCE ->
          Map_has Qeq_bool m'
            (normalizeHeight (OrientationOption.height o)) = true).
Proof.
  induction items as [|item items IH]; intros m Hok Hseen; cbn [fold_left].
  - split; [exact Hok|]. split; [auto|]. intros item o [].
  - destruct (Qleb (PackingItem.remaining item) 0) eqn:Er; qprop.
    + destruct (IH m Hok) as (Hok2 & Hmono2 & Hcov2).
      { intros item' o Hitem'. apply Hseen. right. exact Hitem'. }
      cbn zeta in Hok2, Hmono2, Hcov2.
      split; [exact Hok2|]. split; [exact Hmono2|].
      intros item' o [<- | Hitem'] Hr Ho He; [lra|].
      eapply Hcov2; eassumption.
    + destruct (collectHeights_options seen mhr (PackingItem.orientations item)
                  m Hok) as (Hok1 & Hmono1 & Hcov1).
      { intros o Ho. apply (Hseen item o); [left; reflexivity | exact Er | exact Ho]. }
      cbn zeta in Hok1, Hmono1, Hcov1.
      destruct (IH _ Hok1) as (Hok2 & Hmono2 & Hcov2).
      { intros item' o Hitem'. apply Hseen. right. exact Hitem'. }
      cbn zeta in Hok2, Hmono2, Hcov2.
      split; [exact Hok2|]. split; [intros key Hkey; auto|].
      intros item' o [<- | Hitem'] Hr Ho He.
      * apply Hmono2. apply Hcov1; assumption.
      * eapply Hcov2; eassumption.
Qed.

(** X9. The heights that [selectNextLayer] tries are the heights of the
    orientations of the items left that fit under the height left, one for
    every key of [normalizeHeight]: each height tried is such a height; no
    two heights tried have the same key; and every such height is within the
    height tolerance of a height tried, so that the layer packed for that
    height admits the orientation. *)
Theorem tried_heights_cover_the_orientations :
  forall (inventory : list PackingItem) (maxHeightRemaining : Q),
    (forall h,
        In h (Map_values (collectHeights inventory maxHeightRemaining)) ->
        h <= maxHeightRemaining + HEIGHT_TOLERANCE
        /\ exists item o,
             In item inventory /\ 0 < PackingItem.remaining item
             /\ In o (PackingItem.orientations item)
             /\ OrientationOption.height o = h)
    /\ (forall i j a b,
          i <> j ->
          nth_error (Map_values (collectHeights inventory maxHeightRemaining)) i
          = Some a ->
          nth_error (Map_values (collectHeights inventory maxHeightRemaining)) j
          = Some b ->
          ~ normalizeHeight a == normalizeHeight b)
    /\ (forall item o,
          In item inventory -> 0 < PackingItem.remaining item ->
          In o (PackingItem.orientations item) ->
          OrientationOption.height o
          <= maxHeightRemaining + HEIGHT_TOLERANCE ->
          exists h,
            In h (Map_values (collectHeights inventory maxHeightRemaining))
            /\ Qabs (OrientationOption.height o - h) <= HEIGHT_TOLERANCE
            /\ toQueueItem h item <> None).
Proof.
  intros inventory mhr.
  set (seen := fun v : Q =>
                 v <= mhr + HEIGHT_TOLERANCE
                 /\ exists item o,
                      In item inventory /\ 0 < PackingItem.remaining item
                      /\ In o (PackingItem.orientations item)
                      /\ OrientationOption.height o = v).
  destruct (collectHeights_items seen mhr inventory []) as (Hok & _ & Hcov).
  { split; [intros k v [] | intros [|i] j a b _ Hi; discriminate Hi]. }
  { intros item o Hitem Hr Ho He. split; [exact He|].
    exists item, o. repeat split; assumption. }
  cbn zeta in Hok, Hcov. rewrite <- collectHeights_fold in Hok, Hcov.
  destruct Hok as [Hentries Hkeys].
  unfold Map_values. split; [|split].
  - intros h Hh. apply in_map_iff in Hh. destruct Hh as ([k v] & <- & Hin).
    apply Hentries in Hin. destruct Hin as [_ Hseen]. exact Hseen.
  - intros i j a b Hij Ha Hb E.
    rewrite nth_error_map in Ha, Hb.
    destruct (nth_error (collectHeights inventory mhr) i) as [[ka va]|] eqn:Ei;
      [|discriminate].
    destruct (nth_error (collectHeights inventory mhr) j) as [[kb vb]|] eqn:Ej;
      [|discriminate].
    cbn in Ha, Hb. injection Ha as <-. injection Hb as <-.
    apply (Hkeys i j _ _ Hij Ei Ej). cbn [fst].
    apply nth_error_In in Ei, Ej.
    apply Hentries in Ei, Ej. destruct Ei as [Ei _], Ej as [Ej _].
    rewrite Ei, Ej. exact E.
  - intros item o Hitem Hr Ho He.
    specialize (Hcov item o Hitem Hr Ho He).
    apply Map_has_Qeq in Hcov. destruct Hcov as (k & v & Hin & Hk).
    exists v.
    assert (Hnear : Qabs (OrientationOption.height o - v) <= HEIGHT_TOLERANCE).
    { apply normalizeHeight_same_key.
      apply Hentries in Hin. destruct Hin as [Hin _].
      rewrite <- Hk. exact Hin. }
    split; [apply in_map_iff; exists (k, v); split; [reflexivity | exact Hin]|].
    split; [exact Hnear|].
    assert (Hin' : In o (filter
                           (fun option =>
                              Qleb (Math_abs (OrientationOption.height option - v))
                                HEIGHT_TOLERANCE)
                           (PackingItem.orientations item))).
    { apply filter_In. split; [exact Ho|]. apply Qleb_true. exact Hnear. }
    unfold toQueueItem.
    destruct (filter
                (fun option =>
                   Qleb (Math_abs (OrientationOption.height option - v))
                     HEIGHT_TOLERANCE)
                (PackingItem.orientations item)) as [|first others];
      [destruct Hin' | discriminate].
Qed.

(** ** The occupancy grid *)

Lemma for_first_first {A : Type} (n : nat) (body : Z -> result (option A))
    (a : A) :
  forall x,
    for_first n x body = Ok (Some a) ->
    exists k,
      (k < n)%nat
      /\ body (x + Z.of_nat k)%Z = Ok (Some a)
      /\ forall j, (j < k)%nat -> body (x + Z.of_nat j)%Z = Ok None.
Proof.
  induction n as [|n IH]; intros x H; cbn [for_first] in H; [discriminate|].
  inv_bind H. destruct r as [a'|].
  - apply Ok_inj in H. injection H as <-. exists 0%nat.
    split; [lia|]. split; [rewrite Z.add_0_r; exact E | intros j Hj; lia].
  - destruct (IH _ H) as (k & Hk & Hbody & Hbefore). exists (S k).
    split; [lia|]. split.
    + replace (x + Z.of_nat (S k))%Z with (x + 1 + Z.of_nat k)%Z by lia.
      exact Hbody.
    + intros [|j] Hj.
      * rewrite Z.add_0_r. exact E.
      * replace (x + Z.of_nat (S j))%Z with (x + 1 + Z.of_nat j)%Z by lia.
        apply Hbefore. lia.
Qed.

Lemma for_first_None {A : Type} (n : nat) (body : Z -> result (option A)) :
  forall x,
    for_first n x body = Ok None ->
    forall j, (j < n)%nat -> body (x + Z.of_nat j)%Z = Ok None.
Proof.
  induction n as [|n IH]; intros x H j Hj; [lia|].
  cbn [for_first] in H. inv_bind H. destruct r as [a'|]; [discriminate|].
  destruct j as [|j].
  - rewrite Z.add_0_r. exact E.
  - replace (x + Z.of_nat (S j))%Z with (x + 1 + Z.of_nat j)%Z by lia.
    apply (IH _ H). lia.
Qed.

Lemma iterations_reach (bound : Q) (x : Z) :
  (0 <= x)%Z -> inject_Z x <= bound -> (Z.to_nat x < iterations bound)%nat.
Proof.
  intros Hx Hle. unfold iterations.
  destruct (Qltb bound 0) eqn:E; qprop.
  - assert (H0 : inject_Z 0 <= inject_Z x) by (rewrite <- Zle_Qle; exact Hx).
    change (inject_Z 0) with 0 in H0. lra.
  - apply Zle_Qfloor in Hle. lia.
Qed.

(** The body of the inner loop of [findPosition] answers nothing exactly
    when the position is not free. *)
Lemma findPosition_body_None (grid : list (list bool)) (x y : Z)
    (length width : Q) :
  (free <- canPlaceAt grid x y length width ;;
   Ok (if free then Some (Position.mk x y) else None))
  = Ok None ->
  canPlaceAt grid x y length width = Ok false.
Proof.
  intro H. inv_bind H. destruct r; [discriminate | exact E].
Qed.

(** X10. [findPosition] is a first fit in scan order.  The positions it
    scans are the integer points [(x, y)] at which the item lies within the
    footprint; when it answers a position, the position is free and every
    position scanned before it, column after column along [x] and along [y]
    within a column, is occupied; when it answers none, every such position
    is occupied. *)
Theorem findPosition_is_a_first_fit :
  forall (self : PalletOptimizer) (grid : list (list bool)) (length width : Q),
    match findPosition self grid length width with
    | Ok (Some position) =>
        canPlaceAt grid (Position.x position) (Position.y position) length width
        = Ok true
        /\ forall x y : Z,
             (0 <= x)%Z -> (0 <= y)%Z ->
             inject_Z x + length
             <= PalletSize.length (PalletOptimizer.palletSize self) ->
             inject_Z y + width
             <= PalletSize.width (PalletOptimizer.palletSize self) ->
             (x < Position.x position
              \/ (x = Position.x position /\ y < Position.y position))%Z ->
             canPlaceAt grid x y length width = Ok false
    | Ok None =>
        forall x y : Z,
          (0 <= x)%Z -> (0 <= y)%Z ->
          inject_Z x + length
          <= PalletSize.length (PalletOptimizer.palletSize self) ->
          inject_Z y + width
          <= PalletSize.width (PalletOptimizer.palletSize self) ->
          canPlaceAt grid x y length width = Ok false
    | Throw _ | OutOfFuel => True
    end.
Proof.
  intros self grid length width.
  destruct (findPosition self grid length width) as [[position|] | |] eqn:H;
    [| |exact I|exact I]; unfold findPosition in H.
  - destruct (_ || _); [discriminate|].
    apply for_first_first in H. destruct H as (kx & Hkx & H & Hbefore).
    apply for_first_first in H. destruct H as (ky & Hky & H & Hrow).
    inv_bind H. destruct r; [|discriminate].
    apply Ok_inj in H. injection H as <-. cbn [Position.x Position.y].
    rewrite !Z.add_0_l in *. split; [exact E|].
    intros x y Hx Hy HxL HyW Hlex.
    destruct Hlex as [Hlt | [-> Hlt]].
    + specialize (Hbefore (Z.to_nat x)). rewrite Z.add_0_l in Hbefore.
      rewrite Z2Nat.id in Hbefore by exact Hx.
      assert (Hnone := Hbefore ltac:(lia)).
      apply (for_first_None _ _ 0%Z) with (j := Z.to_nat y) in Hnone.
      * rewrite Z.add_0_l, Z2Nat.id in Hnone by exact Hy.
        apply findPosition_body_None. exact Hnone.
      * apply iterations_reach; [exact Hy | lra].
    + specialize (Hrow (Z.to_nat y)). rewrite Z.add_0_l in Hrow.
      rewrite Z2Nat.id in Hrow by exact Hy.
      apply findPosition_body_None. apply Hrow. lia.
  - intros x y Hx Hy HxL HyW.
    assert (H0x : inject_Z 0 <= inject_Z x) by (rewrite <- Zle_Qle; exact Hx).
    assert (H0y : inject_Z 0 <= inject_Z y) by (rewrite <- Zle_Qle; exact Hy).
    change (inject_Z 0) with 0 in H0x, H0y.
    destruct (_ || _) eqn:Eover.
    + exfalso. apply orb_true_iff in Eover. unfold EPSILON in Eover.
      destruct Eover as [Eover | Eover]; qprop; lra.
    + apply (for_first_None _ _ 0%Z) with (j := Z.to_nat x) in H.
      * rewrite Z.add_0_l, Z2Nat.id in H by exact Hx.
        apply (for_first_None _ _ 0%Z) with (j := Z.to_nat y) in H.
        -- rewrite Z.add_0_l, Z2Nat.id in H by exact Hy.
           apply findPosition_body_None. exact H.
        -- apply iterations_reach; [exact Hy | lra].
      * apply iterations_reach; [exact Hx | lra].
Qed.

(** X11. [findPlacementForOptions] uses the first option of the list that
    finds a position, and [findBestPosition] turns the item by a quarter
    only when it finds no position for it as it is: every option before the
    one answered has a position in neither direction, and a rotated answer
    means that the option itself has no position unrotated. *)
Theorem findPlacementForOptions_takes_the_first_fit :
  forall (self : PalletOptimizer) (grid : list (list bool))
         (options : list OrientationOption) (option : OrientationOption)
         (position : Position) (rotated : bool),
    findPlacementForOptions self grid options
    = Ok (Some (option, (position, rotated))) ->
    exists before after,
      options = before ++ option :: after
      /\ (forall o, In o before ->
            findPosition self grid (OrientationOption.length o)
              (OrientationOption.width o) = Ok None
            /\ findPosition self grid (OrientationOption.width o)
                 (OrientationOption.length o) = Ok None)
      /\ (if rotated then
            findPosition self grid (OrientationOption.length option)
              (OrientationOption.width option) = Ok None
            /\ findPosition self grid (OrientationOption.width option)
                 (OrientationOption.length option) = Ok (Some position)
          else
            findPosition self grid (OrientationOption.length option)
              (OrientationOption.width option) = Ok (Some position)).
Proof.
  intros self grid options option position rotated.
  induction options as [|o options IH]; cbn [findPlacementForOptions];
    [discriminate|].
  intro H. inv_bind H. destruct r as [[pos rot]|].
  - apply Ok_inj in H. injection H as <- <- <-.
    exists [], options. split; [reflexivity|]. split; [intros o' []|].
    unfold findBestPosition in E. inv_bind E. destruct r as [pos'|].
    + apply Ok_inj in E. injection E as <- <-. exact E0.
    + inv_bind E. destruct r as [pos'|]; [|discriminate].
      apply Ok_inj in E. injection E as <- <-. split; assumption.
  - destruct (IH H) as (before & after & -> & Hbefore & Hhere).
    exists (o :: before), after. split; [reflexivity|].
    split; [|exact Hhere].
    intros o' [<- | Ho']; [|apply Hbefore; exact Ho'].
    unfold findBestPosition in E. inv_bind E. destruct r as [pos'|];
      [discriminate|].
    inv_bind E. destruct r as [pos'|]; [discriminate|].
    split; assumption.
Qed.

Lemma findPlacementForOptions_takes_the_first_fit_witness :
  findPlacementForOptions Ex.small
    (repeat (repeat false 4) 4)
    [OrientationOption.mk 5 3 1 15; OrientationOption.mk 3 3 1 9]
  = Ok (Some (OrientationOption.mk 3 3 1 9, (Position.mk 0 0, false)))
  /\ exists before after,
       [OrientationOption.mk 5 3 1 15; OrientationOption.mk 3 3 1 9]
       = before ++ OrientationOption.mk 3 3 1 9 :: after
       /\ (forall o, In o before ->
             findPosition Ex.small (repeat (repeat false 4) 4)
               (OrientationOption.length o) (OrientationOption.width o)
             = Ok None
             /\ findPosition Ex.small (repeat (repeat false 4) 4)
                  (OrientationOption.width o) (OrientationOption.length o)
                = Ok None)
       /\ findPosition Ex.small (repeat (repeat false 4) 4)
            (OrientationOption.length (OrientationOption.mk 3 3 1 9))
            (OrientationOption.width (OrientationOption.mk 3 3 1 9))
          = Ok (Some (Position.mk 0 0)).
Proof.
  split; [vm_compute; reflexivity|].
  apply (findPlacementForOptions_takes_the_first_fit Ex.small
           (repeat (repeat false 4) 4)
           [OrientationOption.mk 5 3 1 15; OrientationOption.mk 3 3 1 9]
           (OrientationOption.mk 3 3 1 9) (Position.mk 0 0) false).
  vm_compute. reflexivity.
Defined.

Lemma existsb_false {A : Type} (f : A -> bool) (l : list A) :
  existsb f l = false <-> forall a, In a l -> f a = false.
Proof.
  induction l as [|a l IH]; cbn [existsb].
  - split; [intros _ a [] | reflexivity].
  - rewrite orb_false_iff, IH. split.
    + intros [Ha Hl] b [<- | Hb]; [exact Ha | apply Hl; exact Hb].
    + intro H. split; [apply H; left; reflexivity|].
      intros b Hb. apply H. right. exact Hb.
Qed.

(** [canPlaceAt] on a grid with at least one row, as a statement on the
    cells. *)
Lemma canPlaceAt_cells (grid : list (list bool)) (x y : Z) (length width : Q)
    (free : bool) :
  grid <> [] ->
  (canPlaceAt grid x y length width = Ok free
   <-> (free = true
        <-> forall i j,
              (x <= i < Z.min (Qceiling (inject_Z x + length))
                          (Z.of_nat (List.length grid)))%Z ->
              (y <= j < Z.min (Qceiling (inject_Z y + width))
                          (Z.of_nat (List.length (hd [] grid))))%Z ->
              grid_get grid i j = false)).
Proof.
  intro Hne. unfold canPlaceAt. destruct grid as [|row0 rest]; [congruence|].
  set (grid := row0 :: rest). cbn [hd].
  unfold Math_floor, Math_ceil. rewrite !Qfloor_Z.
  set (cells :=
         existsb
           (fun i =>
              existsb (fun j => grid_get grid i j)
                (range y
                   (Z.min (Qceiling (inject_Z y + width))
                      (Z.of_nat (List.length row0)))))
           (range x
              (Z.min (Qceiling (inject_Z x + length))
                 (Z.of_nat (List.length grid))))).
  assert (Hcells :
            cells = false
            <-> forall i j,
                  (x <= i < Z.min (Qceiling (inject_Z x + length))
                              (Z.of_nat (List.length grid)))%Z ->
                  (y <= j < Z.min (Qceiling (inject_Z y + width))
                              (Z.of_nat (List.length row0)))%Z ->
                  grid_get grid i j = false).
  { unfold cells. rewrite existsb_false. split.
    - intros H i j Hi Hj. apply range_In in Hi. specialize (H i Hi).
      rewrite existsb_false in H. apply H. apply range_In. exact Hj.
    - intros H i Hi. apply existsb_false. intros j Hj.
      apply range_In in Hi, Hj. apply H; assumption. }
  split.
  - intro H. apply Ok_inj in H. subst free. rewrite negb_true_iff. exact Hcells.
  - intro H. f_equal. destruct free.
    + apply negb_true_iff. apply Hcells. apply H. reflexivity.
    + apply negb_false_iff. destruct cells; [reflexivity|].
      assert (Ht : false = true) by (apply H; apply Hcells; reflexivity).
      discriminate Ht.
Qed.

(** X12. Marking and testing agree on a grid of [rows] rows of [columns]
    cells.  Once an item of positive sides has been marked at a position of
    the grid, [canPlaceAt] refuses the item at that position; marking keeps
    the size of the grid and frees nothing, so a placement that the marked
    grid allows was allowed before. *)
Theorem marked_cells_are_not_free :
  forall (grid grid' : list (list bool)) (rows columns : nat) (x y : Z)
         (length width : Q),
    gridDims grid rows columns ->
    (0 <= x < Z.of_nat rows)%Z ->
    (0 <= y < Z.of_nat columns)%Z ->
    0 < length ->
    0 < width ->
    markGridOccupied grid x y length width = Ok grid' ->
    gridDims grid' rows columns
    /\ canPlaceAt grid' x y length width = Ok false
    /\ forall (x' y' : Z) (length' width' : Q),
         canPlaceAt grid' x' y' length' width' = Ok true ->
         canPlaceAt grid x' y' length' width' = Ok true.
Proof.
  intros grid grid' rows columns x y length width Hd Hx Hy Hl Hw Hmark.
  destruct (markGridOccupied_Ok grid grid' x y length width rows columns Hmark Hd)
    as (Hd' & Hmono & Hmarked).
  assert (Hrows : forall g, gridDims g rows columns ->
                            g <> [] /\ List.length g = rows
                            /\ List.length (hd [] g) = columns).
  { intros g [Hr Hc]. destruct g as [|row0 rest]; [cbn in Hr; lia|].
    split; [discriminate|]. split; [exact Hr|].
    inversion Hc; subst. reflexivity. }
  destruct (Hrows grid Hd) as (Hne & Hr & Hc).
  destruct (Hrows grid' Hd') as (Hne' & Hr' & Hc').
  split; [exact Hd'|]. split.
  - apply (canPlaceAt_cells grid' x y length width false Hne').
    split; [discriminate|]. intro Hfree. exfalso.
    assert (Hxc : (x < Qceiling (inject_Z x + length))%Z).
    { rewrite Zlt_Qlt. pose proof (Qle_ceiling (inject_Z x + length)). lra. }
    assert (Hyc : (y < Qceiling (inject_Z y + width))%Z).
    { rewrite Zlt_Qlt. pose proof (Qle_ceiling (inject_Z y + width)). lra. }
    assert (E1 : grid_get grid' x y = false).
    { apply Hfree; [rewrite Hr' | rewrite Hc']; lia. }
    assert (E2 : grid_get grid' x y = true).
    { apply Hmarked; lia. }
    congruence.
  - intros x' y' length' width' Hfree.
    apply (canPlaceAt_cells grid' x' y' length' width' true Hne') in Hfree.
    apply (canPlaceAt_cells grid x' y' length' width' true Hne).
    split; [|reflexivity]. intros _ i j Hi Hj.
    destruct (grid_get grid i j) eqn:E; [|reflexivity].
    apply Hmono in E. rewrite <- E.
    destruct Hfree as [Hfree _]. apply (Hfree eq_refl).
    + rewrite Hr', <- Hr. exact Hi.
    + rewrite Hc', <- Hc. exact Hj.
Qed.

Lemma marked_cells_are_not_free_witness :
  gridDims (repeat (repeat false 4) 4) 4 4
  /\ markGridOccupied (repeat (repeat false 4) 4) 1 2 (3 # 2) 2
     = Ok [[false; false; false; false]; [false; false; true; true];
           [false; false; true; true]; [false; false; false; false]]
  /\ canPlaceAt
       [[false; false; false; false]; [false; false; true; true];
        [false; false; true; true]; [false; false; false; false]]
       1 2 (3 # 2) 2
     = Ok false.
Proof.
  assert (Hd : gridDims (repeat (repeat false 4) 4) 4 4).
  { split; [reflexivity|]. repeat constructor. }
  split; [exact Hd|]. split; [vm_compute; reflexivity|].
  apply (marked_cells_are_not_free (repeat (repeat false 4) 4)
           [[false; false; false; false]; [false; false; true; true];
            [false; false; true; true]; [false; false; false; false]]
           4 4 1 2 (3 # 2) 2 Hd).
  - lia.
  - lia.
  - reflexivity.
  - reflexivity.
  - vm_compute. reflexivity.
Defined.

(** ** The first item of a layer *)

Lemma grid_get_fresh (rows columns : nat) (i j : Z) :
  grid_get (repeat (repeat false columns) rows) i j = false.
Proof.
  unfold grid_get.
  destruct (Nat.lt_ge_cases (Z.to_nat i) rows) as [Hlt | Hge].
  - rewrite nth_indep with (d' := repeat false columns)
      by (rewrite repeat_length; exact Hlt).
    rewrite nth_repeat. apply nth_repeat.
  - rewrite (nth_overflow (repeat (repeat false columns) rows))
      by (rewrite repeat_length; exact Hge).
    destruct (Z.to_nat j); reflexivity.
Qed.

Lemma createGrid_fresh (self : PalletOptimizer) (grid : list (list bool)) :
  createGrid self = Ok grid ->
  exists rows columns, grid = repeat (repeat false columns) rows.
Proof.
  unfold createGrid. destruct (_ <=? 0)%Z.
  - intro H. apply Ok_inj in H. subst grid. exists 0%nat, 0%nat. reflexivity.
  - destruct (4294967295 <? _)%Z; [discriminate|].
    destruct (_ || _); [discriminate|]. intro H. apply Ok_inj in H.
    subst grid. eexists. eexists. reflexivity.
Qed.

Lemma canPlaceAt_fresh (rows columns : nat) (x y : Z) (length width : Q)
    (free : bool) :
  canPlaceAt (repeat (repeat false columns) rows) x y length width = Ok free ->
  free = true.
Proof.
  intro H.
  assert (Hne : repeat (repeat false columns) rows <> []).
  { intro E. rewrite E in H. discriminate H. }
  apply (canPlaceAt_cells _ x y length width free Hne) in H.
  apply H. intros i j _ _. apply grid_get_fresh.
Qed.

Lemma for_first_nothing {A : Type} (n : nat) :
  forall x, for_first n x (fun _ : Z => @Ok (option A) None) = Ok None.
Proof.
  induction n as [|n IH]; intro x; cbn [for_first bind]; [reflexivity|].
  apply IH.
Qed.

(** On a grid without an occupied cell the first position scanned is
    answered. *)
Lemma findPosition_fresh (self : PalletOptimizer) (rows columns : nat)
    (length width : Q) (position : Position) :
  findPosition self (repeat (repeat false columns) rows) length width
  = Ok (Some position) ->
  position = Position.mk 0 0.
Proof.
  intro H. unfold findPosition in H. destruct (_ || _); [discriminate|].
  apply for_first_first in H. destruct H as (kx & _ & H & Hbefore).
  apply for_first_first in H. destruct H as (ky & Hky & H & Hrow).
  rewrite !Z.add_0_l in *.
  inv_bind H. destruct r; [|discriminate]. apply Ok_inj in H.
  injection H as <-.
  assert (Hy : ky = 0%nat).
  { destruct ky as [|ky]; [reflexivity|]. exfalso.
    specialize (Hrow 0%nat ltac:(lia)). rewrite Z.add_0_l in Hrow.
    inv_bind Hrow. apply canPlaceAt_fresh in E0. subst r. discriminate Hrow. }
  subst ky.
  assert (Hx : kx = 0%nat).
  { destruct kx as [|kx]; [reflexivity|]. exfalso.
    specialize (Hbefore 0%nat ltac:(lia)). rewrite Z.add_0_l in Hbefore.
    apply (for_first_None _ _ 0%Z) with (j := 0%nat) in Hbefore; [|exact Hky].
    inv_bind Hbefore. apply canPlaceAt_fresh in E0. subst r.
    discriminate Hbefore. }
  subst kx. reflexivity.
Qed.

(** X13. The first item of every layer sits in the corner of the pallet: it
    is placed on a grid without an occupied cell, where the scan of
    [findPosition] stops at its first position, [(0, 0)]. *)
Theorem first_item_sits_in_the_corner :
  forall (self : PalletOptimizer) (fuel : nat) (items : list OrderItem)
         (pallets : list Pallet) (pallet : Pallet) (layer : Layer),
    optimize self fuel items = Ok pallets ->
    In pallet pallets ->
    In layer (Pallet.layers pallet) ->
    exists first others,
      Layer.items layer = first :: others
      /\ PlacedItem.x first = 0%Z
      /\ PlacedItem.y first = 0%Z.
Proof.
  intros self fuel items pallets pallet layer H Hpallet Hlayer.
  apply (optimize_layers self
           (fun l => exists first others,
                Layer.items l = first :: others
                /\ PlacedItem.x first = 0%Z /\ PlacedItem.y first = 0%Z))
    with (fuel := fuel) (items := items) (pallets := pallets)
         (pallet := pallet);
    [|exact H | exact Hpallet | exact Hlayer].
  clear. intros inventory layerHeight mhr mwrb c _ Hpack.
  apply packLayerForHeight_Some in Hpack.
  destruct Hpack as (grid & st & Hgrid & Hrun & Hne & -> & _).
  cbn [Layer.items].
  apply createGrid_fresh in Hgrid. destruct Hgrid as (rows & columns & ->).
  assert (Hinv :
            (LayerState.placedItems st = []
             /\ LayerState.grid st = repeat (repeat false columns) rows)
            \/ exists first others,
                 LayerState.placedItems st = first :: others
                 /\ PlacedItem.x first = 0%Z /\ PlacedItem.y first = 0%Z).
  { refine (packQueue_invariant self mwrb
              (fun s =>
                 (LayerState.placedItems s = []
                  /\ LayerState.grid s = repeat (repeat false columns) rows)
                 \/ exists first others,
                      LayerState.placedItems s = first :: others
                      /\ PlacedItem.x first = 0%Z /\ PlacedItem.y first = 0%Z)
              _ _ _ _ Hrun _).
    - intros candidate s s' _ Hs (_ & _ & option & position & _ & Hfind & Hplace).
      right. apply placeUnit_Ok in Hplace. cbn zeta in Hplace.
      destruct Hplace as (_ & Ep & _). rewrite Ep.
      destruct Hs as [[Enil Egrid] | (first & others & Es & Hx & Hy)].
      + rewrite Enil. cbn [app]. eexists. exists []. split; [reflexivity|].
        cbn [PlacedItem.x PlacedItem.y].
        apply findBestPosition_Some in Hfind. rewrite Egrid in Hfind.
        apply findPosition_fresh in Hfind. rewrite Hfind. split; reflexivity.
      + rewrite Es. cbn [app]. exists first. eexists.
        split; [reflexivity|]. split; assumption.
    - left. split; reflexivity. }
  destruct Hinv as [[Enil _] | Hfirst]; [congruence | exact Hfirst].
Qed.

Lemma first_item_sits_in_the_corner_witness :
  exists first others,
    Layer.items Ex.firstLayer = first :: others
    /\ PlacedItem.x first = 0%Z
    /\ PlacedItem.y first = 0%Z.
Proof.
  apply (first_item_sits_in_the_corner Ex.small 3 Ex.order Ex.packed
           Ex.firstPallet Ex.firstLayer).
  - vm_compute. reflexivity.
  - left. reflexivity.
  - left. reflexivity.
Defined.

(** * The first version of the optimizer *)

(** ** The search for a position *)

Lemma findPosition_sizes (current : PalletOptimizer)
    (self : Legacy.PalletOptimizer) (grid : list (list bool))
    (length width : Q) :
  PalletOptimizer.palletSize current = Legacy.PalletOptimizer.palletSize self ->
  findPosition current grid length width
  = Legacy.findPosition self grid length width.
Proof.
  intros Hsize.
  unfold findPosition, Legacy.findPosition. rewrite Hsize.
  set (L := PalletSize.length (Legacy.PalletOptimizer.palletSize self)).
  set (W := PalletSize.width (Legacy.PalletOptimizer.palletSize self)).
  destruct (Qgtb length (L + EPSILON) || Qgtb width (W + EPSILON)) eqn:E1.
  - assert (E2 : Qgtb length L || Qgtb width W = true).
    { apply orb_true_iff in E1. apply orb_true_iff. unfold EPSILON in E1.
      destruct E1 as [E1 | E1]; [left | right]; qprop; apply Qgtb_true; lra. }
    rewrite E2. reflexivity.
  - destruct (Qgtb length L || Qgtb width W) eqn:E2; [|reflexivity].
    apply orb_true_iff in E2. destruct E2 as [E2 | E2]; qprop.
    + assert (Ei : iterations (L - length) = 0%nat).
      { unfold iterations.
        destruct (Qltb (L - length) 0) eqn:E; [reflexivity | qprop; lra]. }
      rewrite Ei. reflexivity.
    + assert (Ei : iterations (W - width) = 0%nat).
      { unfold iterations.
        destruct (Qltb (W - width) 0) eqn:E; [reflexivity | qprop; lra]. }
      rewrite Ei. cbn [for_first]. apply for_first_nothing.
Qed.

(** X14. The tolerance in the guard of the rewritten [findPosition] admits
    no position: a side that exceeds the footprint by [EPSILON] or less
    passes the guard, but then the scan has no position to try, so that the
    function answers what the first version answers, whose guard has no
    tolerance. *)
Theorem findPosition_tolerance_is_idle :
  forall (current : PalletOptimizer) (self : Legacy.PalletOptimizer)
         (grid : list (list bool)) (length width : Q),
    PalletOptimizer.palletSize current = Legacy.PalletOptimizer.palletSize self ->
    findPosition current grid length width
    = Legacy.findPosition self grid length width.
Proof.
  intros current self grid length width Hsize.
  apply findPosition_sizes. exact Hsize.
Qed.

Lemma findPosition_tolerance_is_idle_witness :
  PalletOptimizer.palletSize Ex.small
  = Legacy.PalletOptimizer.palletSize
      (Legacy.new_PalletOptimizer (PalletSize.mk 4 4) 10 100)
  /\ findPosition Ex.small (repeat (repeat false 4) 4) (4000001 # 1000000) 2
     = Legacy.findPosition
         (Legacy.new_PalletOptimizer (PalletSize.mk 4 4) 10 100)
         (repeat (repeat false 4) 4) (4000001 # 1000000) 2.
Proof.
  split; [reflexivity|].
  apply (findPosition_tolerance_is_idle Ex.small
           (Legacy.new_PalletOptimizer (PalletSize.mk 4 4) 10 100)).
  reflexivity.
Defined.

Lemma legacy_findPosition_rewritten (self : Legacy.PalletOptimizer)
    (grid : list (list bool)) (length width : Q) :
  Legacy.findPosition self grid length width
  = findPosition (rewritten self) grid length width.
Proof. symmetry. apply findPosition_sizes. reflexivity. Qed.

Lemma legacy_findBestPosition_rewritten (self : Legacy.PalletOptimizer)
    (grid : list (list bool)) (length width : Q) :
  Legacy.findBestPosition self grid length width
  = findBestPosition (rewritten self) grid length width.
Proof.
  unfold Legacy.findBestPosition, findBestPosition.
  rewrite !legacy_findPosition_rewritten. reflexivity.
Qed.

(** ** The loops of the first version *)

Lemma for_each_invariant {A S : Type} (body : A -> S -> result S)
    (I : S -> Prop) (l : list A) :
  (forall a s s', In a l -> I s -> body a s = Ok s' -> I s') ->
  forall s s', for_each l body s = Ok s' -> I s -> I s'.
Proof.
  induction l as [|a l IH]; intros Hstep s s' H Hs; cbn [for_each] in H.
  - apply Ok_inj in H. subst s'. exact Hs.
  - inv_bind H. apply (IH (fun b t t' Hb => Hstep b t t' (or_intror Hb)) r s' H).
    apply (Hstep a s r); [left; reflexivity | exact Hs | exact E].
Qed.

Lemma legacy_packItem_invariant (self : Legacy.PalletOptimizer)
    (item : OrderItem) (I : Legacy.LayerState -> Prop) :
  (forall st st', I st -> legacyItemPlaced self None item st st' -> I st') ->
  forall n st st', Legacy.packItem self n item st = Ok st' -> I st -> I st'.
Proof.
  intros Hstep. induction n as [|n IH]; intros st st' H Hst;
    cbn [Legacy.packItem] in H.
  - apply Ok_inj in H. subst st'. exact Hst.
  - inv_bind H. destruct r as [position|].
    + inv_bind H. apply (IH r st' H). apply (Hstep st r Hst).
      split; [constructor|]. exists position. split; assumption.
    + apply Ok_inj in H. subst st'. exact Hst.
Qed.

Lemma legacy_packItemWithWeightLimit_invariant (self : Legacy.PalletOptimizer)
    (item : OrderItem) (maxWeight : Q) (I : Legacy.LayerState -> Prop) :
  (forall st st',
      I st -> legacyItemPlaced self (Some maxWeight) item st st' -> I st') ->
  forall n st st',
    Legacy.packItemWithWeightLimit self n item maxWeight st = Ok st' ->
    I st -> I st'.
Proof.
  intros Hstep. induction n as [|n IH]; intros st st' H Hst;
    cbn [Legacy.packItemWithWeightLimit] in H.
  - apply Ok_inj in H. subst st'. exact Hst.
  - destruct (Qgtb _ maxWeight) eqn:Ew; qprop.
    + apply Ok_inj in H. subst st'. exact Hst.
    + inv_bind H. destruct r as [position|].
      * inv_bind H. apply (IH r st' H). apply (Hstep st r Hst).
        split; [exact Ew|]. exists position. split; assumption.
      * apply Ok_inj in H. subst st'. exact Hst.
Qed.

(** A layer of the first version is what the placements leave, one unit of
    a line of the group after the other, from an empty grid. *)
Lemma legacy_layer_invariant (self : Legacy.PalletOptimizer)
    (limit : option Q) (items : list OrderItem) (layerHeight : Q)
    (I : Legacy.LayerState -> Prop) (layer : Layer) :
  (forall grid, Legacy.newGrid self = Ok grid ->
                I (Legacy.LayerState.mk grid [] 0)) ->
  (forall item st st',
      In item items -> I st -> legacyItemPlaced self limit item st st' ->
      I st') ->
  legacyLayerOf self limit items layerHeight = Ok layer ->
  exists st,
    I st
    /\ layer
       = Layer.mk (Legacy.LayerState.placedItems st) layerHeight
           (Legacy.LayerState.totalWeight st).
Proof.
  intros Hinit Hstep H.
  destruct limit as [maxWeight|]; cbn [legacyLayerOf] in H.
  - unfold Legacy.packLayerWithWeightLimit in H. inv_bind H. inv_bind H.
    apply Ok_inj in H. subst layer. exists r0. split; [|reflexivity].
    refine (for_each_invariant _ I _ _ _ _ E0 (Hinit r E)).
    intros item s s' Hitem Hs Hpack. unfold Legacy.sortByArea in Hitem.
    apply Array_sort_In in Hitem.
    refine (legacy_packItemWithWeightLimit_invariant self item maxWeight I
              _ _ _ _ Hpack Hs).
    intros t t' Ht Hplaced. apply (Hstep item t t' Hitem Ht Hplaced).
  - unfold Legacy.packLayer in H. inv_bind H. inv_bind H.
    apply Ok_inj in H. subst layer. exists r0. split; [|reflexivity].
    refine (for_each_invariant _ I _ _ _ _ E0 (Hinit r E)).
    intros item s s' Hitem Hs Hpack. unfold Legacy.sortByArea in Hitem.
    apply Array_sort_In in Hitem.
    refine (legacy_packItem_invariant self item I _ _ _ _ Hpack Hs).
    intros t t' Ht Hplaced. apply (Hstep item t t' Hitem Ht Hplaced).
Qed.

Lemma legacy_layer_height (self : Legacy.PalletOptimizer) (limit : option Q)
    (items : list OrderItem) (layerHeight : Q) (layer : Layer) :
  legacyLayerOf self limit items layerHeight = Ok layer ->
  Layer.height layer = layerHeight.
Proof.
  intro H.
  destruct (legacy_layer_invariant self limit items layerHeight
              (fun _ => True) layer) as (st & _ & ->); auto.
Qed.

Lemma legacy_placeItem_Ok (item : OrderItem) (position : Position * bool)
    (st st' : Legacy.LayerState) :
  Legacy.placeItem item position st = Ok st' ->
  let placed :=
    PlacedItem.mk (OrderItem.sku item) 1 (Position.x (fst position))
      (Position.y (fst position))
      (if snd position then SKU.length (OrderItem.sku item)
       else SKU.width (OrderItem.sku item))
      (if snd position then SKU.width (OrderItem.sku item)
       else SKU.length (OrderItem.sku item))
      (snd position) in
  markGridOccupied (Legacy.LayerState.grid st) (PlacedItem.x placed)
    (PlacedItem.y placed) (PlacedItem.length placed) (PlacedItem.width placed)
  = Ok (Legacy.LayerState.grid st')
  /\ Legacy.LayerState.placedItems st'
     = Legacy.LayerState.placedItems st ++ [placed]
  /\ Legacy.LayerState.totalWeight st'
     = Legacy.LayerState.totalWeight st + SKU.weight (OrderItem.sku item).
Proof.
  unfold Legacy.placeItem. intro H. inv_bind H. apply Ok_inj in H. subst st'.
  cbn. repeat split. exact E.
Qed.

(** The loop over the height groups keeps an invariant that may mention the
    groups still to come. *)
Lemma legacy_packGroups_invariant (self : Legacy.PalletOptimizer)
    (I : list (Q * list OrderItem) -> Legacy.PalletState -> Prop) :
  (forall group rest st, I (group :: rest) st -> I rest st) ->
  (forall group rest st limit layer,
      I (group :: rest) st ->
      Legacy.PalletState.currentHeight st + fst group
      <= Legacy.PalletOptimizer.maxHeight self ->
      legacyLayerOf self limit (snd group) (fst group) = Ok layer ->
      Layer.items layer <> [] ->
      match limit with
      | None =>
          Legacy.PalletState.currentWeight st + Layer.weight layer
          <= Legacy.PalletOptimizer.maxWeight self
      | Some maxWeight =>
          maxWeight
          = Legacy.PalletOptimizer.maxWeight self
            - Legacy.PalletState.currentWeight st
      end ->
      I rest (Legacy.addLayer st layer (fst group))) ->
  forall groups st st',
    Legacy.packGroups self groups st = Ok st' ->
    I groups st ->
    exists rest, I rest st'.
Proof.
  intros Hdrop Hadd.
  induction groups as [|group groups IH]; intros st st' H Hst;
    cbn [Legacy.packGroups] in H.
  - apply Ok_inj in H. subst st'. exists []. exact Hst.
  - destruct (List.length (snd group) =? 0)%nat.
    { apply (IH st st' H). apply (Hdrop group). exact Hst. }
    destruct (Qgtb _ (Legacy.PalletOptimizer.maxHeight self)) eqn:Eh; qprop.
    { apply Ok_inj in H. subst st'. exists (group :: groups). exact Hst. }
    inv_bind H. rename r into layer.
    destruct (List.length (Layer.items layer) =? 0)%nat eqn:El.
    { apply (IH st st' H). apply (Hdrop group). exact Hst. }
    apply length_eqb_0_false in El.
    destruct (Qgtb _ (Legacy.PalletOptimizer.maxWeight self)) eqn:Ew; qprop.
    + inv_bind H. rename r into reduced.
      destruct (List.length (Layer.items reduced) =? 0)%nat eqn:Er.
      { apply Ok_inj in H. subst st'. exists (group :: groups). exact Hst. }
      apply length_eqb_0_false in Er. apply Ok_inj in H. subst st'.
      exists groups.
      apply (Hadd group groups st
               (Some (Legacy.PalletOptimizer.maxWeight self
                      - Legacy.PalletState.currentWeight st)) reduced);
        [exact Hst | exact Eh | exact E0 | exact Er | reflexivity].
    + apply (IH _ st' H).
      apply (Hadd group groups st None layer);
        [exact Hst | exact Eh | exact E | exact El | exact Ew].
Qed.

(** ** Sorting by a key *)

Section SortByKey.
Context {A : Type} (key : A -> Q).

Lemma precedes_key (x y : A) :
  precedes (fun a b => Finite (key b - key a)) x y = true <-> key y <= key x.
Proof.
  unfold precedes. cbn [js_gtb]. rewrite negb_true_iff, Qgtb_false.
  split; intro H; lra.
Qed.

Lemma insert_sorted_descending (x : A) (l : list A) :
  StronglySorted (fun a b => key b <= key a) l ->
  StronglySorted (fun a b => key b <= key a)
    (insert_sorted (fun a b => Finite (key b - key a)) x l).
Proof.
  intro Hl. induction Hl as [|y l Hl IH Hy]; cbn [insert_sorted].
  - constructor; constructor.
  - destruct (precedes _ x y) eqn:E.
    + apply precedes_key in E. constructor.
      * constructor; assumption.
      * constructor; [exact E|].
        apply Forall_forall. intros b Hb.
        apply (proj1 (Forall_forall _ _) Hy) in Hb. lra.
    + assert (Hxy : key x <= key y).
      { destruct (Qlt_le_dec (key x) (key y)) as [Hlt | Hle]; [lra|].
        apply precedes_key in Hle. congruence. }
      constructor; [exact IH|].
      apply Forall_forall. intros b Hb.
      apply (Permutation_in _ (insert_sorted_perm _ x l)) in Hb.
      destruct Hb as [<- | Hb]; [exact Hxy|].
      apply (proj1 (Forall_forall _ _) Hy). exact Hb.
Qed.

Lemma Array_sort_descending (l : list A) :
  StronglySorted (fun a b => key b <= key a)
    (Array_sort (fun a b => Finite (key b - key a)) l).
Proof.
  induction l as [|x l IH]; cbn [Array_sort fold_right].
  - constructor.
  - apply insert_sorted_descending. exact IH.
Qed.
End SortByKey.

(** A list sorted from the largest key down whose keys are pairwise
    different goes down strictly. *)
Lemma descending_strictly (keys : list Q) :
  StronglySorted (fun a b => b <= a) keys ->
  SetoidList.NoDupA Qeq keys ->
  StronglySorted (fun a b => b < a) keys.
Proof.
  intro Hs. induction Hs as [|k keys Hs IH Hk]; intro Hnd; [constructor|].
  inversion Hnd as [|k' keys' Hnot Hnd']; subst.
  constructor; [apply IH; exact Hnd'|].
  apply Forall_forall. intros b Hb.
  apply (proj1 (Forall_forall _ _) Hk) in Hb as Hle.
  destruct (Qeq_dec b k) as [Heq | Hne].
  - exfalso. apply Hnot. apply SetoidList.InA_alt. exists b.
    split; [symmetry; exact Heq | exact Hb].
  - apply Qle_lteq in Hle. destruct Hle as [Hlt | Heq]; [exact Hlt | contradiction].
Qed.

Lemma StronglySorted_map {A B : Type} (R : B -> B -> Prop) (f : A -> B)
    (l : list A) :
  StronglySorted (fun a b => R (f a) (f b)) l -> StronglySorted R (map f l).
Proof.
  intro H. induction H as [|a l H IH Ha]; cbn [map]; constructor.
  - exact IH.
  - apply Forall_forall. intros b Hb. apply in_map_iff in Hb.
    destruct Hb as (x & <- & Hx). apply (proj1 (Forall_forall _ _) Ha). exact Hx.
Qed.

(** Dropping an element keeps a list sorted. *)
Lemma StronglySorted_drop {A : Type} (R : A -> A -> Prop) (l1 : list A)
    (x : A) (l2 : list A) :
  StronglySorted R (l1 ++ x :: l2) -> StronglySorted R (l1 ++ l2).
Proof.
  induction l1 as [|a l1 IH]; cbn [app]; intro H.
  - inversion H; assumption.
  - inversion H as [|a' l' Hs Ha]; subst. constructor; [apply IH; exact Hs|].
    apply Forall_forall. intros b Hb.
    apply (proj1 (Forall_forall _ _) Ha).
    apply in_app_or in Hb. apply in_or_app.
    destruct Hb as [Hb | Hb]; [left; exact Hb | right; right; exact Hb].
Qed.

(** ** The height groups *)

Section MapOfHeights.
Context {V : Type}.

Lemma Map_has_keys (m : list (Q * V)) (key : Q) :
  Map_has Qeq_bool m key = true <-> SetoidList.InA Qeq key (map fst m).
Proof.
  unfold Map_has. induction m as [|[k v] m IH]; cbn [Map_get map fst].
  - split; [discriminate | intro H; inversion H].
  - destruct (Qeq_bool k key) eqn:E.
    + split; [|reflexivity]. intros _. constructor.
      symmetry. apply Qeq_bool_iff. exact E.
    + rewrite IH. split.
      * intro H. constructor 2. exact H.
      * intro H. inversion H as [k' l' Hk | k' l' Hl]; subst; [|exact Hl].
        exfalso. assert (Et : Qeq_bool k key = true).
        { apply Qeq_bool_iff. symmetry. exact Hk. }
        congruence.
Qed.

Lemma Map_set_keys_Q (m : list (Q * V)) (key : Q) (v : V) :
  map fst (Map_set Qeq_bool m key v)
  = if Map_has Qeq_bool m key then map fst m else map fst m ++ [key].
Proof.
  unfold Map_has. induction m as [|[k w] m IH]; cbn [Map_set Map_get map fst app];
    [reflexivity|].
  destruct (Qeq_bool k key); cbn [map fst]; [reflexivity|].
  rewrite IH. destruct (Map_get Qeq_bool m key); reflexivity.
Qed.

Lemma Map_set_entries (m : list (Q * V)) (key : Q) (v : V) (k : Q) (w : V) :
  In (k, w) (Map_set Qeq_bool m key v) ->
  In (k, w) m \/ (k == key /\ w = v).
Proof.
  induction m as [|[k' w'] m IH]; cbn [Map_set].
  - intros [H | []]. injection H as <- <-. right. split; reflexivity.
  - destruct (Qeq_bool k' key) eqn:E.
    + intros [H | H].
      * injection H as <- <-. right.
        split; [apply Qeq_bool_iff; exact E | reflexivity].
      * left. right. exact H.
    + intros [H | H].
      * left. left. exact H.
      * destruct (IH H) as [Hin | Hnew]; [left; right; exact Hin | right; exact Hnew].
Qed.

Lemma Map_get_entry (m : list (Q * V)) (key : Q) (v : V) :
  Map_get Qeq_bool m key = Some v -> exists k, In (k, v) m /\ k == key.
Proof.
  induction m as [|[k w] m IH]; cbn [Map_get]; [discriminate|].
  destruct (Qeq_bool k key) eqn:E.
  - intro H. injection H as <-. exists k.
    split; [left; reflexivity | apply Qeq_bool_iff; exact E].
  - intro H. destruct (IH H) as (k' & Hin & Hk). exists k'.
    split; [right; exact Hin | exact Hk].
Qed.

Lemma NoDupA_snoc (keys : list Q) (key : Q) :
  SetoidList.NoDupA Qeq keys -> ~ SetoidList.InA Qeq key keys -> SetoidList.NoDupA Qeq (keys ++ [key]).
Proof.
  intros Hnd Hnot. induction Hnd as [|k keys Hk Hnd IH]; cbn [app].
  - constructor; [intro H; inversion H | constructor].
  - constructor.
    + intro H. apply SetoidList.InA_app in H. destruct H as [H | H]; [contradiction|].
      inversion H as [k' l' Heq | k' l' Hnil]; subst; [|inversion Hnil].
      apply Hnot. constructor. symmetry. exact Heq.
    + apply IH. intro H. apply Hnot. constructor 2. exact H.
Qed.
End MapOfHeights.

(** The groups before they are sorted: one group for every height, each
    made of copies of lines of that height. *)
Lemma groupByHeight_fold (items source : list OrderItem) :
  forall groups : list (Q * list OrderItem),
    (forall item, In item items -> In item source) ->
    SetoidList.NoDupA Qeq (map fst groups) ->
    (forall h group item,
        In (h, group) groups -> In item group ->
        SKU.height (OrderItem.sku item) == h
        /\ exists line, In line source
                        /\ OrderItem.sku item = OrderItem.sku line) ->
    let groups' :=
      fold_left
        (fun groups item =>
           let height := SKU.height (OrderItem.sku item) in
           let groups :=
             if Map_has Qeq_bool groups height then groups
             else Map_set Qeq_bool groups height [] in
           Map_set Qeq_bool groups height
             (match Map_get Qeq_bool groups height with
              | Some found => found
              | None => []
              end
              ++ [OrderItem.mk (OrderItem.sku item) (OrderItem.quantity item)
                    (OrderItem.unitType item)]))
        items groups in
    SetoidList.NoDupA Qeq (map fst groups')
    /\ forall h group item,
         In (h, group) groups' -> In item group ->
         SKU.height (OrderItem.sku item) == h
         /\ exists line, In line source
                         /\ OrderItem.sku item = OrderItem.sku line.
Proof.
  induction items as [|item items IH]; intros groups Hsrc Hnd Hin;
    cbn [fold_left]; [split; assumption|].
  apply IH.
  - intros it Hit. apply Hsrc. right. exact Hit.
  - cbn zeta.
    set (height := SKU.height (OrderItem.sku item)).
    assert (Hfirst :
              Map_has Qeq_bool
                (if Map_has Qeq_bool groups height then groups
                 else Map_set Qeq_bool groups height []) height = true
              /\ SetoidList.NoDupA Qeq
                   (map fst
                      (if Map_has Qeq_bool groups height then groups
                       else Map_set Qeq_bool groups height []))).
    { destruct (Map_has Qeq_bool groups height) eqn:Eh; [split; assumption|].
      assert (Ek : map fst (Map_set Qeq_bool groups height [])
                   = map fst groups ++ [height]).
      { rewrite Map_set_keys_Q, Eh. reflexivity. }
      split.
      - apply Map_has_keys. rewrite Ek.
        apply SetoidList.InA_app_iff. right. constructor. reflexivity.
      - rewrite Ek. apply NoDupA_snoc; [exact Hnd|].
        intro H. apply Map_has_keys in H. congruence. }
    destruct Hfirst as [Hhas Hnd1].
    rewrite Map_set_keys_Q. unalias. rewrite Hhas. exact Hnd1.
  - cbn zeta. intros h group it Hg Hit.
    assert (Hbefore :
              forall h group it,
                In (h, group)
                  (if Map_has Qeq_bool groups (SKU.height (OrderItem.sku item))
                   then groups
                   else Map_set Qeq_bool groups
                          (SKU.height (OrderItem.sku item)) []) ->
                In it group ->
                SKU.height (OrderItem.sku it) == h
                /\ exists line, In line source
                                /\ OrderItem.sku it = OrderItem.sku line).
    { intros h0 g0 it0 Hg0 Hit0.
      destruct (Map_has Qeq_bool groups (SKU.height (OrderItem.sku item)));
        [eapply Hin; eassumption|].
      apply Map_set_entries in Hg0. destruct Hg0 as [Hg0 | [_ ->]];
        [eapply Hin; eassumption | destruct Hit0]. }
    apply Map_set_entries in Hg. destruct Hg as [Hg | [Hh ->]];
      [eapply Hbefore; eassumption|].
    apply in_app_or in Hit. destruct Hit as [Hit | [<- | []]].
    + destruct (Map_get Qeq_bool _ (SKU.height (OrderItem.sku item)))
        as [found|] eqn:Eg; [|destruct Hit].
      apply Map_get_entry in Eg. destruct Eg as (k & Hk & Ek).
      destruct (Hbefore k found it Hk Hit) as [Hheight Hline].
      split; [|exact Hline]. rewrite Hheight, Ek. symmetry. exact Hh.
    + cbn [OrderItem.sku]. split; [symmetry; exact Hh|].
      exists item. split; [apply Hsrc; left; reflexivity | reflexivity].
Qed.

Lemma groupByHeight_groups (items : list OrderItem) :
  StronglySorted (fun a b => b < a) (map fst (Legacy.groupByHeight items))
  /\ forall h group item,
       In (h, group) (Legacy.groupByHeight items) -> In item group ->
       SKU.height (OrderItem.sku item) == h
       /\ exists line, In line items
                       /\ OrderItem.sku item = OrderItem.sku line.
Proof.
  assert (H := groupByHeight_fold items items [] (fun item Hitem => Hitem)
                 (SetoidList.NoDupA_nil Qeq)
                 (fun h group item (Hg : In (h, group) []) => False_ind _ Hg)).
  unfold Legacy.groupByHeight. cbv zeta.
  match goal with
  | |- context [Array_sort _ ?g] => set (groups := g)
  end.
  change (SetoidList.NoDupA Qeq (map fst groups)
          /\ forall h group item,
               In (h, group) groups -> In item group ->
               SKU.height (OrderItem.sku item) == h
               /\ exists line, In line items
                               /\ OrderItem.sku item = OrderItem.sku line) in H.
  destruct H as [Hnd Hin].
  split.
  - apply descending_strictly.
    + apply StronglySorted_map. apply (Array_sort_descending fst).
    + assert (Hperm : Permutation
                        (map fst (Array_sort (fun a b => Finite (fst b - fst a))
                                    groups))
                        (map fst groups)).
      { apply Permutation_map. apply Array_sort_perm. }
      apply Permutation_sym in Hperm.
      eapply SetoidPermutation.PermutationA_preserves_NoDupA;
        [exact Q_Setoid | | exact Hnd].
      apply SetoidPermutation.Permutation_PermutationA;
        [exact Q_Setoid | exact Hperm].
  - intros h group item Hg Hit. apply Array_sort_In in Hg.
    eapply Hin; eassumption.
Qed.

(** ** The pallets of the first version *)

Lemma legacy_removePacked_skus (expandedItems : list OrderItem)
    (placedItem : PlacedItem) (item : OrderItem) :
  In item (Legacy.removePacked expandedItems placedItem) ->
  exists before, In before expandedItems
                 /\ OrderItem.sku item = OrderItem.sku before.
Proof.
  induction expandedItems as [|first rest IH]; cbn [Legacy.removePacked];
    [intros []|].
  destruct (String.eqb _ _).
  - destruct (Qleb _ 0).
    + intro H. exists item. split; [right; exact H | reflexivity].
    + intros [<- | H].
      * exists first. split; [left; reflexivity | reflexivity].
      * exists item. split; [right; exact H | reflexivity].
  - intros [<- | H].
    + exists first. split; [left; reflexivity | reflexivity].
    + destruct (IH H) as (before & Hin & Hsku). exists before.
      split; [right; exact Hin | exact Hsku].
Qed.

Lemma legacy_removeAll_skus (placed : list PlacedItem) :
  forall (expandedItems : list OrderItem) (item : OrderItem),
    In item (fold_left Legacy.removePacked placed expandedItems) ->
    exists before, In before expandedItems
                   /\ OrderItem.sku item = OrderItem.sku before.
Proof.
  induction placed as [|p placed IH]; intros expandedItems item H;
    cbn [fold_left] in H.
  - exists item. split; [exact H | reflexivity].
  - apply IH in H. destruct H as (mid & Hmid & Hsku).
    apply legacy_removePacked_skus in Hmid.
    destruct Hmid as (before & Hin & Hsku'). exists before.
    split; [exact Hin | congruence].
Qed.

(** The loop of the first [optimize]: what it returns is what it was given
    followed by the pallets it packed, numbered from [palletId] on, each
    packed from lines of the order, and each but the last with a layer. *)
Lemma legacy_optimize_loop_appends (self : Legacy.PalletOptimizer)
    (P : Pallet -> Prop) (source : list OrderItem) :
  (forall expandedItems palletId pallet,
      (forall item, In item expandedItems ->
                    exists line, In line source
                                 /\ OrderItem.sku item = OrderItem.sku line) ->
      Legacy.packPallet self expandedItems palletId = Ok pallet ->
      P pallet) ->
  forall fuel expandedItems pallets palletId result,
    Legacy.optimize_loop self fuel expandedItems pallets palletId = Ok result ->
    (forall item, In item expandedItems ->
                  exists line, In line source
                               /\ OrderItem.sku item = OrderItem.sku line) ->
    exists more,
      result = pallets ++ more
      /\ (expandedItems = [] -> more = [])
      /\ forall i pallet,
           nth_error more i = Some pallet ->
           P pallet
           /\ Pallet.id pallet = (palletId + Z.of_nat i)%Z
           /\ (S i < List.length more -> Pallet.layers pallet <> [])%nat.
Proof.
  intros Hpack.
  induction fuel as [|fuel IH]; intros expandedItems pallets palletId result H Hsrc;
    cbn [Legacy.optimize_loop] in H;
    destruct (List.length expandedItems =? 0)%nat eqn:Ee;
    try discriminate.
  - apply Ok_inj in H. subst result. exists []. rewrite app_nil_r.
    split; [reflexivity|]. split; [reflexivity|].
    intros [|i] pallet Hn; discriminate Hn.
  - apply Ok_inj in H. subst result. exists []. rewrite app_nil_r.
    split; [reflexivity|]. split; [reflexivity|].
    intros [|i] pallet Hn; discriminate Hn.
  - apply length_eqb_0_false in Ee.
    inv_bind H. rename r into pallet.
    assert (HP : P pallet) by (eapply Hpack; eassumption).
    assert (Hid : Pallet.id pallet = palletId).
    { unfold Legacy.packPallet in E. inv_bind E. apply Ok_inj in E.
      subst pallet. reflexivity. }
    set (left :=
           fold_left Legacy.removePacked
             (flat_map Layer.items (Pallet.layers pallet)) expandedItems) in *.
    destruct (negb (List.length left =? 0)%nat
              && (List.length (Pallet.layers pallet) =? 0)%nat) eqn:Egive.
    + apply Ok_inj in H. subst result. exists [pallet].
      split; [reflexivity|]. split; [congruence|].
      intros [|[|i]] q Hn; try discriminate Hn.
      cbn in Hn. injection Hn as <-.
      split; [exact HP|]. split; [lia|]. cbn. lia.
    + apply IH in H.
      2:{ intros item Hitem. apply legacy_removeAll_skus in Hitem.
          destruct Hitem as (before & Hbefore & ->). apply Hsrc. exact Hbefore. }
      destruct H as (more & -> & Hnone & Hmore).
      exists (pallet :: more). rewrite <- app_assoc.
      split; [reflexivity|]. split; [congruence|].
      intros [|i] q Hn; cbn [nth_error] in Hn.
      * injection Hn as <-. split; [exact HP|]. split; [lia|].
        cbn [List.length]. intros Hlen Hlayers.
        assert (Hleft : left <> []).
        { intro El. specialize (Hnone El). subst more. cbn in Hlen. lia. }
        apply length_eqb_0_false in Hleft.
        rewrite Hleft, Hlayers in Egive. discriminate Egive.
      * apply Hmore in Hn. destruct Hn as (Hq & Hi & Hl).
        split; [exact Hq|]. split; [lia|].
        cbn [List.length]. intro Hlen. apply Hl. lia.
Qed.

Lemma legacy_optimize_pallets (self : Legacy.PalletOptimizer)
    (P : Pallet -> Prop) (items : list OrderItem) :
  (forall expandedItems palletId pallet,
      (forall item, In item expandedItems ->
                    exists line, In line items
                                 /\ OrderItem.sku item = OrderItem.sku line) ->
      Legacy.packPallet self expandedItems palletId = Ok pallet ->
      P pallet) ->
  forall fuel pallets,
    Legacy.optimize self fuel items = Ok pallets ->
    forall i pallet,
      nth_error pallets i = Some pallet ->
      P pallet
      /\ Pallet.id pallet = (1 + Z.of_nat i)%Z
      /\ (S i < List.length pallets -> Pallet.layers pallet <> [])%nat.
Proof.
  intros Hpack fuel pallets H. unfold Legacy.optimize in H. cbv zeta in H.
  apply (legacy_optimize_loop_appends self P items Hpack) in H.
  - destruct H as (more & -> & _ & Hmore). cbn [app]. exact Hmore.
  - intros item Hitem. apply Array_sort_In in Hitem.
    unfold Legacy.expandItems in Hitem. apply in_map_iff in Hitem.
    destruct Hitem as (line & <- & Hline). exists line.
    split; [exact Hline | reflexivity].
Qed.

(** X15. The pallets of the first version are numbered 1, 2, 3, ... and
    only the last one can be without a layer: the loop gives up on the first
    pallet on which nothing could be packed, and returns that pallet with
    the others. *)
Theorem legacy_only_the_last_pallet_is_empty :
  forall (self : Legacy.PalletOptimizer) (fuel : nat) (items : list OrderItem)
         (pallets : list Pallet) (i : nat) (pallet : Pallet),
    Legacy.optimize self fuel items = Ok pallets ->
    nth_error pallets i = Some pallet ->
    Pallet.id pallet = (1 + Z.of_nat i)%Z
    /\ Pallet.palletSize pallet = Legacy.PalletOptimizer.palletSize self
    /\ ((S i < List.length pallets)%nat -> Pallet.layers pallet <> []).
Proof.
  intros self fuel items pallets i pallet H Hn.
  destruct (legacy_optimize_pallets self
              (fun q => Pallet.palletSize q
                        = Legacy.PalletOptimizer.palletSize self)
              items) with (fuel := fuel) (pallets := pallets) (i := i)
                          (pallet := pallet) as (Hsize & Hid & Hlayers);
    [|exact H | exact Hn|].
  - intros expandedItems palletId q _ Hq.
    unfold Legacy.packPallet in Hq. inv_bind Hq. apply Ok_inj in Hq.
    subst q. reflexivity.
  - split; [exact Hid|]. split; [exact Hsize | exact Hlayers].
Qed.

(** ** Limits, heights and layers of the first version *)




(** X17. A pallet of the first version has at most one layer for every SKU
    height: the heights of its layers go down strictly from the first layer
    to the last, whatever the height left on the pallet. *)
Theorem legacy_layer_heights_descend :
  forall (self : Legacy.PalletOptimizer) (fuel : nat) (items : list OrderItem)
         (pallets : list Pallet) (pallet : Pallet),
    Legacy.optimize self fuel items = Ok pallets ->
    In pallet pallets ->
    heightsDescend (Pallet.layers pallet).
Proof.
  intros self fuel items pallets pallet H Hin.
  apply In_nth_error in Hin. destruct Hin as (i & Hn).
  destruct (legacy_optimize_pallets self
              (fun q => heightsDescend (Pallet.layers q)) items)
    with (fuel := fuel) (pallets := pallets) (i := i) (pallet := pallet)
    as (HP & _); [|exact H | exact Hn | exact HP].
  clear. intros expandedItems palletId q _ Hq.
  unfold Legacy.packPallet in Hq. inv_bind Hq. apply Ok_inj in Hq. subst q.
  cbn [Pallet.layers]. unfold heightsDescend.
  destruct (legacy_packGroups_invariant self
              (fun rest st =>
                 StronglySorted (fun a b => b < a)
                   (map Layer.height (Legacy.PalletState.layers st)
                    ++ map fst rest)))
    with (groups := Legacy.groupByHeight expandedItems)
         (st := Legacy.PalletState.mk [] 0 0) (st' := r)
    as (rest & Hr); [| |exact E| |].
  - intros group rest st Hst. cbn [map] in Hst.
    apply StronglySorted_drop in Hst. exact Hst.
  - intros group rest st limit layer Hst _ Hlayer _ _.
    pose proof (legacy_layer_height _ _ _ _ _ Hlayer) as Eh.
    cbn [Legacy.addLayer Legacy.PalletState.layers].
    rewrite map_app. cbn [map]. rewrite Eh, <- app_assoc. exact Hst.
  - cbn [Legacy.PalletState.layers map app].
    apply groupByHeight_groups.
  - clear E. induction rest as [|group rest IH].
    + rewrite app_nil_r in Hr. exact Hr.
    + apply IH. cbn [map] in Hr. apply StronglySorted_drop in Hr. exact Hr.
Qed.

(** The layers of one pallet of the first version: none is empty, and every
    item is one unit of a line the pallet was packed from, lying as the SKU
    is described or turned by a quarter, in a layer of the height of its
    SKU. *)
Lemma legacy_packPallet_layers (self : Legacy.PalletOptimizer)
    (expandedItems : list OrderItem) (palletId : Z) (pallet : Pallet) :
  Legacy.packPallet self expandedItems palletId = Ok pallet ->
  forall layer,
    In layer (Pallet.layers pallet) ->
    Layer.items layer <> []
    /\ forall p,
         In p (Layer.items layer) ->
         SKU.height (PlacedItem.sku p) == Layer.height layer
         /\ placedAsDescribed p
         /\ exists item, In item expandedItems
                         /\ PlacedItem.sku p = OrderItem.sku item.
Proof.
  intro Hq.
  unfold Legacy.packPallet in Hq. inv_bind Hq. apply Ok_inj in Hq.
  subst pallet. cbn [Pallet.layers].
  pose proof (groupByHeight_groups expandedItems) as [_ Hgroups].
  destruct (legacy_packGroups_invariant self
              (fun rest st =>
                 (forall group, In group rest ->
                                In group (Legacy.groupByHeight expandedItems))
                 /\ forall l,
                      In l (Legacy.PalletState.layers st) ->
                      Layer.items l <> []
                      /\ forall x,
                           In x (Layer.items l) ->
                           SKU.height (PlacedItem.sku x) == Layer.height l
                           /\ placedAsDescribed x
                           /\ exists item,
                                In item expandedItems
                                /\ PlacedItem.sku x = OrderItem.sku item))
    with (groups := Legacy.groupByHeight expandedItems)
         (st := Legacy.PalletState.mk [] 0 0) (st' := r)
    as (rest & _ & Hr); [| |exact E| |exact Hr].
  - intros group rest st [Hrest Hst]. split; [|exact Hst].
    intros g Hg. apply Hrest. right. exact Hg.
  - intros [h group] rest st limit layer [Hrest Hst] _ Hlayer Hne _.
    cbn [fst snd] in Hlayer.
    split; [intros g Hg; apply Hrest; right; exact Hg|].
    cbn [Legacy.addLayer Legacy.PalletState.layers].
    intros l Hl. apply in_app_or in Hl.
    destruct Hl as [Hl | [<- | []]]; [apply Hst; assumption|].
    split; [exact Hne|]. intros x Hx.
    assert (Hgroup : In (h, group) (Legacy.groupByHeight expandedItems))
      by (apply Hrest; left; reflexivity).
    destruct (legacy_layer_invariant self limit group h
                (fun s =>
                   forall y, In y (Legacy.LayerState.placedItems s) ->
                     placedAsDescribed y
                     /\ exists item, In item group
                                     /\ PlacedItem.sku y = OrderItem.sku item)
                layer) as (s & Hs & ->); [| |exact Hlayer|].
    + intros grid _ y [].
    + intros item s s' Hitem Hs (_ & position & _ & Hplace) y Hy.
      apply legacy_placeItem_Ok in Hplace. cbv zeta in Hplace.
      destruct Hplace as (_ & Ep & _). rewrite Ep in Hy.
      apply in_app_or in Hy. destruct Hy as [Hy | [<- | []]]; [auto|].
      split.
      * unfold placedAsDescribed.
        cbn [PlacedItem.quantity PlacedItem.rotated PlacedItem.length
             PlacedItem.width PlacedItem.sku].
        split; [reflexivity|]. destruct (snd position); split; reflexivity.
      * exists item. split; [exact Hitem | reflexivity].
    + cbn [Layer.items Layer.height] in *.
      destruct (Hs x Hx) as (Hdesc & item & Hitem & Esku).
      destruct (Hgroups h group item Hgroup Hitem) as (Hheight & line & Hline & El).
      split; [rewrite Esku; exact Hheight|]. split; [exact Hdesc|].
      exists line. split; [exact Hline | congruence].
  - split; [auto | intros l []].
Qed.

(** X18. In the first version every item lies as its SKU is described or
    turned by a quarter, never on another face, it stands for one unit of a
    SKU of the order, and the height of its SKU is the height of its
    layer. *)
Theorem legacy_layers_are_height_homogeneous :
  forall (self : Legacy.PalletOptimizer) (fuel : nat) (items : list OrderItem)
         (pallets : list Pallet) (pallet : Pallet) (layer : Layer)
         (p : PlacedItem),
    Legacy.optimize self fuel items = Ok pallets ->
    In pallet pallets ->
    In layer (Pallet.layers pallet) ->
    In p (Layer.items layer) ->
    SKU.height (PlacedItem.sku p) == Layer.height layer
    /\ placedAsDescribed p
    /\ exists line, In line items /\ PlacedItem.sku p = OrderItem.sku line.
Proof.
  intros self fuel items pallets pallet layer p H Hin Hlayer Hp.
  apply In_nth_error in Hin. destruct Hin as (i & Hn).
  destruct (legacy_optimize_pallets self
              (fun q =>
                 forall l x, In l (Pallet.layers q) -> In x (Layer.items l) ->
                   SKU.height (PlacedItem.sku x) == Layer.height l
                   /\ placedAsDescribed x
                   /\ exists line, In line items
                                   /\ PlacedItem.sku x = OrderItem.sku line)
              items) with (fuel := fuel) (pallets := pallets) (i := i)
                          (pallet := pallet) as (HP & _);
    [|exact H | exact Hn | exact (HP layer p Hlayer Hp)].
  clear. intros expandedItems palletId q Hsrc Hq l x Hl Hx.
  destruct (legacy_packPallet_layers self _ _ _ Hq l Hl) as [_ Hitems].
  destruct (Hitems x Hx) as (Hheight & Hdesc & item & Hitem & Esku).
  split; [exact Hheight|]. split; [exact Hdesc|].
  destruct (Hsrc item Hitem) as (line & Hline & El).
  exists line. split; [exact Hline | congruence].
Qed.

(** ** Placement in the first version *)




(** ** The freight class of the first version *)

Lemma legacy_calculateFreightClass_table (self : Legacy.PalletOptimizer)
    (weight height : Q) :
  Legacy.calculateFreightClass self weight height
  = classOfDensity (legacyDensity self weight height).
Proof.
  unfold Legacy.calculateFreightClass, classOfDensity, legacyDensity,
    freightTable.
  cbv zeta. cbn [find fst snd].
  repeat match goal with
  | |- context [f64_gtb ?d ?t] => destruct (f64_gtb d t); [reflexivity|]
  end; reflexivity.
Qed.

(** [Math.max(height, EPSILON)] is the height from [EPSILON] on. *)
Lemma Math_max64_above (height : float64) :
  f64_leb (binary64_of_Q EPSILON) height = true ->
  Math_max64 height (binary64_of_Q EPSILON) = height.
Proof.
  intro H. unfold Math_max64. rewrite H.
  replace (binary64_of_Q EPSILON)
    with (SpecFloat.S754_finite false 4722366482869645 (-72))
    by (vm_compute; reflexivity).
  destruct height as [[|]|[|]| |s m e]; reflexivity.
Qed.

(** X20. The classifier of the first version takes the height as it is.  A
    pallet without a layer has the density [0 / 0], which is above no
    threshold, and gets "Class 500"; from a height of [EPSILON] on, both
    taken as doubles, the classifier agrees with the rewritten one for a
    weight in pounds, which only floors the height at [EPSILON]. *)
Theorem legacy_freight_class_takes_the_height_as_it_is :
  forall (self : Legacy.PalletOptimizer) (weight height : Q),
    Legacy.calculateFreightClass self 0 0 = "Class 500"%string
    /\ (Legacy.calculateFreightClass self weight height
        = classOfDensity (legacyDensity self weight height))
    /\ (f64_leb (binary64_of_Q EPSILON) (binary64_of_Q height) = true ->
        Legacy.calculateFreightClass self weight height
        = calculateFreightClass (rewritten self) weight height).
Proof.
  intros self weight height. split; [|split].
  - rewrite legacy_calculateFreightClass_table. unfold legacyDensity.
    change (binary64_of_Q 0) with (SpecFloat.S754_zero false).
    apply classOfDensity_zero_over.
  - apply legacy_calculateFreightClass_table.
  - intro Hh. rewrite legacy_calculateFreightClass_table.
    rewrite calculateFreightClass_table.
    unfold legacyDensity, palletDensity, palletVolume, weightInPounds64,
      rewritten.
    cbn [PalletOptimizer.weightUnit PalletOptimizer.palletSize].
    rewrite (Math_max64_above _ Hh). reflexivity.
Qed.

(** ** The first version returns *)

Lemma legacy_newGrid_total (self : Legacy.PalletOptimizer) :
  0 < PalletSize.length (Legacy.PalletOptimizer.palletSize self) ->
  PalletSize.length (Legacy.PalletOptimizer.palletSize self) <= 4294967295 ->
  0 < PalletSize.width (Legacy.PalletOptimizer.palletSize self) ->
  PalletSize.width (Legacy.PalletOptimizer.palletSize self) <= 4294967295 ->
  exists grid, Legacy.newGrid self = Ok grid /\ grid <> [].
Proof.
  intros HL0 HL1 HW0 HW1.
  destruct (Qceiling_between _ 4294967295 HL0 HL1) as [Hr0 Hr1].
  destruct (Qceiling_between _ 4294967295 HW0 HW1) as [Hc0 Hc1].
  unfold Legacy.newGrid, Math_ceil.
  set (rows := Qceiling (PalletSize.length _)) in *.
  set (columns := Qceiling (PalletSize.width _)) in *.
  replace (rows <? 0)%Z with false by (symmetry; apply Z.ltb_ge; lia).
  replace (4294967295 <? rows)%Z with false by (symmetry; apply Z.ltb_ge; lia).
  replace (rows =? 0)%Z with false by (symmetry; apply Z.eqb_neq; lia).
  replace (columns <? 0)%Z with false by (symmetry; apply Z.ltb_ge; lia).
  replace (4294967295 <? columns)%Z with false
    by (symmetry; apply Z.ltb_ge; lia).
  cbn [orb]. eexists. split; [reflexivity|].
  destruct (Z.to_nat rows) eqn:En; [lia | discriminate].
Qed.

Lemma legacy_placeItem_total (item : OrderItem) (position : Position * bool)
    (st : Legacy.LayerState) :
  Legacy.LayerState.grid st <> [] ->
  exists st', Legacy.placeItem item position st = Ok st'
              /\ Legacy.LayerState.grid st' <> [].
Proof.
  intro H. unfold Legacy.placeItem. cbv zeta.
  match goal with
  | |- context [markGridOccupied ?g ?x ?y ?l ?w] =>
      destruct (markGridOccupied_total g x y l w H) as (grid' & -> & Hne)
  end.
  cbn [bind]. eexists. split; [reflexivity | exact Hne].
Qed.

Lemma legacy_findBestPosition_total (self : Legacy.PalletOptimizer)
    (grid : list (list bool)) (length width : Q) :
  grid <> [] -> exists r, Legacy.findBestPosition self grid length width = Ok r.
Proof.
  intro H. rewrite legacy_findBestPosition_rewritten.
  apply findBestPosition_total. exact H.
Qed.

Lemma legacy_packItem_total (self : Legacy.PalletOptimizer) (item : OrderItem) :
  forall (n : nat) (st : Legacy.LayerState),
    Legacy.LayerState.grid st <> [] ->
    exists st', Legacy.packItem self n item st = Ok st'
                /\ Legacy.LayerState.grid st' <> [].
Proof.
  induction n as [|n IH]; intros st H; cbn [Legacy.packItem].
  - exists st. split; [reflexivity | exact H].
  - destruct (legacy_findBestPosition_total self (Legacy.LayerState.grid st)
                (SKU.length (OrderItem.sku item))
                (SKU.width (OrderItem.sku item)) H) as ([position|] & ->);
      cbn [bind].
    + destruct (legacy_placeItem_total item position st H) as (st1 & -> & H1).
      cbn [bind]. apply IH. exact H1.
    + exists st. split; [reflexivity | exact H].
Qed.

Lemma legacy_packItemWithWeightLimit_total (self : Legacy.PalletOptimizer)
    (item : OrderItem) (maxWeight : Q) :
  forall (n : nat) (st : Legacy.LayerState),
    Legacy.LayerState.grid st <> [] ->
    exists st', Legacy.packItemWithWeightLimit self n item maxWeight st = Ok st'
                /\ Legacy.LayerState.grid st' <> [].
Proof.
  induction n as [|n IH]; intros st H; cbn [Legacy.packItemWithWeightLimit].
  - exists st. split; [reflexivity | exact H].
  - destruct (Qgtb _ maxWeight); [exists st; split; [reflexivity | exact H]|].
    destruct (legacy_findBestPosition_total self (Legacy.LayerState.grid st)
                (SKU.length (OrderItem.sku item))
                (SKU.width (OrderItem.sku item)) H) as ([position|] & ->);
      cbn [bind].
    + destruct (legacy_placeItem_total item position st H) as (st1 & -> & H1).
      cbn [bind]. apply IH. exact H1.
    + exists st. split; [reflexivity | exact H].
Qed.

Lemma for_each_total {A S : Type} (body : A -> S -> result S) (I : S -> Prop)
    (l : list A) :
  (forall a s, I s -> exists s', body a s = Ok s' /\ I s') ->
  forall s, I s -> exists s', for_each l body s = Ok s'.
Proof.
  intro Hbody. induction l as [|a l IH]; intros s Hs; cbn [for_each].
  - exists s. reflexivity.
  - destruct (Hbody a s Hs) as (s1 & -> & H1). cbn [bind]. apply IH. exact H1.
Qed.

Section LegacyFootprint.
Variable self : Legacy.PalletOptimizer.
Hypothesis length_positive :
  0 < PalletSize.length (Legacy.PalletOptimizer.palletSize self).
Hypothesis length_in_range :
  PalletSize.length (Legacy.PalletOptimizer.palletSize self) <= 4294967295.
Hypothesis width_positive :
  0 < PalletSize.width (Legacy.PalletOptimizer.palletSize self).
Hypothesis width_in_range :
  PalletSize.width (Legacy.PalletOptimizer.palletSize self) <= 4294967295.

Lemma legacy_layer_total (limit : option Q) (items : list OrderItem)
    (layerHeight : Q) :
  exists layer, legacyLayerOf self limit items layerHeight = Ok layer.
Proof.
  destruct (legacy_newGrid_total self length_positive length_in_range
              width_positive width_in_range) as (grid & Hgrid & Hne).
  destruct limit as [maxWeight|]; cbn [legacyLayerOf].
  - unfold Legacy.packLayerWithWeightLimit. rewrite Hgrid. cbn [bind].
    match goal with
    | |- context [for_each ?l ?body ?init] =>
        destruct (for_each_total body
                    (fun st => Legacy.LayerState.grid st <> []) l)
          with (s := init) as (st & ->)
    end.
    + intros item st Hst. apply legacy_packItemWithWeightLimit_total.
      exact Hst.
    + exact Hne.
    + cbn [bind]. eexists. reflexivity.
  - unfold Legacy.packLayer. rewrite Hgrid. cbn [bind].
    match goal with
    | |- context [for_each ?l ?body ?init] =>
        destruct (for_each_total body
                    (fun st => Legacy.LayerState.grid st <> []) l)
          with (s := init) as (st & ->)
    end.
    + intros item st Hst. apply legacy_packItem_total. exact Hst.
    + exact Hne.
    + cbn [bind]. eexists. reflexivity.
Qed.

Lemma legacy_packGroups_total (groups : list (Q * list OrderItem)) :
  forall st, exists st', Legacy.packGroups self groups st = Ok st'.
Proof.
  induction groups as [|group groups IH]; intro st; cbn [Legacy.packGroups].
  - exists st. reflexivity.
  - destruct (List.length (snd group) =? 0)%nat; [apply IH|].
    destruct (Qgtb _ (Legacy.PalletOptimizer.maxHeight self));
      [exists st; reflexivity|].
    destruct (legacy_layer_total None (snd group) (fst group)) as (layer & Hl).
    cbn [legacyLayerOf] in Hl. rewrite Hl. cbn [bind].
    destruct (List.length (Layer.items layer) =? 0)%nat; [apply IH|].
    destruct (Qgtb _ (Legacy.PalletOptimizer.maxWeight self)); [|apply IH].
    destruct (legacy_layer_total
                (Some (Legacy.PalletOptimizer.maxWeight self
                       - Legacy.PalletState.currentWeight st))
                (snd group) (fst group)) as (reduced & Hr).
    cbn [legacyLayerOf] in Hr. rewrite Hr. cbn [bind].
    destruct (List.length (Layer.items reduced) =? 0)%nat;
      eexists; reflexivity.
Qed.

Lemma legacy_packPallet_total (expandedItems : list OrderItem) (palletId : Z) :
  exists pallet, Legacy.packPallet self expandedItems palletId = Ok pallet.
Proof.
  unfold Legacy.packPallet.
  destruct (legacy_packGroups_total (Legacy.groupByHeight expandedItems)
              (Legacy.PalletState.mk [] 0 0)) as (st & ->).
  cbn [bind]. eexists. reflexivity.
Qed.

End LegacyFootprint.

(** *** What the removal of the packed units leaves *)

Lemma legacyUnits_cons (item : OrderItem) (items : list OrderItem) :
  legacyUnits (item :: items)
  = (Z.max 1 (Qceiling (OrderItem.quantity item)) + legacyUnits items)%Z.
Proof. reflexivity. Qed.

Lemma legacyUnits_nonneg (items : list OrderItem) : (0 <= legacyUnits items)%Z.
Proof.
  induction items as [|item items IH]; [cbn; lia|].
  rewrite legacyUnits_cons. lia.
Qed.

Lemma legacyUnits_positive (items : list OrderItem) :
  items <> [] -> (1 <= legacyUnits items)%Z.
Proof.
  destruct items as [|item items]; [congruence|]. intros _.
  rewrite legacyUnits_cons. assert (H := legacyUnits_nonneg items). lia.
Qed.

Lemma legacyUnits_perm (l l' : list OrderItem) :
  Permutation l l' -> legacyUnits l = legacyUnits l'.
Proof.
  induction 1 as [|x l l' _ IH|x y l|l l' l'' _ IH1 _ IH2];
    rewrite ?legacyUnits_cons; try reflexivity; lia.
Qed.

Lemma legacyUnits_expandItems (items : list OrderItem) :
  legacyUnits (Legacy.expandItems items) = legacyUnits items.
Proof.
  unfold Legacy.expandItems.
  induction items as [|item items IH]; [reflexivity|].
  cbn [map]. rewrite !legacyUnits_cons, IH. reflexivity.
Qed.

(** The removal of one unit takes at least one from the measure when a
    line of that SKU id is left, and nothing otherwise. *)
Lemma legacy_removePacked_units (p : PlacedItem) :
  PlacedItem.quantity p = 1%Z ->
  forall expandedItems,
    (legacyUnits (Legacy.removePacked expandedItems p)
     <= legacyUnits expandedItems)%Z
    /\ ((exists item, In item expandedItems
                      /\ SKU.id (OrderItem.sku item) = SKU.id (PlacedItem.sku p)) ->
        (legacyUnits (Legacy.removePacked expandedItems p)
         < legacyUnits expandedItems)%Z).
Proof.
  intro Hq.
  induction expandedItems as [|first rest IH]; cbn [Legacy.removePacked].
  - split; [lia|]. intros (item & [] & _).
  - destruct (String.eqb _ _) eqn:Eid.
    + rewrite Hq.
      destruct (Qleb _ 0) eqn:Ez; qprop.
      * rewrite legacyUnits_cons. split; [lia|]. intros _. lia.
      * rewrite !legacyUnits_cons.
        cbn [OrderItem.quantity].
        rewrite (Qceiling_minus_Z (OrderItem.quantity first) 1).
        assert (H1 := Qle_ceiling (OrderItem.quantity first - inject_Z 1)).
        rewrite (Qceiling_minus_Z (OrderItem.quantity first) 1) in H1.
        assert (H2 : inject_Z 0 < inject_Z (Qceiling (OrderItem.quantity first) - 1)).
        { change (inject_Z 0) with 0. lra. }
        rewrite <- Zlt_Qlt in H2.
        split; [lia|]. intros _. lia.
    + rewrite !legacyUnits_cons. destruct IH as [IHle IHlt]. split; [lia|].
      intros (item & [<- | Hin] & Hid).
      * apply String.eqb_neq in Eid. contradiction.
      * assert (legacyUnits (Legacy.removePacked rest p) < legacyUnits rest)%Z
          by (apply IHlt; exists item; split; assumption).
        lia.
Qed.

Lemma legacy_removeAll_units (placed : list PlacedItem) :
  (forall p, In p placed -> PlacedItem.quantity p = 1%Z) ->
  forall expandedItems,
    (legacyUnits (fold_left Legacy.removePacked placed expandedItems)
     <= legacyUnits expandedItems)%Z.
Proof.
  induction placed as [|p placed IH]; intros Hq expandedItems;
    cbn [fold_left]; [lia|].
  etransitivity; [apply IH; intros q Hin; apply Hq; right; exact Hin|].
  apply legacy_removePacked_units. apply Hq. left. reflexivity.
Qed.

(** A pallet with a layer takes at least one unit from what is left. *)
Lemma legacy_packPallet_progress (self : Legacy.PalletOptimizer)
    (expandedItems : list OrderItem) (palletId : Z) (pallet : Pallet) :
  Legacy.packPallet self expandedItems palletId = Ok pallet ->
  Pallet.layers pallet <> [] ->
  (legacyUnits
     (fold_left Legacy.removePacked
        (flat_map Layer.items (Pallet.layers pallet)) expandedItems)
   < legacyUnits expandedItems)%Z.
Proof.
  intros Hq Hlayers.
  assert (Hall := legacy_packPallet_layers self _ _ _ Hq).
  assert (Hone : forall p,
             In p (flat_map Layer.items (Pallet.layers pallet)) ->
             PlacedItem.quantity p = 1%Z
             /\ exists item, In item expandedItems
                             /\ SKU.id (OrderItem.sku item)
                                = SKU.id (PlacedItem.sku p)).
  { intros p Hp. apply in_flat_map in Hp. destruct Hp as (layer & Hl & Hp).
    destruct (Hall layer Hl) as [_ Hitems].
    destruct (Hitems p Hp) as (_ & [Hquantity _] & item & Hitem & Esku).
    split; [exact Hquantity|]. exists item.
    split; [exact Hitem | rewrite Esku; reflexivity]. }
  destruct (Pallet.layers pallet) as [|layer layers] eqn:El; [congruence|].
  destruct (Hall layer (or_introl eq_refl)) as [Hne _].
  cbn [flat_map] in *.
  destruct (Layer.items layer) as [|p placed]; [congruence|].
  cbn [app fold_left].
  destruct (Hone p (or_introl eq_refl)) as [Hquantity Hfound].
  eapply Z.le_lt_trans.
  - apply legacy_removeAll_units. intros q Hin.
    apply (Hone q). right. exact Hin.
  - apply legacy_removePacked_units; assumption.
Qed.

Lemma legacy_optimize_loop_total (self : Legacy.PalletOptimizer) :
  0 < PalletSize.length (Legacy.PalletOptimizer.palletSize self) ->
  PalletSize.length (Legacy.PalletOptimizer.palletSize self) <= 4294967295 ->
  0 < PalletSize.width (Legacy.PalletOptimizer.palletSize self) ->
  PalletSize.width (Legacy.PalletOptimizer.palletSize self) <= 4294967295 ->
  forall fuel expandedItems pallets palletId,
    (legacyUnits expandedItems < Z.of_nat fuel)%Z ->
    exists more,
      Legacy.optimize_loop self fuel expandedItems pallets palletId
      = Ok (pallets ++ more)
      /\ (Z.of_nat (List.length more) <= legacyUnits expandedItems)%Z.
Proof.
  intros HL0 HL1 HW0 HW1.
  induction fuel as [|fuel IH]; intros expandedItems pallets palletId Hfuel.
  { assert (H := legacyUnits_nonneg expandedItems). lia. }
  cbn [Legacy.optimize_loop].
  destruct (List.length expandedItems =? 0)%nat eqn:Ee.
  { exists []. rewrite app_nil_r. split; [reflexivity|].
    assert (H := legacyUnits_nonneg expandedItems). cbn. lia. }
  apply length_eqb_0_false in Ee.
  destruct (legacy_packPallet_total self HL0 HL1 HW0 HW1 expandedItems palletId)
    as (pallet & Hq).
  rewrite Hq. cbn [bind]. cbv zeta.
  set (left :=
         fold_left Legacy.removePacked
           (flat_map Layer.items (Pallet.layers pallet)) expandedItems).
  assert (Hunits := legacyUnits_positive expandedItems Ee).
  destruct (negb (List.length left =? 0)%nat
            && (List.length (Pallet.layers pallet) =? 0)%nat) eqn:Egive.
  - exists [pallet]. split; [reflexivity|]. cbn. lia.
  - assert (Hlayers : Pallet.layers pallet <> []).
    { intro El. subst left. rewrite El in Egive. cbn in Egive.
      apply length_eqb_0_false in Ee. rewrite Ee in Egive.
      discriminate Egive. }
    assert (Hless := legacy_packPallet_progress self _ _ _ Hq Hlayers).
    fold left in Hless.
    destruct (IH left (pallets ++ [pallet]) (palletId + 1)%Z) as (more & -> & Hm);
      [lia|].
    exists (pallet :: more). rewrite <- app_assoc. split; [reflexivity|].
    cbn [List.length]. lia.
Qed.

(** X21. On a footprint whose sides are positive and within the range of an
    array length, the first version never throws and its loop ends: with
    fuel above the units of the order, counting one for a line that asks
    for none, [optimize] returns, and not more pallets than that count. *)
Theorem legacy_optimize_always_returns :
  forall (self : Legacy.PalletOptimizer) (fuel : nat) (items : list OrderItem),
    0 < PalletSize.length (Legacy.PalletOptimizer.palletSize self) ->
    PalletSize.length (Legacy.PalletOptimizer.palletSize self) <= 4294967295 ->
    0 < PalletSize.width (Legacy.PalletOptimizer.palletSize self) ->
    PalletSize.width (Legacy.PalletOptimizer.palletSize self) <= 4294967295 ->
    (legacyUnits items < Z.of_nat fuel)%Z ->
    exists pallets,
      Legacy.optimize self fuel items = Ok pallets
      /\ (Z.of_nat (List.length pallets) <= legacyUnits items)%Z.
Proof.
  intros self fuel items HL0 HL1 HW0 HW1 Hfuel.
  unfold Legacy.optimize. cbv zeta.
  match goal with
  | |- context [Array_sort ?cmp (Legacy.expandItems items)] =>
      assert (Hunits : legacyUnits (Array_sort cmp (Legacy.expandItems items))
                       = legacyUnits items)
        by (rewrite (legacyUnits_perm _ _ (Array_sort_perm cmp _));
            apply legacyUnits_expandItems);
      set (expandedItems := Array_sort cmp (Legacy.expandItems items)) in *
  end.
  destruct (legacy_optimize_loop_total self HL0 HL1 HW0 HW1 fuel expandedItems
              [] 1%Z) as (more & -> & Hm); [lia|].
  exists more. split; [reflexivity | lia].
Qed.

(** ** The first version on the five boxes *)

Lemma legacy_only_the_last_pallet_is_empty_witness :
  Pallet.id LegacyEx.firstPallet = (1 + Z.of_nat 0)%Z
  /\ Pallet.palletSize LegacyEx.firstPallet
     = Legacy.PalletOptimizer.palletSize LegacyEx.small
  /\ ((1 < List.length LegacyEx.packed)%nat ->
      Pallet.layers LegacyEx.firstPallet <> []).
Proof.
  apply (legacy_only_the_last_pallet_is_empty LegacyEx.small 6 Ex.order
           LegacyEx.packed 0 LegacyEx.firstPallet).
  - vm_compute. reflexivity.
  - vm_compute. reflexivity.
Defined.


Lemma legacy_layer_heights_descend_witness :
  map Layer.height (Pallet.layers LegacyEx.stackedPallet) = [2; 1]
  /\ heightsDescend (Pallet.layers LegacyEx.stackedPallet).
Proof.
  split; [vm_compute; reflexivity|].
  apply (legacy_layer_heights_descend LegacyEx.small 6 Ex.twoLines
           LegacyEx.stacked LegacyEx.stackedPallet).
  - vm_compute. reflexivity.
  - left. reflexivity.
Defined.

Lemma legacy_layers_are_height_homogeneous_witness :
  SKU.height (PlacedItem.sku LegacyEx.firstItem)
  == Layer.height LegacyEx.firstLayer
  /\ placedAsDescribed LegacyEx.firstItem
  /\ exists line,
       In line Ex.order /\ PlacedItem.sku LegacyEx.firstItem = OrderItem.sku line.
Proof.
  apply (legacy_layers_are_height_homogeneous LegacyEx.small 6 Ex.order
           LegacyEx.packed LegacyEx.firstPallet LegacyEx.firstLayer
           LegacyEx.firstItem).
  - vm_compute. reflexivity.
  - left. reflexivity.
  - left. reflexivity.
  - left. reflexivity.
Defined.


Lemma legacy_optimize_always_returns_witness :
  exists pallets,
    Legacy.optimize LegacyEx.small 6 Ex.order = Ok pallets
    /\ (Z.of_nat (List.length pallets) <= legacyUnits Ex.order)%Z.
Proof.
  apply (legacy_optimize_always_returns LegacyEx.small 6 Ex.order).
  - reflexivity.
  - vm_compute. discriminate.
  - reflexivity.
  - vm_compute. discriminate.
  - vm_compute. reflexivity.
Defined.

Lemma legacy_freight_class_takes_the_height_as_it_is_witness :
  f64_leb (binary64_of_Q EPSILON) (binary64_of_Q 2) = true
  /\ Legacy.calculateFreightClass LegacyEx.small 20 2
     = calculateFreightClass (rewritten LegacyEx.small) 20 2.
Proof.
  assert (H : f64_leb (binary64_of_Q EPSILON) (binary64_of_Q 2) = true)
    by (vm_compute; reflexivity).
  split; [exact H|].
  apply (legacy_freight_class_takes_the_height_as_it_is LegacyEx.small 20 2).
  exact H.
Defined.
